(** * World Monitor: dashboard client and aggregation core

    A shallow embedding of the browser client of the World Monitor
    dashboard ([static/js/map.js], the [WorldMap] module, and
    [static/js/dashboard.js], the [Dashboard] module), together with
    models of the server-side cache, earthquake fetcher and RSS fetcher,
    whose Python sources ([services/cache.py],
    [services/earthquake_service.py], [services/rss_service.py]) are not
    part of the excerpt and are modelled from the specification.

    Conventions of the embedding.
    - JavaScript values that the code tests for truthiness or strict
      equality are embedded as [Js.value]; fields the code uses
      unconditionally carry their declared type.
    - Browser objects (the DOM, Leaflet layer groups, the console, the
      timer table, the log of [fetch] calls, the network) are fields of
      one explicit state [world]; code that can throw runs in the
      state-and-exception monad [M].
    - A promise is represented by its settlement ([settled]); [then_] and
      [catch_] run their handler when the promise is settled.  A response
      is taken to arrive as soon as it is requested, so the handlers of
      one chain run before the next statement; the requests are logged
      in the order of the [fetch] calls, which this does not change, and
      the loaders of dashboard.js write disjoint elements and groups.
    - Leaflet (1.x) is embedded by what its calls do to these fields: a
      constructor call ([L.marker], [L.circle], [L.polyline]) returns a
      layer or throws on a coordinate that is not a number; a layer
      group stores the layers added to it; and a layer built from a
      [null] latitude, which has no position, throws when it is put on
      the map.
    - Functions of the platform that the sources call but do not define
      (number formatting and parsing, DOM serialisation, URI encoding,
      date parsing, the code units of a string, the members every object
      inherits) are the members of the [Platform] class. *)

From Stdlib Require Import ZArith QArith Qround Lia List Ascii String DecimalString.
From stdpp Require Import base option list gmap strings sorting.

Set Warnings "-register-all".

(* ===================================================================== *)
(** ** JavaScript values *)
(* ===================================================================== *)

Module Js.

(** The values a JSON payload can put in a scalar field, and
    [undefined] for a field that is missing. *)
Inductive value : Type :=
| Undefined
| Null
| Bool (b : bool)
| Num (q : Q)
| Str (s : string).

(** [ToBoolean]: [undefined], [null], [false], [0] and [''] are falsy. *)
Definition truthy (v : value) : bool :=
  match v with
  | Undefined | Null => false
  | Bool b => b
  | Num q => negb (Qeq_bool q 0)
  | Str s => negb (String.eqb s "")
  end.

Definition falsy (v : value) : bool := negb (truthy v).

(** [v === 0]: strict equality with the number zero. *)
Definition strict_eq_zero (v : value) : bool :=
  match v with
  | Num q => Qeq_bool q 0
  | _ => false
  end.

(** A field that is missing from the record or [null] in the JSON. *)
Definition absent (v : value) : bool :=
  match v with
  | Undefined | Null => true
  | _ => false
  end.

(** [a || b] *)
Definition or (a b : value) : value := if truthy a then a else b.

End Js.

(** Platform functions used, but not defined, by the sources. *)
Class Platform : Type := {
  (** [Number.prototype.toFixed(1)] *)
  toFixed1 : Q -> string;
  (** [String(n)] for a number [n], as done by a template literal *)
  num_to_string : Q -> string;
  (** serialisation of a text node: [div.textContent = t; div.innerHTML] *)
  dom_serialize : string -> string;
  encodeURIComponent : string -> string;
  (** [String.prototype.toUpperCase] *)
  toUpperCase : string -> string;
  (** [new Date(s).getTime()]; [None] is [NaN] (an invalid date) *)
  Date_parse : string -> option Z;
  (** [new Date(ms).toISOString()] *)
  Date_toISOString : Z -> string;
  (** [Number(s)] for a string [s]; [None] is [NaN] *)
  Number_of_string : string -> option Q;
  (** the UTF-16 code units of a string, which [<] and [sort()]
      compare *)
  code_units : string -> list N;
  (** [String(Object.prototype[k])] for a key [k] that every object
      inherits ([constructor], [toString], ...), [None] for a key that
      [Object.prototype] does not have *)
  inherited_member : string -> option string
}.

(** [String(v)] for a value interpolated into a template literal. *)
Definition to_display `{Platform} (v : Js.value) : string :=
  match v with
  | Js.Undefined => "undefined"
  | Js.Null => "null"
  | Js.Bool true => "true"
  | Js.Bool false => "false"
  | Js.Num q => num_to_string q
  | Js.Str s => s
  end.

(* ===================================================================== *)
(** ** HTML fragments *)
(* ===================================================================== *)

(** The markup the templates build, as the tree the browser parses it
    into: white space between tags is not represented. *)
Module Html.

Inductive node : Type :=
| El (tag cls : string) (onclick : option string) (kids : list node)
| Option_ (value : string) (selected : bool) (label : string)
| Tx (text : string).

Definition div (cls : string) (kids : list node) : node :=
  El "div" cls None kids.

(** [<div class="loading">msg</div>] *)
Definition loading (msg : string) : list node := [div "loading" [Tx msg]].

End Html.

(* ===================================================================== *)
(** ** Leaflet layers *)
(* ===================================================================== *)

Module Leaflet.

(** [L.divIcon] instances built by the [icons] table of map.js. *)
Inductive icon : Type :=
| EarthquakeIcon (size : Q) (color : string)
| HotspotIcon (color : string)
| BaseIcon (color : string)
| NuclearIcon
| WaterwayIcon
| DisasterIcon (color : string)
| ConflictEventIcon.

Definition latlng : Type := (Js.value * Js.value)%type.

(** A layer as the code constructs it: the arguments of the constructor
    call and the popup bound to the layer.  Whether the call returns,
    and whether the layer has a position, is decided from the
    arguments by [WorldMap.construct] and [WorldMap.unplaceable]. *)
Inductive layer : Type :=
| Marker (pos : latlng) (ic : icon) (popup : list Html.node)
| Circle (pos : latlng) (radius : Q) (color : string)
         (popup : list Html.node)
| Polyline (latlngs : list latlng) (popup : list Html.node)
| MarkerCluster (members : list layer).

End Leaflet.

(* ===================================================================== *)
(** ** Records served by the HTTP API *)
(* ===================================================================== *)

Module Data.

Record NewsItem : Type := {
  news_source : string;
  news_title : string;
  news_link : string;
  news_published : string;
  news_summary : Js.value;
  is_alert : bool
}.

Record GdeltEvent : Type := {
  gdelt_url : string;
  gdelt_source : Js.value;
  gdelt_title : string
}.

Record EarthquakeEvent : Type := {
  eq_lat : Js.value;
  eq_lng : Js.value;
  eq_magnitude : Q;
  eq_place : string;
  eq_depth : Q;
  eq_tsunami : Js.value;
  eq_felt : Js.value
}.

Record ConflictZone : Type := {
  zone_lat : Js.value;
  zone_lng : Js.value;
  zone_radius : Q;
  zone_color : string;
  zone_name : string;
  zone_status : string;
  zone_description : string
}.

Record Hotspot : Type := {
  hs_lat : Js.value;
  hs_lng : Js.value;
  hs_level : string;
  hs_name : string;
  hs_description : string
}.

Record Base : Type := {
  base_lat : Js.value;
  base_lng : Js.value;
  base_operator : string;
  base_name : string;
  base_type : string
}.

Record Nuclear : Type := {
  fac_lat : Js.value;
  fac_lng : Js.value;
  fac_name : string;
  fac_type : string;
  fac_country : string
}.

Record Waterway : Type := {
  ww_lat : Js.value;
  ww_lng : Js.value;
  ww_name : string;
  ww_traffic : string;
  ww_controlled_by : string
}.

(** [cable_points] is [None] when the [points] field is missing or
    [null]; a point is the array [[lat, lng]]. *)
Record Cable : Type := {
  cable_points : option (list (list Js.value));
  cable_name : string;
  cable_capacity : string;
  cable_route : string
}.

Record DisasterEvent : Type := {
  dis_lat : Js.value;
  dis_lng : Js.value;
  dis_category : string;
  dis_title : string;
  dis_alert_level : Js.value;
  dis_source : string
}.

Record ConflictEvent : Type := {
  ev_lat : Js.value;
  ev_lng : Js.value;
  ev_type : Js.value;
  ev_sub_type : Js.value;
  ev_notes : Js.value;
  ev_country : Js.value;
  ev_region : Js.value;
  ev_date : Js.value;
  ev_fatalities : Js.value
}.

End Data.

(* ===================================================================== *)
(** ** The browser state and the monad of client code *)
(* ===================================================================== *)

Module Browser.
Import Data.

Inductive error : Type :=
| TypeError (msg : string)
| Error_ (msg : string)        (* [throw new Error(msg)] *)
| SyntaxError
| NetworkError.

(** What parsing a response body as JSON yields.  [POther len] stands
    for any value other than [null] and an array (an object, a string, a
    number, a boolean): it has no [forEach], [filter] or [map], and its
    [length] property reads [len], which is [undefined] when it has
    none. *)
Inductive payload (A : Type) : Type :=
| PNull
| POther (len : Js.value)
| PArray (items : list A).
Arguments PNull {A}.
Arguments POther {A} len.
Arguments PArray {A} items.

(** What the network answers to one request. *)
Inductive reply (A : Type) : Type :=
| NetFail                     (* [fetch] rejects *)
| NotJson                     (* [r.json()] rejects *)
| Json (p : payload A).
Arguments NetFail {A}.
Arguments NotJson {A}.
Arguments Json {A} p.

Record network : Type := {
  net_news : string -> reply NewsItem;
  net_earthquakes : reply EarthquakeEvent;
  net_conflict_zones : reply ConflictZone;
  net_hotspots : reply Hotspot;
  net_gdelt : reply GdeltEvent;
  net_conflicts : reply ConflictEvent;
  net_disasters : reply DisasterEvent;
  net_bases : reply Base;
  net_nuclear : reply Nuclear;
  net_waterways : reply Waterway;
  net_cables : reply Cable
}.

Record element : Type := {
  innerHTML : list Html.node;
  textContent : string;
  el_value : string;
  classList : list string;
  checked : bool
}.

(** Callbacks handed to [setInterval] and [addEventListener]. *)
Inductive callback : Type :=
| CbClockUpdate
| CbLoadAllData
| CbRefreshClick
| CbAlertsClick
| CbLayersClick
| CbSourceChange
| CbTabClick (tab : string)
| CbLayerToggle (checkboxId layerName : string).

Record world : Type := {
  (** elements by the selector the code finds them with *)
  dom : gmap string element;
  (** [data-tab] of the elements of class [tab] *)
  tabs : list string;
  (** [layerGroups] of map.js: the layers of each group, oldest first *)
  layerGroups : gmap string (list Leaflet.layer);
  (** the groups currently added to the map *)
  onMap : list string;
  (** URLs passed to [fetch], oldest first *)
  requests : list string;
  (** lines written with [console.error] *)
  console : list string;
  (** [setInterval] registrations: callback and period in ms *)
  timers : list (callback * Z);
  (** [addEventListener] registrations: selector, event, callback *)
  listeners : list (string * string * callback);
  (** [alertsOnly] of dashboard.js *)
  alertsOnly : bool;
  (** the clock, in ms since the epoch *)
  now : Z;
  net : network
}.

Definition with_dom (d : gmap string element) (w : world) : world :=
  {| dom := d; tabs := tabs w; layerGroups := layerGroups w;
     onMap := onMap w; requests := requests w; console := console w;
     timers := timers w; listeners := listeners w;
     alertsOnly := alertsOnly w; now := now w; net := net w |}.

Definition with_layerGroups (g : gmap string (list Leaflet.layer))
    (w : world) : world :=
  {| dom := dom w; tabs := tabs w; layerGroups := g;
     onMap := onMap w; requests := requests w; console := console w;
     timers := timers w; listeners := listeners w;
     alertsOnly := alertsOnly w; now := now w; net := net w |}.

Definition with_onMap (l : list string) (w : world) : world :=
  {| dom := dom w; tabs := tabs w; layerGroups := layerGroups w;
     onMap := l; requests := requests w; console := console w;
     timers := timers w; listeners := listeners w;
     alertsOnly := alertsOnly w; now := now w; net := net w |}.

Definition with_requests (l : list string) (w : world) : world :=
  {| dom := dom w; tabs := tabs w; layerGroups := layerGroups w;
     onMap := onMap w; requests := l; console := console w;
     timers := timers w; listeners := listeners w;
     alertsOnly := alertsOnly w; now := now w; net := net w |}.

Definition with_console (l : list string) (w : world) : world :=
  {| dom := dom w; tabs := tabs w; layerGroups := layerGroups w;
     onMap := onMap w; requests := requests w; console := l;
     timers := timers w; listeners := listeners w;
     alertsOnly := alertsOnly w; now := now w; net := net w |}.

Definition with_timers (l : list (callback * Z)) (w : world) : world :=
  {| dom := dom w; tabs := tabs w; layerGroups := layerGroups w;
     onMap := onMap w; requests := requests w; console := console w;
     timers := l; listeners := listeners w;
     alertsOnly := alertsOnly w; now := now w; net := net w |}.

Definition with_listeners (l : list (string * string * callback))
    (w : world) : world :=
  {| dom := dom w; tabs := tabs w; layerGroups := layerGroups w;
     onMap := onMap w; requests := requests w; console := console w;
     timers := timers w; listeners := l;
     alertsOnly := alertsOnly w; now := now w; net := net w |}.

Definition with_alertsOnly (b : bool) (w : world) : world :=
  {| dom := dom w; tabs := tabs w; layerGroups := layerGroups w;
     onMap := onMap w; requests := requests w; console := console w;
     timers := timers w; listeners := listeners w;
     alertsOnly := b; now := now w; net := net w |}.

(** *** The monad: state, and an exception that keeps the state *)

Inductive result (A : Type) : Type :=
| Ok (a : A)
| Throw (e : error).
Arguments Ok {A} a.
Arguments Throw {A} e.

Definition M (A : Type) : Type := world -> result A * world.

Definition ret {A} (a : A) : M A := fun w => (Ok a, w).

Definition bind {A B} (m : M A) (k : A -> M B) : M B :=
  fun w =>
    match m w with
    | (Ok a, w') => k a w'
    | (Throw e, w') => (Throw e, w')
    end.

Definition throw {A} (e : error) : M A := fun w => (Throw e, w).

Definition gets {A} (f : world -> A) : M A := fun w => (Ok (f w), w).

Definition modify (f : world -> world) : M unit := fun w => (Ok tt, f w).

#[export] Instance M_ret : MRet M := @ret.
#[export] Instance M_bind : MBind M := fun A B k m => bind m k.

(** The state a computation leaves, and what it returns. *)
Definition exec {A} (m : M A) (w : world) : world := snd (m w).
Definition eval {A} (m : M A) (w : world) : result A := fst (m w).

(** [l.forEach(f)] *)
Fixpoint forEach {A} (f : A -> M unit) (l : list A) : M unit :=
  match l with
  | [] => ret tt
  | x :: l' => f x ;; forEach f l'
  end.

(** *** Promises *)

Inductive settled (A : Type) : Type :=
| Fulfilled (a : A)
| Rejected (e : error).
Arguments Fulfilled {A} a.
Arguments Rejected {A} e.

(** [p.then(f)]: a handler that throws rejects the derived promise. *)
Definition then_ {A B} (p : settled A) (f : A -> M B) : M (settled B) :=
  match p with
  | Rejected e => ret (Rejected e)
  | Fulfilled a =>
      fun w =>
        match f a w with
        | (Ok b, w') => (Ok (Fulfilled b), w')
        | (Throw e, w') => (Ok (Rejected e), w')
        end
  end.

(** [p.catch(h)] *)
Definition catch_ {A} (p : settled A) (h : error -> M A) : M (settled A) :=
  match p with
  | Fulfilled a => ret (Fulfilled a)
  | Rejected e =>
      fun w =>
        match h e w with
        | (Ok a, w') => (Ok (Fulfilled a), w')
        | (Throw e', w') => (Ok (Rejected e'), w')
        end
  end.

(** [Promise.all(ps)]: rejected as soon as one of [ps] is. *)
Fixpoint Promise_all (ps : list (settled unit)) : settled unit :=
  match ps with
  | [] => Fulfilled tt
  | Fulfilled _ :: ps' => Promise_all ps'
  | Rejected e :: _ => Rejected e
  end.

(** [fetch(url)]: the request is logged; the promise is rejected when
    the network fails and fulfilled with the response otherwise. *)
Definition fetch {A} (url : string) (r : network -> reply A)
    : M (settled (reply A)) :=
  w ← gets id;
  modify (with_requests (requests w ++ [url])) ;;
  match r (net w) with
  | NetFail => ret (Rejected NetworkError)
  | rp => ret (Fulfilled rp)
  end.

(** [r.json()] *)
Definition json {A} (r : reply A) : M (settled (payload A)) :=
  match r with
  | Json p => ret (Fulfilled p)
  | _ => ret (Rejected SyntaxError)
  end.

(** [p.then(r => r.json())]: the promise returned by the handler is
    adopted. *)
Definition then_json {A} (p : settled (reply A)) : M (settled (payload A)) :=
  match p with
  | Rejected e => ret (Rejected e)
  | Fulfilled r => json r
  end.

(** *** The DOM *)

Definition set_innerHTML_of (h : list Html.node) (e : element) : element :=
  {| innerHTML := h; textContent := textContent e; el_value := el_value e;
     classList := classList e; checked := checked e |}.

Definition set_textContent_of (t : string) (e : element) : element :=
  {| innerHTML := innerHTML e; textContent := t; el_value := el_value e;
     classList := classList e; checked := checked e |}.

Definition set_value_of (v : string) (e : element) : element :=
  {| innerHTML := innerHTML e; textContent := textContent e; el_value := v;
     classList := classList e; checked := checked e |}.

Definition set_classList_of (c : list string) (e : element) : element :=
  {| innerHTML := innerHTML e; textContent := textContent e;
     el_value := el_value e; classList := c; checked := checked e |}.

Definition null_access (sel : string) : error :=
  TypeError ("null has no properties: " +:+ sel).

(** [document.getElementById(sel).prop], a [TypeError] when the element
    does not exist. *)
Definition read {A} (sel : string) (prop : element -> A) : M A :=
  d ← gets dom;
  match d !! sel with
  | Some e => ret (prop e)
  | None => throw (null_access sel)
  end.

(** [document.getElementById(sel).prop = v] *)
Definition update (sel : string) (f : element -> element) : M unit :=
  d ← gets dom;
  match d !! sel with
  | Some e => modify (with_dom (<[sel := f e]> d))
  | None => throw (null_access sel)
  end.

Definition set_innerHTML (sel : string) (h : list Html.node) : M unit :=
  update sel (set_innerHTML_of h).

Definition set_textContent (sel t : string) : M unit :=
  update sel (set_textContent_of t).

Definition console_error (line : string) : M unit :=
  modify (fun w => with_console (console w ++ [line]) w).

Definition setInterval (cb : callback) (ms : Z) : M unit :=
  modify (fun w => with_timers (timers w ++ [(cb, ms)]) w).

(** [el.addEventListener(ev, cb)] for an element [el] in hand, found
    with [sel]. *)
Definition listen (sel ev : string) (cb : callback) : M unit :=
  modify (fun w => with_listeners (listeners w ++ [(sel, ev, cb)]) w).

(** [document.getElementById(sel).addEventListener(ev, cb)] *)
Definition addEventListener (sel ev : string) (cb : callback) : M unit :=
  _ ← read sel id;
  listen sel ev cb.

End Browser.

(* ===================================================================== *)
(** ** map.js: the [WorldMap] module *)
(* ===================================================================== *)

Module WorldMap.
Import Data Browser Leaflet.

Section Updates.
Context `{Platform}.

(** [table[key] || dflt] for an object literal whose values are
    non-empty strings: the value of an own key; else the member every
    object inherits from [Object.prototype] under that key (a function
    or an object, which is truthy and is shown as [String] of it); else
    the default. *)
Fixpoint lookup_or (table : list (string * string)) (key dflt : string)
    : string :=
  match table with
  | [] =>
      match inherited_member key with
      | Some shown => shown
      | None => dflt
      end
  | (k, v) :: table' =>
      if String.eqb k key then v else lookup_or table' key dflt
  end.

(** [urls[name]] *)
Fixpoint lookup_url (name : string) (urls : list (string * string))
    : option string :=
  match urls with
  | [] => None
  | (k, v) :: urls' =>
      if String.eqb k name then Some v else lookup_url name urls'
  end.

(** [Math.max(a, b)] *)
Definition Math_max (a b : Q) : Q := if Qle_bool a b then b else a.

(** *** [icons] *)

Definition icons_earthquake (mag : Q) : icon :=
  let size := Math_max 8 (mag * 4) in
  let color := if Qle_bool 5 mag then "#ff4444" else "#ff8800" in
  EarthquakeIcon size color.

Definition icons_hotspot (level : string) : icon :=
  let colors :=
    [("high", "#ff4444"); ("medium", "#ff8800"); ("low", "#ffcc00")] in
  HotspotIcon (lookup_or colors level "#ffcc00").

Definition icons_base (operator : string) : icon :=
  let colors :=
    [("US", "#3b82f6"); ("US/NATO", "#3b82f6"); ("US/UK", "#3b82f6");
     ("Russia", "#ef4444"); ("China", "#f97316"); ("France", "#818cf8");
     ("UK", "#6366f1")] in
  BaseIcon (lookup_or colors operator "#94a3b8").

Definition icons_nuclear : icon := NuclearIcon.
Definition icons_waterway : icon := WaterwayIcon.

Definition icons_disaster (category : string) : icon :=
  let colors :=
    [("Wildfires", "#ff6600"); ("Volcanoes", "#cc3300");
     ("Severe Storms", "#6644ff"); ("Floods", "#2288ff")] in
  DisasterIcon (lookup_or colors category "#ff8800").

Definition icons_conflict_event : icon := ConflictEventIcon.

(** *** Layer groups *)

Definition layerNames : list string :=
  ["earthquakes"; "conflicts"; "hotspots"; "bases"; "nuclear";
   "waterways"; "cables"; "disasters"; "conflict-events"].

Definition no_group (name : string) : error :=
  TypeError ("layerGroups[" +:+ name +:+ "] is undefined").

(** [layerGroups[name].clearLayers()] *)
Definition clearLayers (name : string) : M unit :=
  g ← gets layerGroups;
  match g !! name with
  | Some _ => modify (with_layerGroups (<[name := []]> g))
  | None => throw (no_group name)
  end.

(** *** Leaflet's coordinates *)

(** [isNaN(v)] *)
Definition isNaN (v : Js.value) : bool :=
  match v with
  | Js.Undefined => true
  | Js.Null | Js.Bool _ | Js.Num _ => false
  | Js.Str s =>
      match Number_of_string s with
      | None => true
      | Some _ => false
      end
  end.

(** [typeof v === 'object'] for a scalar [v]: only [null]. *)
Definition is_null (v : Js.value) : bool :=
  match v with
  | Js.Null => true
  | _ => false
  end.

Definition is_undefined (v : Js.value) : bool :=
  match v with
  | Js.Undefined => true
  | _ => false
  end.

(** Leaflet's [toLatLng([lat, lng])] is [new LatLng(lat, lng)], which
    throws ['Invalid LatLng object'] when [isNaN] holds of a coordinate;
    except that it is [null] when [lat] is [null], an object to
    [typeof].  [invalid_latlng] is the first case, [located] the case
    in which a [LatLng] is returned. *)
Definition invalid_latlng (p : latlng) : bool :=
  negb (is_null p.1) && (isNaN p.1 || isNaN p.2).

Definition located (p : latlng) : bool :=
  negb (is_null p.1) && negb (isNaN p.1) && negb (isNaN p.2).

(** Leaflet's [isFlat(latlngs)] for an array of arrays of scalars: the
    first coordinate of the first point is neither an object nor
    [undefined].  An array that is not flat is taken for an array of
    rings, and its coordinates are not converted. *)
Definition is_flat (latlngs : list latlng) : bool :=
  match latlngs with
  | [] => true
  | p :: _ => negb (is_null p.1) && negb (is_undefined p.1)
  end.

(** Whether the constructor call that makes [ly] throws: [L.marker] and
    [L.circle] convert their position, [L.polyline] the points of a
    flat array, in order. *)
Definition throws_on_construction (ly : layer) : bool :=
  match ly with
  | Marker pos _ _ | Circle pos _ _ _ => invalid_latlng pos
  | Polyline latlngs _ => is_flat latlngs && existsb invalid_latlng latlngs
  | MarkerCluster _ => false
  end.

(** Whether a layer that was constructed lacks a position: shown on
    the map, its projection reads [lat] of [null] and throws. *)
Definition unplaceable (ly : layer) : bool :=
  match ly with
  | Marker pos _ _ | Circle pos _ _ _ => negb (located pos)
  | Polyline latlngs _ => negb (forallb located latlngs)
  | MarkerCluster _ => false
  end.

(** The [Error] of [new LatLng], whose message begins with these words,
    and the [TypeError] of a projection that reads [lat] of [null]. *)
Definition invalid_latlng_error : error := Error_ "Invalid LatLng object".
Definition null_position_error : error :=
  TypeError "null has no properties: lat".

(** A call of [L.marker], [L.circle] or [L.polyline] with the arguments
    that [ly] records. *)
Definition construct (ly : layer) : M layer :=
  if throws_on_construction ly then throw invalid_latlng_error else ret ly.

(** [layerGroups[name].addLayer(l)]: the layer is stored in the group
    and, when the group is on the map, added to the map, which throws
    for a layer without a position. *)
Definition addLayer (name : string) (l : layer) : M unit :=
  g ← gets layerGroups;
  match g !! name with
  | Some ls =>
      modify (with_layerGroups (<[name := ls ++ [l]]> g)) ;;
      shown ← gets onMap;
      if bool_decide (name ∈ shown) && unplaceable l
      then throw null_position_error
      else ret tt
  | None => throw (no_group name)
  end.

(** [layerGroups[name].getLayers()] *)
Definition getLayers (name : string) : M (list layer) :=
  g ← gets layerGroups;
  match g !! name with
  | Some ls => ret ls
  | None => throw (no_group name)
  end.

(** [layerGroups[name].addTo(map)]: nothing for a group that is on the
    map; else the group is recorded as shown and its layers are added to
    the map, which throws at the first one without a position. *)
Definition addTo_map (name : string) : M unit :=
  ls ← getLayers name;
  shown ← gets onMap;
  if bool_decide (name ∈ shown) then ret tt
  else
    modify (with_onMap (shown ++ [name])) ;;
    if existsb unplaceable ls then throw null_position_error else ret tt.

(** [map.removeLayer(layerGroups[name])] *)
Definition removeLayer (name : string) : M unit :=
  modify (fun w =>
    with_onMap (List.filter (fun n => negb (String.eqb n name)) (onMap w)) w).

(** The receiver of [data.forEach]: only an array has the method. *)
Definition array_of {A} (data : payload A) : M (list A) :=
  match data with
  | PArray l => ret l
  | POther _ => throw (TypeError "data.forEach is not a function")
  | PNull => throw (TypeError "null has no properties: forEach")
  end.

(** *** The update functions

    For each kind of record a function ([earthquakeMarker],
    [zoneCircle], ...) gives the layer the code asks Leaflet for: the
    arguments of the constructor call and the popup bound to its
    result.  The call itself is [construct]. *)

Definition h4 (t : string) : Html.node := Html.El "h4" "" None [Html.Tx t].
Definition detail (t : string) : Html.node :=
  Html.div "popup-detail" [Html.Tx t].
Definition ptype (t : string) : Html.node :=
  Html.div "popup-type" [Html.Tx t].

(** [c ? t : ''] inside a template *)
Definition when_ (c : bool) (n : Html.node) : list Html.node :=
  if c then [n] else [].

Definition earthquakeMarker (eq : EarthquakeEvent) : layer :=
  Marker (eq_lat eq, eq_lng eq) (icons_earthquake (eq_magnitude eq))
    ([h4 ("M" +:+ toFixed1 (eq_magnitude eq) +:+ " Earthquake");
      detail (eq_place eq);
      detail ("Depth: " +:+ toFixed1 (eq_depth eq) +:+ " km")]
     ++ when_ (Js.truthy (eq_tsunami eq)) (ptype "TSUNAMI WARNING")
     ++ when_ (Js.truthy (eq_felt eq))
          (detail ("Felt by " +:+ to_display (eq_felt eq) +:+ " people"))).

Definition updateEarthquakes (data : payload EarthquakeEvent) : M unit :=
  clearLayers "earthquakes" ;;
  l ← array_of data;
  forEach (fun eq =>
    marker ← construct (earthquakeMarker eq);
    addLayer "earthquakes" marker) l.

Definition zoneCircle (zone : ConflictZone) : layer :=
  Circle (zone_lat zone, zone_lng zone) (zone_radius zone)
    (zone_color zone)
    [h4 (zone_name zone); ptype (zone_status zone);
     detail (zone_description zone)].

Definition updateConflictZones (data : payload ConflictZone) : M unit :=
  clearLayers "conflicts" ;;
  l ← array_of data;
  forEach (fun zone =>
    circle ← construct (zoneCircle zone);
    addLayer "conflicts" circle) l.

Definition hotspotMarker (hs : Hotspot) : layer :=
  Marker (hs_lat hs, hs_lng hs) (icons_hotspot (hs_level hs))
    [h4 (hs_name hs); ptype (toUpperCase (hs_level hs) +:+ " RISK");
     detail (hs_description hs)].

Definition updateHotspots (data : payload Hotspot) : M unit :=
  clearLayers "hotspots" ;;
  l ← array_of data;
  forEach (fun hs =>
    marker ← construct (hotspotMarker hs);
    addLayer "hotspots" marker) l.

Definition baseMarker (base : Base) : layer :=
  Marker (base_lat base, base_lng base) (icons_base (base_operator base))
    [h4 (base_name base);
     ptype (base_operator base +:+ " - " +:+ base_type base)].

Definition updateBases (data : payload Base) : M unit :=
  clearLayers "bases" ;;
  l ← array_of data;
  forEach (fun base =>
    marker ← construct (baseMarker base);
    addLayer "bases" marker) l.

Definition nuclearMarker (fac : Nuclear) : layer :=
  Marker (fac_lat fac, fac_lng fac) icons_nuclear
    [h4 (fac_name fac); ptype (fac_type fac); detail (fac_country fac)].

Definition updateNuclear (data : payload Nuclear) : M unit :=
  clearLayers "nuclear" ;;
  l ← array_of data;
  forEach (fun fac =>
    marker ← construct (nuclearMarker fac);
    addLayer "nuclear" marker) l.

Definition waterwayMarker (ww : Waterway) : layer :=
  Marker (ww_lat ww, ww_lng ww) icons_waterway
    [h4 (ww_name ww); detail ("Traffic: " +:+ ww_traffic ww);
     detail ("Controlled by: " +:+ ww_controlled_by ww)].

Definition updateWaterways (data : payload Waterway) : M unit :=
  clearLayers "waterways" ;;
  l ← array_of data;
  forEach (fun ww =>
    marker ← construct (waterwayMarker ww);
    addLayer "waterways" marker) l.

(** [p => [p[0], p[1]]]: an index past the end reads [undefined]. *)
Definition point_latlng (p : list Js.value) : latlng :=
  (nth 0 p Js.Undefined, nth 1 p Js.Undefined).

Definition cableLine (points : list (list Js.value)) (cable : Cable)
    : layer :=
  Polyline (map point_latlng points)
    [h4 (cable_name cable);
     detail ("Capacity: " +:+ cable_capacity cable);
     detail ("Route: " +:+ cable_route cable)].

(** [cable.points && cable.points.length >= 2]: an array is truthy
    whatever its length. *)
Definition updateCables (data : payload Cable) : M unit :=
  clearLayers "cables" ;;
  l ← array_of data;
  forEach (fun cable =>
    match cable_points cable with
    | Some points =>
        if (2 <=? length points)%nat
        then
          line ← construct (cableLine points cable);
          addLayer "cables" line
        else ret tt
    | None => ret tt
    end) l.

Definition disasterMarker (d : DisasterEvent) : layer :=
  Marker (dis_lat d, dis_lng d) (icons_disaster (dis_category d))
    [h4 (dis_title d);
     ptype (dis_category d +:+ " " +:+
            (if Js.truthy (dis_alert_level d)
             then "- " +:+ to_display (dis_alert_level d) else ""));
     detail ("Source: " +:+ dis_source d)].

(** The guard [d.lat === 0 && d.lng === 0]. *)
Definition zero_coordinates (d : DisasterEvent) : bool :=
  Js.strict_eq_zero (dis_lat d) && Js.strict_eq_zero (dis_lng d).

Definition updateDisasters (data : payload DisasterEvent) : M unit :=
  clearLayers "disasters" ;;
  l ← array_of data;
  forEach (fun d =>
    if zero_coordinates d then ret tt
    else
      marker ← construct (disasterMarker d);
      addLayer "disasters" marker) l.

Definition conflictMarker (ev : ConflictEvent) : layer :=
  Marker (ev_lat ev, ev_lng ev) icons_conflict_event
    ([h4 (to_display (Js.or (ev_type ev) (Js.Str "Conflict Event")));
      ptype (to_display
               (Js.or (Js.or (ev_sub_type ev) (ev_notes ev)) (Js.Str "")));
      detail (to_display (Js.or (ev_country ev) (Js.Str "")) +:+ " " +:+
              (if Js.truthy (ev_region ev)
               then "- " +:+ to_display (ev_region ev) else ""));
      detail ("Date: " +:+ to_display (Js.or (ev_date ev) (Js.Str "")))]
     ++ when_ (Js.truthy (ev_fatalities ev))
          (detail ("Fatalities: " +:+ to_display (ev_fatalities ev)))).

(** The guard [!ev.lat || !ev.lng]. *)
Definition falsy_coordinate (ev : ConflictEvent) : bool :=
  negb (Js.truthy (ev_lat ev)) || negb (Js.truthy (ev_lng ev)).

(** The body of the [forEach] of [updateConflictEvents], run on the
    local [cluster]: the markers it holds are threaded as [cluster].
    [cluster.addLayer] of a cluster that is not on a map stores the
    marker. *)
Definition cluster_step (cluster : list layer) (ev : ConflictEvent)
    : M (list layer) :=
  if falsy_coordinate ev then ret cluster
  else
    marker ← construct (conflictMarker ev);
    ret (cluster ++ [marker]).

(** [l.forEach(step)] for a body that updates a local object. *)
Fixpoint forEach_on {A S} (step : S -> A -> M S) (l : list A) (s : S)
    : M S :=
  match l with
  | [] => ret s
  | x :: l' => s' ← step s x; forEach_on step l' s'
  end.

Definition updateConflictEvents (data : payload ConflictEvent) : M unit :=
  clearLayers "conflict-events" ;;
  l ← array_of data;
  cluster ← forEach_on cluster_step l [];
  addLayer "conflict-events" (MarkerCluster cluster).

(** *** [loadLayerData] *)

Definition layer_urls : list (string * string) :=
  [("bases", "/api/layers/military-bases");
   ("nuclear", "/api/layers/nuclear");
   ("waterways", "/api/layers/waterways");
   ("cables", "/api/layers/cables");
   ("disasters", "/api/disasters");
   ("conflict-events", "/api/conflicts")].

(** [fetch(url).then(r => r.json()).then(render)]; the chain has no
    [catch] and its promise is dropped. *)
Definition fetch_render {A} (url : string) (r : network -> reply A)
    (render : payload A -> M unit) : M unit :=
  p ← fetch url r;
  d ← then_json p;
  _ ← then_ d render;
  ret tt.

(** The [then] handler of [loadLayerData] selects the update function
    by [name]; the typed request is selected with it.  Every key of
    [layer_urls] is one of the six names. *)
Definition loadLayerData (name : string) : M unit :=
  match lookup_url name layer_urls with
  | None => ret tt
  | Some url =>
      if String.eqb name "bases" then
        fetch_render url net_bases updateBases
      else if String.eqb name "nuclear" then
        fetch_render url net_nuclear updateNuclear
      else if String.eqb name "waterways" then
        fetch_render url net_waterways updateWaterways
      else if String.eqb name "cables" then
        fetch_render url net_cables updateCables
      else if String.eqb name "disasters" then
        fetch_render url net_disasters updateDisasters
      else if String.eqb name "conflict-events" then
        fetch_render url net_conflicts updateConflictEvents
      else ret tt
  end.

(** *** [init] and the layer toggles *)

Definition toggle_mapping : list (string * string) :=
  [("layer-earthquakes", "earthquakes"); ("layer-conflicts", "conflicts");
   ("layer-hotspots", "hotspots"); ("layer-bases", "bases");
   ("layer-nuclear", "nuclear"); ("layer-waterways", "waterways");
   ("layer-cables", "cables"); ("layer-disasters", "disasters");
   ("layer-conflict-events", "conflict-events")].

Definition setupLayerToggles : M unit :=
  forEach (fun '(checkboxId, layerName) =>
    d ← gets dom;
    match d !! checkboxId with
    | None => ret tt
    | Some _ =>
        listen checkboxId "change" (CbLayerToggle checkboxId layerName)
    end) toggle_mapping.

(** The [change] listener of a layer checkbox. *)
Definition onLayerToggle (checkboxId layerName : string) : M unit :=
  c ← read checkboxId checked;
  if c : bool then
    addTo_map layerName ;;
    ls ← getLayers layerName;
    if (length ls =? 0)%nat then loadLayerData layerName else ret tt
  else removeLayer layerName.

(** The Leaflet map object and its tile layer are not represented: of
    the map, only the groups added to it are. *)
Definition init : M unit :=
  forEach (fun name =>
    modify (fun w => with_layerGroups (<[name := []]> (layerGroups w)) w))
    layerNames ;;
  addTo_map "earthquakes" ;;
  addTo_map "conflicts" ;;
  addTo_map "hotspots" ;;
  setupLayerToggles.

End Updates.

End WorldMap.

(* ===================================================================== *)
(** ** dashboard.js: the [Dashboard] module *)
(* ===================================================================== *)

Module Dashboard.
Import Data Browser.

Definition REFRESH_INTERVAL : Z := 180000.

(** [s.replace('T', ' ')]: the first occurrence only. *)
Fixpoint replace_T (s : string) : string :=
  match s with
  | EmptyString => EmptyString
  | String c s' =>
      if Ascii.eqb c "T"%char then String " "%char s'
      else String c (replace_T s')
  end.

(** [cls] toggled in a class list. *)
Definition toggle_class (cls : string) (cs : list string) : list string :=
  if bool_decide (cls ∈ cs)
  then List.filter (fun c => negb (String.eqb c cls)) cs
  else cs ++ [cls].

Definition add_class (cls : string) (cs : list string) : list string :=
  if bool_decide (cls ∈ cs) then cs else cs ++ [cls].

Definition remove_class (cls : string) (cs : list string) : list string :=
  List.filter (fun c => negb (String.eqb c cls)) cs.

Definition class_update (sel : string) (f : list string -> list string)
    : M unit :=
  update sel (fun e => set_classList_of (f (classList e)) e).

(** [items.length]: a [TypeError] on [null], [undefined] on a value that
    is not an array. *)
Definition length_of {A} (data : payload A) : M Js.value :=
  match data with
  | PNull => throw (TypeError "null has no properties: length")
  | POther len => ret len
  | PArray l => ret (Js.Num (inject_Z (Z.of_nat (length l))))
  end.

Section Client.
Context `{Platform}.

(** [el.textContent = v]: [undefined] and [null] clear the text. *)
Definition set_textContent_value (sel : string) (v : Js.value) : M unit :=
  set_textContent sel (if Js.absent v then "" else to_display v).

Definition int_to_string (z : Z) : string := num_to_string (inject_Z z).

(** *** Helpers *)

Definition escapeHtml (text : string) : string :=
  if String.eqb text "" then "" else dom_serialize text.

Definition formatTime (now_ms : Z) (isoStr : string) : string :=
  if String.eqb isoStr "" then ""
  else
    match Date_parse isoStr with
    | None => "NaNd ago"
    | Some date =>
        let diffMs := (now_ms - date)%Z in
        let diffMin := (diffMs / 60000)%Z in
        if (diffMin <? 1)%Z then "Just now"
        else if (diffMin <? 60)%Z then int_to_string diffMin +:+ "m ago"
        else
          let diffHr := (diffMin / 60)%Z in
          if (diffHr <? 24)%Z then int_to_string diffHr +:+ "h ago"
          else
            let diffDay := (diffHr / 24)%Z in
            int_to_string diffDay +:+ "d ago"
    end.

Definition updateStatus (text : string) : M unit :=
  set_textContent "status-text" text.

(** *** Clock *)

Definition clock_update : M unit :=
  t ← gets now;
  let utc :=
    String.substring 0 19 (replace_T (Date_toISOString t)) +:+ " UTC" in
  set_textContent "clock" utc.

Definition setupClock : M unit :=
  clock_update ;;
  setInterval CbClockUpdate 1000.

(** *** Tabs *)

(** The elements [querySelectorAll('.tab')] yields are named by their
    [data-tab], listed in [tabs], and kept under ["tab-" + name]; the
    elements of class [panel] are the ["panel-" + name] that exist. *)
Definition tab_sel (name : string) : string := "tab-" +:+ name.
Definition panel_sel (name : string) : string := "panel-" +:+ name.

Definition setupTabs : M unit :=
  ts ← gets tabs;
  forEach (fun name => listen (tab_sel name) "click" (CbTabClick name)) ts.

Definition remove_active_if_present (sel : string) : M unit :=
  d ← gets dom;
  match d !! sel with
  | Some _ => class_update sel (remove_class "active")
  | None => ret tt
  end.

Definition onTabClick (name : string) : M unit :=
  ts ← gets tabs;
  forEach (fun t => remove_active_if_present (tab_sel t)) ts ;;
  forEach (fun t => remove_active_if_present (panel_sel t)) ts ;;
  class_update (tab_sel name) (add_class "active") ;;
  class_update (panel_sel name) (add_class "active").

(** *** News *)

Definition newsItemHtml (now_ms : Z) (item : NewsItem) : Html.node :=
  Html.El "div"
    ("news-item " +:+ (if is_alert item then "alert" else ""))
    (Some ("window.open('" +:+ escapeHtml (news_link item)
           +:+ "', '_blank')"))
    ([Html.div "news-source" [Html.Tx (escapeHtml (news_source item))];
      Html.div "news-title" [Html.Tx (escapeHtml (news_title item))];
      Html.div "news-time"
        [Html.Tx (formatTime now_ms (news_published item))]]
     ++ (if Js.truthy (news_summary item)
         then [Html.div "news-summary"
                 [Html.Tx (escapeHtml (to_display (news_summary item)))]]
         else [])).

Definition renderNews (items : payload NewsItem) : M unit :=
  match items with
  | PNull => throw (TypeError "null has no properties: length")
  | POther len =>
      if Js.truthy len
      then throw (TypeError "items.slice(...).map is not a function")
      else set_innerHTML "news-list" (Html.loading "No news available")
  | PArray l =>
      if (length l =? 0)%nat
      then set_innerHTML "news-list" (Html.loading "No news available")
      else
        t ← gets now;
        set_innerHTML "news-list" (map (newsItemHtml t) (take 100 l))
  end.

Definition alertItemHtml (now_ms : Z) (item : NewsItem) : Html.node :=
  Html.El "div" "news-item alert"
    (Some ("window.open('" +:+ escapeHtml (news_link item)
           +:+ "', '_blank')"))
    [Html.div "news-source" [Html.Tx (escapeHtml (news_source item))];
     Html.div "news-title" [Html.Tx (escapeHtml (news_title item))];
     Html.div "news-time"
       [Html.Tx (formatTime now_ms (news_published item))]].

Definition renderAlerts (items : list NewsItem) : M unit :=
  if (length items =? 0)%nat
  then set_innerHTML "alerts-list" (Html.loading "No active alerts")
  else
    t ← gets now;
    set_innerHTML "alerts-list" (map (alertItemHtml t) items).

(** The items [renderTicker] shows, in order: [alertItems] and then
    [regularItems]. *)
Definition tickerItems (items : list NewsItem) : list NewsItem :=
  let alertItems := take 10 (List.filter is_alert items) in
  let regularItems := take 15 items in
  alertItems ++ regularItems.

Definition tickerHtml (item : NewsItem) : list Html.node :=
  let cls := if is_alert item then "ticker-alert" else "" in
  [Html.El "span" cls None [Html.Tx (escapeHtml (news_title item))];
   Html.El "span" "ticker-sep" None [Html.Tx "|"]].

Definition renderTicker (items : list NewsItem) : M unit :=
  set_innerHTML "ticker-content" (flat_map tickerHtml (tickerItems items)).

(** [a <= b] for strings, as [sort()] without a comparator orders
    them: the order of the sequences of UTF-16 code units. *)
Fixpoint units_leb (a b : list N) : bool :=
  match a, b with
  | [], _ => true
  | _ :: _, [] => false
  | x :: a', y :: b' =>
      if (x <? y)%N then true
      else if (y <? x)%N then false
      else units_leb a' b'
  end.

Definition string_le (a b : string) : Prop :=
  units_leb (code_units a) (code_units b) = true.

#[local] Instance string_le_dec (a b : string) : Decision (string_le a b).
Proof. unfold string_le. apply _. Defined.

(** [[...new Set(items.map(i => i.source))].sort()] *)
Definition sorted_sources (items : list NewsItem) : list string :=
  merge_sort string_le (remove_dups (map news_source items)).

Definition updateSourceFilter (items : list NewsItem) : M unit :=
  current ← read "news-source-filter" el_value;
  let sources := sorted_sources items in
  let options :=
    Html.Option_ "" false "All Sources"
    :: map (fun s => Html.Option_ (escapeHtml s) (String.eqb s current)
                       (escapeHtml s)) sources in
  update "news-source-filter"
    (fun e => set_value_of
                (if bool_decide (current ∈ sources) then current else "")
                (set_innerHTML_of options e)).

Definition news_url (source : string) (alerts : bool) : string :=
  "/api/news?limit=200"
  +:+ (if String.eqb source "" then ""
       else "&source=" +:+ encodeURIComponent source)
  +:+ (if alerts then "&alerts=true" else "").

(** The [then] handler of [loadNews]. *)
Definition onNews (data : payload NewsItem) : M unit :=
  renderNews data ;;
  match data with
  | PArray l =>
      renderAlerts (List.filter is_alert l) ;;
      renderTicker l ;;
      updateSourceFilter l ;;
      n ← length_of data;
      set_textContent_value "stat-news" n
  | _ => throw (TypeError "data.filter is not a function")
  end.

Definition loadNews : M (settled unit) :=
  source ← read "news-source-filter" el_value;
  alerts ← gets alertsOnly;
  let url := news_url source alerts in
  p ← fetch url (fun n => net_news n url);
  d ← then_json p;
  r ← then_ d onNews;
  catch_ r (fun err =>
    console_error "News fetch failed:" ;;
    set_innerHTML "news-list" (Html.loading "Failed to load news")).

(** *** Earthquakes, conflict zones, hotspots *)

Definition loadEarthquakes : M (settled unit) :=
  p ← fetch "/api/earthquakes" net_earthquakes;
  d ← then_json p;
  r ← then_ d (fun data =>
    WorldMap.updateEarthquakes data ;;
    n ← length_of data;
    set_textContent_value "stat-earthquakes" n);
  catch_ r (fun err => console_error "Earthquake fetch failed:").

Definition loadConflictZones : M (settled unit) :=
  p ← fetch "/api/layers/conflict-zones" net_conflict_zones;
  d ← then_json p;
  r ← then_ d WorldMap.updateConflictZones;
  catch_ r (fun err => console_error "Conflict zone fetch failed:").

Definition loadHotspots : M (settled unit) :=
  p ← fetch "/api/layers/hotspots" net_hotspots;
  d ← then_json p;
  r ← then_ d WorldMap.updateHotspots;
  catch_ r (fun err => console_error "Hotspot fetch failed:").

(** *** GDELT *)

Definition gdeltItemHtml (item : GdeltEvent) : Html.node :=
  Html.El "div" "gdelt-item"
    (Some ("window.open('" +:+ escapeHtml (gdelt_url item)
           +:+ "', '_blank')"))
    [Html.div "gdelt-source"
       [Html.Tx (escapeHtml
                   (to_display (Js.or (gdelt_source item) (Js.Str ""))))];
     Html.div "gdelt-title" [Html.Tx (escapeHtml (gdelt_title item))]].

Definition renderGdelt (items : payload GdeltEvent) : M unit :=
  match items with
  | PNull => throw (TypeError "null has no properties: length")
  | POther len =>
      if Js.truthy len
      then throw (TypeError "items.slice(...).map is not a function")
      else set_innerHTML "gdelt-list"
             (Html.loading "No GDELT data available")
  | PArray l =>
      if (length l =? 0)%nat
      then set_innerHTML "gdelt-list"
             (Html.loading "No GDELT data available")
      else set_innerHTML "gdelt-list" (map gdeltItemHtml (take 50 l))
  end.

Definition loadGdelt : M (settled unit) :=
  p ← fetch "/api/gdelt" net_gdelt;
  d ← then_json p;
  r ← then_ d renderGdelt;
  catch_ r (fun err =>
    console_error "GDELT fetch failed:" ;;
    set_innerHTML "gdelt-list" (Html.loading "Failed to load GDELT data")).

(** *** Stats *)

Definition stat_count {A} (url : string) (r : network -> reply A)
    (sel : string) : M (settled unit) :=
  p ← fetch url r;
  d ← then_json p;
  s ← then_ d (fun data =>
    n ← length_of data;
    set_textContent_value sel n);
  catch_ s (fun _ => ret tt).

Definition loadStats : M (settled unit) :=
  c ← stat_count "/api/conflicts" net_conflicts "stat-conflicts";
  d ← stat_count "/api/disasters" net_disasters "stat-disasters";
  ret (Promise_all [c; d]).

(** *** Data loading *)

Definition loadAllData : M unit :=
  updateStatus "Refreshing..." ;;
  p1 ← loadNews;
  p2 ← loadEarthquakes;
  p3 ← loadConflictZones;
  p4 ← loadHotspots;
  p5 ← loadGdelt;
  p6 ← loadStats;
  r ← then_ (Promise_all [p1; p2; p3; p4; p5; p6]) (fun _ =>
    updateStatus "Live" ;;
    class_update ".dot" (add_class "connected"));
  _ ← catch_ r (fun _ => updateStatus "Error");
  ret tt.

(** *** Buttons *)

Definition setupButtons : M unit :=
  addEventListener "btn-refresh" "click" CbRefreshClick ;;
  addEventListener "btn-alerts" "click" CbAlertsClick ;;
  addEventListener "btn-layers" "click" CbLayersClick ;;
  addEventListener "news-source-filter" "change" CbSourceChange.

Definition onAlertsClick : M unit :=
  modify (fun w => with_alertsOnly (negb (alertsOnly w)) w) ;;
  class_update "btn-alerts" (toggle_class "active") ;;
  _ ← loadNews;
  ret tt.

Definition onLayersClick : M unit :=
  class_update "layers-panel" (toggle_class "hidden").

Definition init : M unit :=
  WorldMap.init ;;
  setupClock ;;
  setupTabs ;;
  setupButtons ;;
  loadAllData ;;
  setInterval CbLoadAllData REFRESH_INTERVAL.

(** *** The event loop: running a registered callback *)

Definition run_callback (cb : callback) : M unit :=
  match cb with
  | CbClockUpdate => clock_update
  | CbLoadAllData => loadAllData
  | CbRefreshClick => loadAllData
  | CbAlertsClick => onAlertsClick
  | CbLayersClick => onLayersClick
  | CbSourceChange => _ ← loadNews; ret tt
  | CbTabClick name => onTabClick name
  | CbLayerToggle checkboxId layerName =>
      WorldMap.onLayerToggle checkboxId layerName
  end.

End Client.

End Dashboard.

(* ===================================================================== *)
(** ** The server-side core, modelled from the specification *)
(* ===================================================================== *)

(** [services/cache.py] *)
Module Cache.
Local Open Scope Z_scope.

Section WithValue.
(** the opaque serialized payload *)
Variable V : Type.

(** Modelled from the spec: the source of the cache is missing.
    "CacheEntry: key, value (opaque serialized payload), stored-at
    timestamp, TTL (seconds)"; the key is the key of the store. *)
Record CacheEntry : Type := {
  entry_value : V;
  stored_at : Z;
  entry_ttl : Z
}.

(** Modelled from the spec: the source of the cache is missing.
    "an entry is valid iff [now - stored_at < TTL]". *)
Definition valid (now : Z) (e : CacheEntry) : bool :=
  now - stored_at e <? entry_ttl e.

(** Modelled from the spec: the source of the cache is missing.
    "[get(key) -> value or absent]"; "invalid entries are treated as
    absent (fetch miss), not served". *)
Definition get (now : Z) (key : string) (store : gmap string CacheEntry)
    : option V :=
  match store !! key with
  | Some e => if valid now e then Some (entry_value e) else None
  | None => None
  end.

(** Modelled from the spec: the source of the cache is missing.
    "[set(key, value, ttl)]". *)
Definition set (now : Z) (key : string) (v : V) (ttl : Z)
    (store : gmap string CacheEntry) : gmap string CacheEntry :=
  <[key := {| entry_value := v; stored_at := now; entry_ttl := ttl |}]>
    store.

(** The cache and the counter of fetcher invocations. *)
Record state : Type := {
  store : gmap string CacheEntry;
  fetch_calls : nat
}.

(** Modelled from the spec: the source of the cache wrapper is
    missing.  "Cache (hit: return; miss: invoke Fetcher -> normalize
    -> store in Cache -> return)"; "if [get] returns absent, the
    caller must perform a live fetch and [set] the result before
    returning".  A fetcher absorbs its own failures (it "returns an
    empty list rather than propagating the failure"), so it is a
    function of the time of the call. *)
Definition cached (now : Z) (key : string) (ttl : Z) (fetcher : Z -> V)
    (s : state) : V * state :=
  match get now key (store s) with
  | Some v => (v, s)
  | None =>
      let v := fetcher now in
      (v, {| store := set now key v ttl (store s);
             fetch_calls := S (fetch_calls s) |})
  end.

End WithValue.

Arguments entry_value {V} _.
Arguments stored_at {V} _.
Arguments entry_ttl {V} _.
Arguments valid {V} now e.
Arguments get {V} now key store.
Arguments set {V} now key v ttl store.
Arguments store {V} _.
Arguments fetch_calls {V} _.
Arguments cached {V} now key ttl fetcher s.

End Cache.

(** [services/earthquake_service.py] *)
Module Earthquake.

(** A feature of the upstream GeoJSON feed: its properties and its
    coordinates. *)
Record Feature : Type := {
  f_mag : Q;
  f_time : Z;              (* ms since the epoch *)
  f_place : string;
  f_lat : Q;
  f_lng : Q;
  f_depth : Q;
  f_tsunami : bool;
  f_felt : option Z
}.

(** Modelled from the spec: the source of the fetcher is missing.
    "EarthquakeEvent: latitude, longitude, magnitude (float), depth
    (km), place description, tsunami flag, optional felt-reports count,
    event time". *)
Record Event : Type := {
  lat : Q;
  lng : Q;
  magnitude : Q;
  depth : Q;
  place : string;
  tsunami : bool;
  felt : option Z;
  time : Z
}.

Definition MIN_MAGNITUDE : Q := 45 # 10.
Definition DAY_MS : Z := 86400000.

(** Modelled from the spec: the source of the fetcher is missing.
    "maps feature properties to EarthquakeEvent fields". *)
Definition to_event (f : Feature) : Event :=
  {| lat := f_lat f; lng := f_lng f; magnitude := f_mag f;
     depth := f_depth f; place := f_place f; tsunami := f_tsunami f;
     felt := f_felt f; time := f_time f |}.

(** Modelled from the spec: the source of the fetcher is missing.
    "only events with magnitude >= 4.5 within the last 24 hours are
    retained". *)
Definition retained (now : Z) (f : Feature) : bool :=
  Qle_bool MIN_MAGNITUDE (f_mag f)
  && (now - DAY_MS <=? f_time f)%Z && (f_time f <=? now)%Z.

(** Modelled from the spec: the source of the fetcher is missing.
    "fetches one GeoJSON feed, filters to magnitude >= 4.5 and time
    window <= 24h, maps feature properties to EarthquakeEvent fields". *)
Definition fetch (now : Z) (feed : list Feature) : list Event :=
  map to_event (List.filter (retained now) feed).

End Earthquake.

(** [services/rss_service.py] *)
Module Rss.
Import Data.

Record Source : Type := {
  src_name : string;
  src_url : string
}.

(** An item of a parsed RSS or Atom document. *)
Record Entry : Type := {
  entry_title : string;
  entry_link : string;
  entry_published : string;
  entry_summary : option string
}.

(** What requesting a feed URL yields. *)
Inductive response : Type :=
| Timeout
| HttpError (status : Z)
| Malformed
| Feed (entries : list Entry).

Definition lower_char (c : ascii) : ascii :=
  let n := nat_of_ascii c in
  if ((65 <=? n) && (n <=? 90))%nat then ascii_of_nat (n + 32) else c.

Fixpoint lower (s : string) : string :=
  match s with
  | EmptyString => EmptyString
  | String c s' => String (lower_char c) (lower s')
  end.

(** [kw in text] *)
Fixpoint contains (kw text : string) : bool :=
  String.prefix kw text
  || match text with
     | EmptyString => false
     | String _ text' => contains kw text'
     end.

(** Modelled from the spec: the source of the fetcher is missing.
    "is_alert (true iff title/summary matches a configured alert
    keyword list, case-insensitive substring match)". *)
Definition alert_match (keywords : list string) (e : Entry) : bool :=
  let text := lower (entry_title e +:+ " " +:+ default "" (entry_summary e)) in
  existsb (fun kw => contains (lower kw) text) keywords.

(** Modelled from the spec: the source of the fetcher is missing.
    "extracts title/link/published/summary per item, tags each with its
    source feed name, applies alert-keyword matching". *)
Definition to_item (keywords : list string) (src : Source) (e : Entry)
    : NewsItem :=
  {| news_source := src_name src;
     news_title := entry_title e;
     news_link := entry_link e;
     news_published := entry_published e;
     news_summary := match entry_summary e with
                     | Some s => Js.Str s
                     | None => Js.Null
                     end;
     is_alert := alert_match keywords e |}.

(** Modelled from the spec: the source of the fetcher is missing.
    One source: [None] is a fetch failure (a request error, a status
    that is not 2xx, a timeout or a document that cannot be parsed). *)
Definition fetch_source (keywords : list string) (net : string -> response)
    (src : Source) : option (list NewsItem) :=
  match net (src_url src) with
  | Feed entries => Some (map (to_item keywords src) entries)
  | Timeout | HttpError _ | Malformed => None
  end.

(** Modelled from the spec: the source of the fetcher is missing.
    "fetches N configured feed URLs, ..., and concatenates all sources'
    items into one list before returning.  A per-source fetch failure
    must not block other sources' items from being returned." *)
Fixpoint fetch_all (keywords : list string) (net : string -> response)
    (sources : list Source) : list NewsItem :=
  match sources with
  | [] => []
  | src :: rest =>
      match fetch_source keywords net src with
      | Some items => items ++ fetch_all keywords net rest
      | None => fetch_all keywords net rest
      end
  end.

(** The number of items a source contributes: none when it fails. *)
Definition item_count (net : string -> response) (src : Source) : nat :=
  match net (src_url src) with
  | Feed entries => length entries
  | _ => 0
  end.

Definition succeeds (net : string -> response) (src : Source) : bool :=
  match net (src_url src) with
  | Feed _ => true
  | _ => false
  end.

End Rss.

(* ===================================================================== *)
(** ** Predicates of the statements *)
(* ===================================================================== *)

Module Props.
Import Data Browser Leaflet.

(** The page has an element for the selector. *)
Definition has (sel : string) (w : world) : Prop := is_Some (dom w !! sel).

(** What client code leaves alone: no element is created or removed,
    and the tabs, the timers, the [alertsOnly] flag, the clock and the
    network are as before. *)
Definition frame (w w' : world) : Prop :=
  (forall sel, has sel w' <-> has sel w)
  /\ tabs w' = tabs w
  /\ timers w' = timers w
  /\ alertsOnly w' = alertsOnly w
  /\ now w' = now w
  /\ net w' = net w.

(** A computation that issues no request and stays within [frame],
    whether it returns or throws. *)
Definition quiet {A} (m : M A) : Prop :=
  forall w, frame w (exec m w) /\ requests (exec m w) = requests w.

(** The elements [loadNews] and its [catch] handler need. *)
Definition news_ready (w : world) : Prop :=
  has "news-source-filter" w /\ has "news-list" w.

(** The elements the [then] handler of [loadNews] writes. *)
Definition news_panels (w : world) : Prop :=
  has "news-source-filter" w /\ has "news-list" w /\ has "alerts-list" w
  /\ has "ticker-content" w /\ has "stat-news" w.

(** The elements [loadAllData] needs before its first request. *)
Definition refresh_ready (w : world) : Prop :=
  has "status-text" w /\ has "news-source-filter" w.

(** The elements [Dashboard.init] reaches through [getElementById]
    without a guard. *)
Definition page_ready (w : world) : Prop :=
  refresh_ready w
  /\ has "clock" w
  /\ has "btn-refresh" w /\ has "btn-alerts" w /\ has "btn-layers" w.

(** Whether the group [name] is on the map. *)
Definition shown (name : string) (w : world) : bool :=
  bool_decide (name ∈ onMap w).

(** What the [forEach] of an update function leaves in its group, given
    the layers [candidates] its constructor calls would make, in order,
    and whether the group is on the map: the layers up to the first
    call that throws, or up to and including the first layer without a
    position when the group is on the map; and the error thrown, if
    any. *)
Fixpoint placed `{Platform} (on_map : bool) (candidates : list layer)
    : list layer * option error :=
  match candidates with
  | [] => ([], None)
  | ly :: rest =>
      if WorldMap.throws_on_construction ly
      then ([], Some WorldMap.invalid_latlng_error)
      else if on_map && WorldMap.unplaceable ly
      then ([ly], Some WorldMap.null_position_error)
      else (ly :: (placed on_map rest).1, (placed on_map rest).2)
  end.

Definition result_of (e : option error) : result unit :=
  match e with
  | None => Ok tt
  | Some e => Throw e
  end.

(** What an update function that rebuilds the group [name] does with
    [data] in [w]: nothing when the group does not exist; otherwise the
    group is emptied and, when [data] is an array, filled with what is
    [placed] of the layers [candidates] makes of it. *)
Definition rebuild_outcome `{Platform} {A} (name : string)
    (candidates : list A -> list layer) (data : payload A) (w : world)
    : result unit * world :=
  match layerGroups w !! name with
  | None => (Throw (WorldMap.no_group name), w)
  | Some _ =>
      match data with
      | PArray l =>
          (result_of (placed (shown name w) (candidates l)).2,
           with_layerGroups
             (<[name := (placed (shown name w) (candidates l)).1]>
                (layerGroups w)) w)
      | POther _ =>
          (Throw (TypeError "data.forEach is not a function"),
           with_layerGroups (<[name := []]> (layerGroups w)) w)
      | PNull =>
          (Throw (TypeError "null has no properties: forEach"),
           with_layerGroups (<[name := []]> (layerGroups w)) w)
      end
  end.

(** What [updateConflictEvents] does with [data] in [w]: the cluster is
    added to the group once every marker is constructed. *)
Definition cluster_outcome `{Platform} (data : payload ConflictEvent)
    (w : world) : result unit * world :=
  match layerGroups w !! "conflict-events" with
  | None => (Throw (WorldMap.no_group "conflict-events"), w)
  | Some _ =>
      match data with
      | PArray l =>
          let members :=
            map WorldMap.conflictMarker
              (List.filter (fun ev => negb (WorldMap.falsy_coordinate ev)) l)
          in
          match (placed false members).2 with
          | None =>
              (Ok tt,
               with_layerGroups
                 (<["conflict-events" := [MarkerCluster members]]>
                    (layerGroups w)) w)
          | Some e =>
              (Throw e,
               with_layerGroups (<["conflict-events" := []]> (layerGroups w))
                 w)
          end
      | POther _ =>
          (Throw (TypeError "data.forEach is not a function"),
           with_layerGroups (<["conflict-events" := []]> (layerGroups w)) w)
      | PNull =>
          (Throw (TypeError "null has no properties: forEach"),
           with_layerGroups (<["conflict-events" := []]> (layerGroups w)) w)
      end
  end.

(** A layer whose construction returns and which has a position: for a
    cluster, one whose markers can be constructed. *)
Definition drawable `{Platform} (ly : layer) : bool :=
  match ly with
  | MarkerCluster members =>
      forallb (fun m => negb (WorldMap.throws_on_construction m)) members
  | _ => negb (WorldMap.unplaceable ly)
  end.

(** An update function of map.js that rebuilds the group [name] from
    the layers [candidates] makes of its argument: its effect and its
    result are those of the last call; the group holds [candidates] of
    the array passed when each of them is [drawable], and in any case
    only layers made from that array, in order; the other groups are
    untouched. *)
Definition rebuilds `{Platform} {A} (name : string)
    (update : payload A -> M unit) (candidates : list A -> list layer)
    : Prop :=
  (forall d w, update d (exec (update d) w) = update d w)
  /\ (forall d1 d2 w, update d2 (exec (update d1) w) = update d2 w)
  /\ (forall l w,
        is_Some (layerGroups w !! name) ->
        Forall (fun ly => drawable ly = true) (candidates l) ->
        eval (update (PArray l)) w = Ok tt
        /\ layerGroups (exec (update (PArray l)) w) !! name
           = Some (candidates l))
  /\ (forall l w,
        is_Some (layerGroups w !! name) ->
        exists n,
          layerGroups (exec (update (PArray l)) w) !! name
          = Some (take n (candidates l)))
  /\ (forall d w k,
        k <> name ->
        layerGroups (exec (update d) w) !! k = layerGroups w !! k).

(** The polyline [updateCables] draws for a cable, if any. *)
Definition cable_layer `{Platform} (c : Cable) : option layer :=
  match cable_points c with
  | Some points =>
      if (2 <=? length points)%nat then Some (WorldMap.cableLine points c)
      else None
  | None => None
  end.

(** The polyline of a cable that has a route. *)
Definition drawn_line `{Platform} (c : Cable) : layer :=
  WorldMap.cableLine (default [] (cable_points c)) c.

(** A polyline through at least two points. *)
Definition proper_line (ly : layer) : Prop :=
  exists latlngs popup, ly = Polyline latlngs popup /\ 2 <= length latlngs.

(** The value of the source filter of the news panel. *)
Definition current_source (w : world) : string :=
  default "" (el_value <$> dom w !! "news-source-filter").

(** The markup [renderNews] writes for an array of items. *)
Definition news_markup `{Platform} (t : Z) (l : list NewsItem)
    : list Html.node :=
  if (length l =? 0)%nat then Html.loading "No news available"
  else map (Dashboard.newsItemHtml t) (take 100 l).

(** The markup [renderAlerts] writes. *)
Definition alerts_markup `{Platform} (t : Z) (l : list NewsItem)
    : list Html.node :=
  if (length l =? 0)%nat then Html.loading "No active alerts"
  else map (Dashboard.alertItemHtml t) l.

(** The markup [renderGdelt] writes for an array of items. *)
Definition gdelt_markup `{Platform} (l : list GdeltEvent) : list Html.node :=
  if (length l =? 0)%nat then Html.loading "No GDELT data available"
  else map Dashboard.gdeltItemHtml (take 50 l).

(** The markup of the element found with [sel], if it exists. *)
Definition markup_of (sel : string) (w : world) : option (list Html.node) :=
  innerHTML <$> dom w !! sel.

(** The URLs [loadAllData] requests, in the order of the requests. *)
Definition refresh_urls `{Platform} (w : world) : list string :=
  [Dashboard.news_url (current_source w) (alertsOnly w);
   "/api/earthquakes";
   "/api/layers/conflict-zones";
   "/api/layers/hotspots";
   "/api/gdelt";
   "/api/conflicts";
   "/api/disasters"].

(** An upstream feature of magnitude at least 4.5 from the 24 hours up
    to [now]. *)
Definition strong_and_recent (now : Z) (f : Earthquake.Feature) : Prop :=
  (45 # 10 <= Earthquake.f_mag f)%Q
  /\ (now - 86400000 <= Earthquake.f_time f <= now)%Z.

#[export] Instance strong_and_recent_dec now f :
  Decision (strong_and_recent now f).
Proof.
  unfold strong_and_recent.
  destruct (Qlt_le_dec (Earthquake.f_mag f) (45 # 10)) as [Hlt|Hle].
  - right. intros [Hle _]. apply (Qlt_not_le _ _ Hlt Hle).
  - destruct (decide (now - 86400000 <= Earthquake.f_time f <= now)%Z).
    + left. split; assumption.
    + right. intros [_ Ht]. contradiction.
Defined.

(** A cable that has a route to draw. *)
Definition has_route (c : Cable) : Prop :=
  exists points, cable_points c = Some points /\ 2 <= length points.

#[export] Instance has_route_dec (c : Cable) : Decision (has_route c).
Proof.
  unfold has_route. destruct (cable_points c) as [ps|].
  - destruct (decide (2 <= length ps)).
    + left. eauto.
    + right. intros (ps' & [= <-] & ?). lia.
  - right. intros (ps' & [=] & _).
Defined.

(** A cable each of whose points is a pair of numbers, so that it has
    a position on the map. *)
Definition located_route `{Platform} (c : Cable) : bool :=
  forallb (fun p => WorldMap.located (WorldMap.point_latlng p))
    (default [] (cable_points c)).

#[export] Instance Q_eq_dec : EqDecision Q.
Proof. solve_decision. Defined.

#[export] Instance value_eq_dec : EqDecision Js.value.
Proof. solve_decision. Defined.

#[export] Instance NewsItem_eq_dec : EqDecision NewsItem.
Proof. solve_decision. Defined.

(** How often an item occurs in a list of items. *)
Definition occurrences (x : NewsItem) (l : list NewsItem) : nat :=
  count_occ NewsItem_eq_dec l x.

(** The positions in [items] of the entries [renderTicker] shows, in
    the order of the ticker: the selection of [Dashboard.tickerItems],
    made on the positions [0 .. length items - 1] instead of the
    entries. *)
Definition ticker_positions (items : list NewsItem) : list nat :=
  let positions := seq 0 (length items) in
  let alertPositions :=
    take 10 (List.filter
               (fun i => bool_decide (is_alert <$> items !! i = Some true))
               positions) in
  let regularPositions := take 15 positions in
  alertPositions ++ regularPositions.

(** How often the ticker shows the entry at position [i]. *)
Definition shown_times (i : nat) (items : list NewsItem) : nat :=
  count_occ Nat.eq_dec (ticker_positions items) i.

End Props.

(* ===================================================================== *)
(** ** A page and a platform to evaluate the model on *)
(* ===================================================================== *)

Module Sample.
Import Data Browser Leaflet.

Definition escape_char (c : ascii) : string :=
  if Ascii.eqb c "&"%char then "&amp;"
  else if Ascii.eqb c "<"%char then "&lt;"
  else if Ascii.eqb c ">"%char then "&gt;"
  else String c EmptyString.

Fixpoint escape (s : string) : string :=
  match s with
  | EmptyString => EmptyString
  | String c s' => escape_char c +:+ escape s'
  end.

Definition print_Z (z : Z) : string :=
  DecimalString.NilZero.string_of_int (Z.to_int z).

Definition print_Q (q : Q) : string :=
  let r := Qred q in
  if Pos.eqb (Qden r) 1 then print_Z (Qnum r)
  else print_Z (Qnum r) +:+ "/" +:+ print_Z (Zpos (Qden r)).

Definition print_fixed1 (q : Q) : string :=
  let t := Qfloor (q * 10 + (1 # 2)) in
  (if (t <? 0)%Z then "-" else "")
  +:+ print_Z (Z.abs t / 10) +:+ "." +:+ print_Z (Z.abs t mod 10).

(** A stand-in for the browser: ASCII only, and a clock that reads the
    epoch. *)
Definition platform : Platform := {|
  toFixed1 := print_fixed1;
  num_to_string := print_Q;
  dom_serialize := escape;
  encodeURIComponent := fun s => s;
  toUpperCase := fun s => s;
  Date_parse := fun s =>
    if String.eqb s "1970-01-01T00:00:00Z" then Some 0%Z else None;
  Date_toISOString := fun _ => "1970-01-01T00:00:00.000Z";
  Number_of_string := fun s =>
    match DecimalString.NilZero.int_of_string s with
    | Some i => Some (inject_Z (Z.of_int i))
    | None => None
    end;
  code_units := fun s => map N_of_ascii (list_ascii_of_string s);
  inherited_member := fun k =>
    if String.eqb k "constructor"
    then Some "function Object() { [native code] }"
    else if String.eqb k "toString"
    then Some "function toString() { [native code] }"
    else None
|}.

Definition blank : element :=
  {| innerHTML := []; textContent := ""; el_value := ""; classList := [];
     checked := false |}.

Definition page_ids : list string :=
  ["clock"; "status-text"; ".dot"; "btn-refresh"; "btn-alerts";
   "btn-layers"; "layers-panel"; "news-source-filter"; "news-list";
   "alerts-list"; "ticker-content"; "gdelt-list"; "stat-news";
   "stat-earthquakes"; "stat-conflicts"; "stat-disasters";
   "tab-news"; "tab-alerts"; "tab-gdelt";
   "panel-news"; "panel-alerts"; "panel-gdelt";
   "layer-earthquakes"; "layer-conflicts"; "layer-hotspots";
   "layer-bases"; "layer-nuclear"; "layer-waterways"; "layer-cables";
   "layer-disasters"; "layer-conflict-events"].

Definition item (title : string) (alert : bool) : NewsItem :=
  {| news_source := "BBC"; news_title := title; news_link := "";
     news_published := ""; news_summary := Js.Null; is_alert := alert |}.

Definition cable (points : option (list (list Js.value))) : Cable :=
  {| cable_points := points; cable_name := "SEA-ME-WE 6";
     cable_capacity := "126 Tbps"; cable_route := "Singapore - France" |}.

Definition coord (z : Z) : Js.value := Js.Num (inject_Z z).

Definition disaster (lat lng : Js.value) : DisasterEvent :=
  {| dis_lat := lat; dis_lng := lng; dis_category := "Floods";
     dis_title := "Flood"; dis_alert_level := Js.Null;
     dis_source := "GDACS" |}.

Definition conflict (lat lng : Js.value) : ConflictEvent :=
  {| ev_lat := lat; ev_lng := lng; ev_type := Js.Str "Battles";
     ev_sub_type := Js.Null; ev_notes := Js.Null;
     ev_country := Js.Str "Sudan"; ev_region := Js.Null;
     ev_date := Js.Str "2024-01-01"; ev_fatalities := Js.Null |}.

Definition quake (mag : Q) : EarthquakeEvent :=
  {| eq_lat := coord 35; eq_lng := coord 139; eq_magnitude := mag;
     eq_place := "near Tokyo"; eq_depth := 10; eq_tsunami := Js.Num 0;
     eq_felt := Js.Null |}.

Definition network_ : network :=
  {| net_news := fun _ =>
       Json (PArray [item "Ceasefire announced" false;
                     item "Missile strike reported" true]);
     net_earthquakes := Json (PArray [quake (52 # 10)]);
     net_conflict_zones := Json (PArray []);
     net_hotspots := NetFail;
     net_gdelt := NotJson;
     net_conflicts := Json (PArray [conflict (coord 15) (coord 32)]);
     net_disasters := Json (POther Js.Undefined);
     net_bases := Json (PArray []);
     net_nuclear := Json (PArray []);
     net_waterways := Json (PArray []);
     net_cables :=
       Json (PArray [cable (Some [[coord 1; coord 103]; [coord 43; coord 5]])])
  |}.

(** The page before any script has run. *)
Definition page : world :=
  {| dom := list_to_map (map (fun sel => (sel, blank)) page_ids);
     tabs := ["news"; "alerts"; "gdelt"];
     layerGroups := ∅;
     onMap := [];
     requests := [];
     console := [];
     timers := [];
     listeners := [];
     alertsOnly := false;
     now := 0%Z;
     net := network_ |}.

(** The page once [WorldMap.init] has created the layer groups. *)
Definition page_with_map : world := exec (WorldMap.init (H := platform)) page.

(** The page with the network answering [r] to the news request. *)
Definition page_news (r : reply NewsItem) : world :=
  {| dom := dom page; tabs := tabs page; layerGroups := layerGroups page;
     onMap := onMap page; requests := requests page;
     console := console page; timers := timers page;
     listeners := listeners page; alertsOnly := alertsOnly page;
     now := now page;
     net := {| net_news := fun _ => r;
               net_earthquakes := net_earthquakes network_;
               net_conflict_zones := net_conflict_zones network_;
               net_hotspots := net_hotspots network_;
               net_gdelt := net_gdelt network_;
               net_conflicts := net_conflicts network_;
               net_disasters := net_disasters network_;
               net_bases := net_bases network_;
               net_nuclear := net_nuclear network_;
               net_waterways := net_waterways network_;
               net_cables := net_cables network_ |} |}.

(** Sixteen feeds named by a letter; the feed at ["D"] times out, the
    others hold two entries each. *)
Definition feed (name : string) : Rss.Source :=
  {| Rss.src_name := name; Rss.src_url := "https://feeds.example/" +:+ name |}.

Definition feeds_before : list Rss.Source := map feed ["A"; "B"; "C"].
Definition feed_down : Rss.Source := feed "D".
Definition feeds_after : list Rss.Source :=
  map feed ["E"; "F"; "G"; "H"; "I"; "J"; "K"; "L"; "M"; "N"; "O"; "P"].

Definition feed_network (url : string) : Rss.response :=
  if String.eqb url "https://feeds.example/D" then Rss.Timeout
  else Rss.Feed
         [{| Rss.entry_title := "Earthquake strikes"; Rss.entry_link := url;
             Rss.entry_published := "1970-01-01T00:00:00Z";
             Rss.entry_summary := None |};
          {| Rss.entry_title := "Markets calm"; Rss.entry_link := url;
             Rss.entry_published := "1970-01-01T00:00:00Z";
             Rss.entry_summary := Some "No change" |}].

End Sample.


(* ===================================================================== *)
(** ** Observations of the state *)
(* ===================================================================== *)

Module Observe.
Import Data Browser Leaflet Props.

(** The text of the element found with [sel], if it exists. *)
Definition text_of (sel : string) (w : world) : option string :=
  textContent <$> dom w !! sel.

(** The classes of the element found with [sel], if it exists. *)
Definition classes_of (sel : string) (w : world) : option (list string) :=
  classList <$> dom w !! sel.

(** The value of the form control found with [sel], if it exists. *)
Definition value_of (sel : string) (w : world) : option string :=
  el_value <$> dom w !! sel.

(** A reply that rejects the promise chain before a [then] handler sees
    data: the request failed or the body is not JSON. *)
Definition failed {A} (r : reply A) : bool :=
  match r with
  | NetFail | NotJson => true
  | Json _ => false
  end.

(** The listeners [setupLayerToggles] registers for the pairs of [l]:
    one for each checkbox that exists. *)
Definition registrations (w : world) (l : list (string * string))
    : list (string * string * callback) :=
  map (fun p => (p.1, "change", CbLayerToggle p.1 p.2))
    (List.filter (fun p => bool_decide (is_Some (dom w !! p.1))) l).

(** The groups [WorldMap.init] adds to the map. *)
Definition default_layers : list string :=
  ["earthquakes"; "conflicts"; "hotspots"].

(** Whether the reply to the request of [loadLayerData name] failed. *)
Definition layer_failed (name : string) (n : network) : bool :=
  if String.eqb name "bases" then failed (net_bases n)
  else if String.eqb name "nuclear" then failed (net_nuclear n)
  else if String.eqb name "waterways" then failed (net_waterways n)
  else if String.eqb name "cables" then failed (net_cables n)
  else if String.eqb name "disasters" then failed (net_disasters n)
  else if String.eqb name "conflict-events" then failed (net_conflicts n)
  else false.

(** The layers a [then(render)] handler leaves in its group, which is
    on the map or not: those of the candidates that are placed before
    the handler throws, all of them when it does not; none when the
    body is JSON of another kind (the group is cleared before [forEach]
    throws); [None] when the handler does not run. *)
Definition drawn `{Platform} {A} (on_map : bool)
    (candidates : list A -> list layer) (r : reply A)
    : option (list layer) :=
  match r with
  | Json (PArray l) => Some (placed on_map (candidates l)).1
  | Json _ => Some []
  | _ => None
  end.

(** The same for [updateConflictEvents]: one cluster of the markers of
    the events that are not skipped, or nothing when the constructor of
    one of them throws. *)
Definition cluster_drawn `{Platform} (r : reply ConflictEvent)
    : option (list layer) :=
  match r with
  | Json (PArray l) =>
      let members :=
        map WorldMap.conflictMarker
          (List.filter (fun ev => negb (WorldMap.falsy_coordinate ev)) l) in
      Some (match (placed false members).2 with
            | None => [MarkerCluster members]
            | Some _ => []
            end)
  | Json _ => Some []
  | _ => None
  end.

(** What the request of [loadLayerData name] draws in the group of the
    layer, which is on the map or not. *)
Definition layer_drawn `{Platform} (name : string) (on_map : bool)
    (n : network) : option (list layer) :=
  if String.eqb name "bases" then
    drawn on_map (map WorldMap.baseMarker) (net_bases n)
  else if String.eqb name "nuclear" then
    drawn on_map (map WorldMap.nuclearMarker) (net_nuclear n)
  else if String.eqb name "waterways" then
    drawn on_map (map WorldMap.waterwayMarker) (net_waterways n)
  else if String.eqb name "cables" then
    drawn on_map (omap cable_layer) (net_cables n)
  else if String.eqb name "disasters" then
    drawn on_map
      (fun l => map WorldMap.disasterMarker
                  (List.filter
                     (fun d => negb (WorldMap.zero_coordinates d)) l))
      (net_disasters n)
  else if String.eqb name "conflict-events" then
    cluster_drawn (net_conflicts n)
  else None.

(** The requests [loadLayerData name] issues. *)
Definition layer_requests (name : string) : list string :=
  match WorldMap.lookup_url name WorldMap.layer_urls with
  | Some url => [url]
  | None => []
  end.

(** What the GDELT panel shows once the request of [loadGdelt] is
    settled. *)
Definition gdelt_panel `{Platform} (r : reply GdeltEvent) : list Html.node :=
  match r with
  | Json (PArray l) => gdelt_markup l
  | Json (POther len) =>
      if Js.truthy len then Html.loading "Failed to load GDELT data"
      else Html.loading "No GDELT data available"
  | _ => Html.loading "Failed to load GDELT data"
  end.

(** What a counter shows once its request is settled: the length of an
    array, the [length] property of another value (nothing when it has
    none), and the text it had when the handler did not run or threw. *)
Definition stat_text `{Platform} {A} (old : string) (r : reply A) : string :=
  match r with
  | Json (PArray l) => Dashboard.int_to_string (Z.of_nat (length l))
  | Json (POther len) => if Js.absent len then "" else to_display len
  | _ => old
  end.

(** [w'] differs from [w] at most in the elements [sels], the layer
    groups [groups], the request log and the console. *)
Definition kept (sels groups : list string) (w w' : world) : Prop :=
  (forall sel, sel ∉ sels -> dom w' !! sel = dom w !! sel)
  /\ (forall g, g ∉ groups -> layerGroups w' !! g = layerGroups w !! g)
  /\ onMap w' = onMap w
  /\ listeners w' = listeners w
  /\ timers w' = timers w
  /\ alertsOnly w' = alertsOnly w
  /\ tabs w' = tabs w.

(** A computation that writes no element but [sels] and no layer group
    but [groups], whether it returns or throws. *)
Definition writes_only {A} (sels groups : list string) (m : M A) : Prop :=
  forall w, kept sels groups w (exec m w).

(** The elements a refresh may write. *)
Definition refresh_elements : list string :=
  ["status-text"; ".dot"; "news-list"; "alerts-list"; "ticker-content";
   "news-source-filter"; "stat-news"; "stat-earthquakes"; "gdelt-list";
   "stat-conflicts"; "stat-disasters"].

End Observe.

(* ===================================================================== *)
(** ** Further sample states *)
(* ===================================================================== *)

Module Cases.
Import Data Browser Leaflet.

(** A layer checkbox that is checked. *)
Definition checked_box : element :=
  {| innerHTML := []; textContent := ""; el_value := ""; classList := [];
     checked := true |}.

(** The sample page with its map, the box of the cables layer checked. *)
Definition page_cables_checked : world :=
  with_dom (<["layer-cables" := checked_box]> (dom Sample.page_with_map))
    Sample.page_with_map.

(** The sample page without the element found with [sel]. *)
Definition page_without (sel : string) : world :=
  with_dom (delete sel (dom Sample.page)) Sample.page.




(** The sample page with its map, the disasters group on the map, as
    it is once the box of the layer is checked. *)
Definition page_disasters_shown : world :=
  with_onMap (onMap Sample.page_with_map ++ ["disasters"])
    Sample.page_with_map.

(** A disaster record whose coordinates are [null], and one with
    coordinates. *)
Definition disaster_unlocated : DisasterEvent :=
  Sample.disaster Js.Null Js.Null.
Definition disaster_located : DisasterEvent :=
  Sample.disaster (Sample.coord 28) (Sample.coord 84).

(** The sample page with its map, the box of the disasters layer
    checked; the group, off the map, holds the marker of a record whose
    coordinates are [null], left by [updateDisasters]. *)
Definition page_disasters_stale : world :=
  let w := exec (WorldMap.updateDisasters (H := Sample.platform)
                   (PArray [disaster_unlocated])) Sample.page_with_map in
  with_dom (<["layer-disasters" := checked_box]> (dom w)) w.

(** The sample page after the box of the cables layer was checked and
    the cable of the reply drawn; the box is unchecked again. *)
Definition page_cables_shown : world :=
  let w := exec (WorldMap.onLayerToggle (H := Sample.platform)
                   "layer-cables" "cables") page_cables_checked in
  with_dom (<["layer-cables" := Sample.blank]> (dom w)) w.

(** A cable with a route of two points, one whose second point lacks
    its longitude, and one with a single point. *)
Definition cable_routed : Cable :=
  Sample.cable (Some [[Sample.coord 1; Sample.coord 103];
                      [Sample.coord 43; Sample.coord 5]]).
Definition cable_malformed : Cable :=
  Sample.cable (Some [[Sample.coord 1; Sample.coord 103]; [Sample.coord 43]]).
Definition cable_short : Cable :=
  Sample.cable (Some [[Sample.coord 1; Sample.coord 2]]).

(** The sample page with the network answering [r] to the GDELT
    request and an empty array to the news request. *)
Definition page_gdelt (r : reply GdeltEvent) : world :=
  let w := Sample.page_news (Json (PArray [])) in
  {| dom := dom w; tabs := tabs w; layerGroups := layerGroups w;
     onMap := onMap w; requests := requests w; console := console w;
     timers := timers w; listeners := listeners w;
     alertsOnly := alertsOnly w; now := now w;
     net := {| net_news := net_news (net w);
               net_earthquakes := net_earthquakes (net w);
               net_conflict_zones := net_conflict_zones (net w);
               net_hotspots := net_hotspots (net w);
               net_gdelt := r;
               net_conflicts := net_conflicts (net w);
               net_disasters := net_disasters (net w);
               net_bases := net_bases (net w);
               net_nuclear := net_nuclear (net w);
               net_waterways := net_waterways (net w);
               net_cables := net_cables (net w) |} |}.

End Cases.


(* ===================================================================== *)
(** * Properties *)
(* ===================================================================== *)

Import Data Browser Leaflet Props.

(** Unfolds the monad down to functions on the state. *)
Ltac unfold_M :=
  unfold mbind, M_bind, mret, M_ret, bind, ret, gets, modify, throw,
    exec, eval in *;
  simpl in *.

(** ** Running a computation step by step *)

Lemma bind_run {A B} (m : M A) (k : A -> M B) (w w1 : world) (a : A) :
  m w = (Ok a, w1) -> (m ≫= k) w = k a w1.
Proof. intros Hm. unfold mbind, M_bind, bind. rewrite Hm. reflexivity. Qed.

Lemma bind_throw {A B} (m : M A) (k : A -> M B) (w w1 : world) (e : error) :
  m w = (Throw e, w1) -> (m ≫= k) w = (Throw e, w1).
Proof. intros Hm. unfold mbind, M_bind, bind. rewrite Hm. reflexivity. Qed.

(** ** The layer groups of map.js *)

Section LayerGroups.
Context `{Platform}.

Lemma world_eta (w : world) : with_layerGroups (layerGroups w) w = w.
Proof. destruct w; reflexivity. Qed.

Lemma clearLayers_run (name : string) (w : world) :
  WorldMap.clearLayers name w
  = match layerGroups w !! name with
    | Some _ => (Ok tt, with_layerGroups (<[name := []]> (layerGroups w)) w)
    | None => (Throw (WorldMap.no_group name), w)
    end.
Proof.
  unfold WorldMap.clearLayers. unfold_M.
  destruct (layerGroups w !! name); reflexivity.
Qed.

Lemma construct_run (y : layer) (w : world) :
  WorldMap.construct y w
  = if WorldMap.throws_on_construction y
    then (Throw WorldMap.invalid_latlng_error, w)
    else (Ok y, w).
Proof.
  unfold WorldMap.construct.
  destruct (WorldMap.throws_on_construction y); reflexivity.
Qed.

Lemma addLayer_run (name : string) (y : layer) (w : world) (ls : list layer) :
  layerGroups w !! name = Some ls ->
  WorldMap.addLayer name y w
  = (if shown name w && WorldMap.unplaceable y
     then Throw WorldMap.null_position_error else Ok tt,
     with_layerGroups (<[name := ls ++ [y]]> (layerGroups w)) w).
Proof.
  intros Hg. unfold WorldMap.addLayer, shown.
  erewrite bind_run by reflexivity. rewrite Hg.
  erewrite bind_run by reflexivity.
  erewrite bind_run by reflexivity.
  cbn [onMap with_layerGroups].
  destruct (bool_decide (name ∈ onMap w) && WorldMap.unplaceable y);
    reflexivity.
Qed.

Lemma addLayer_missing (name : string) (y : layer) (w : world) :
  layerGroups w !! name = None ->
  WorldMap.addLayer name y w = (Throw (WorldMap.no_group name), w).
Proof.
  intros Hg. unfold WorldMap.addLayer.
  erewrite bind_run by reflexivity. rewrite Hg. reflexivity.
Qed.

(** A layer that has a position can be constructed. *)
Lemma located_valid (p : latlng) :
  WorldMap.located p = true -> WorldMap.invalid_latlng p = false.
Proof.
  unfold WorldMap.located, WorldMap.invalid_latlng.
  destruct (WorldMap.is_null p.1), (WorldMap.isNaN p.1), (WorldMap.isNaN p.2);
    cbn; congruence.
Qed.

Lemma placeable_constructs (ly : layer) :
  WorldMap.unplaceable ly = false -> WorldMap.throws_on_construction ly = false.
Proof.
  destruct ly as [p ic pop|p r c pop|pts pop|ms];
    cbn [WorldMap.unplaceable WorldMap.throws_on_construction];
    try reflexivity.
  - intros Hp. apply negb_false_iff in Hp. apply located_valid, Hp.
  - intros Hp. apply negb_false_iff in Hp. apply located_valid, Hp.
  - intros Hp. apply negb_false_iff in Hp.
    apply andb_false_iff. right.
    induction pts as [|p pts IH]; [reflexivity|].
    cbn [forallb existsb] in *. apply andb_true_iff in Hp as [Hp Hps].
    rewrite (located_valid p Hp), (IH Hps). reflexivity.
Qed.

(** [placed] of layers that all have a position: every one of them. *)
Lemma placed_all (on_map : bool) (candidates : list layer) :
  Forall (fun ly => WorldMap.unplaceable ly = false) candidates ->
  placed on_map candidates = (candidates, None).
Proof.
  induction 1 as [|ly rest Hly _ IH]; [reflexivity|].
  cbn [placed]. rewrite (placeable_constructs ly Hly), Hly, andb_false_r, IH.
  reflexivity.
Qed.

(** [placed] keeps a prefix of the candidates. *)
Lemma placed_prefix (on_map : bool) (candidates : list layer) :
  exists n, (placed on_map candidates).1 = take n candidates.
Proof.
  induction candidates as [|ly rest [n IH]]; [exists 0; reflexivity|].
  cbn [placed].
  destruct (WorldMap.throws_on_construction ly); [exists 0; reflexivity|].
  destruct (on_map && WorldMap.unplaceable ly); [exists 1; reflexivity|].
  exists (S n). cbn [fst take]. rewrite IH. reflexivity.
Qed.

(** A [forEach] whose body constructs at most one layer per element and
    adds it to the group. *)
Lemma forEach_addLayer {A} (name : string) (step : A -> option layer)
    (f : A -> M unit) :
  (forall x, f x = match step x with
                   | Some y =>
                       ly ← WorldMap.construct y; WorldMap.addLayer name ly
                   | None => ret tt
                   end) ->
  forall (l : list A) (w : world) (ls : list layer),
    layerGroups w !! name = Some ls ->
    forEach f l w
    = (result_of (placed (shown name w) (omap step l)).2,
       with_layerGroups
         (<[name := ls ++ (placed (shown name w) (omap step l)).1]>
            (layerGroups w)) w).
Proof.
  intros Hf l. induction l as [|x l IH]; intros w ls Hg.
  - cbn. rewrite app_nil_r, insert_id by exact Hg.
    rewrite world_eta. reflexivity.
  - cbn [forEach omap list_omap]. rewrite Hf.
    destruct (step x) as [y|]; cycle 1.
    { erewrite bind_run by reflexivity. apply IH, Hg. }
    csimpl. cbn [placed].
    destruct (WorldMap.throws_on_construction y) eqn:Hy.
    { erewrite bind_throw; cycle 1.
      { apply bind_throw. rewrite construct_run, Hy. reflexivity. }
      cbn [fst snd result_of]. rewrite app_nil_r, insert_id by exact Hg.
      rewrite world_eta. reflexivity. }
    destruct (shown name w && WorldMap.unplaceable y) eqn:Hs.
    { erewrite bind_throw; cycle 1.
      { erewrite bind_run by (rewrite construct_run, Hy; reflexivity).
        rewrite (addLayer_run name y w ls Hg), Hs. reflexivity. }
      reflexivity. }
    erewrite bind_run; cycle 1.
    { erewrite bind_run by (rewrite construct_run, Hy; reflexivity).
      rewrite (addLayer_run name y w ls Hg), Hs. reflexivity. }
    rewrite (IH _ (ls ++ [y])) by apply lookup_insert_eq.
    cbn [layerGroups with_layerGroups fst snd].
    change (shown name (with_layerGroups _ w)) with (shown name w).
    rewrite insert_insert_eq, <- app_assoc. reflexivity.
Qed.

Lemma rebuild_forEach {A} (name : string) (step : A -> option layer)
    (candidates : list A -> list layer)
    (f : A -> M unit) (data : payload A) (w : world) :
  (forall x, f x = match step x with
                   | Some y =>
                       ly ← WorldMap.construct y; WorldMap.addLayer name ly
                   | None => ret tt
                   end) ->
  (forall l, omap step l = candidates l) ->
  (WorldMap.clearLayers name ;; l ← WorldMap.array_of data; forEach f l) w
  = rebuild_outcome name candidates data w.
Proof.
  intros Hf Hl. unfold rebuild_outcome, mbind, M_bind, bind.
  rewrite clearLayers_run.
  destruct (layerGroups w !! name) as [ls|] eqn:Hg; [|reflexivity].
  destruct data as [| |l]; try reflexivity.
  cbn [WorldMap.array_of ret].
  rewrite (forEach_addLayer name step f Hf l _ []) by apply lookup_insert_eq.
  cbn [layerGroups with_layerGroups app].
  change (shown name (with_layerGroups _ w)) with (shown name w).
  rewrite insert_insert_eq, Hl. reflexivity.
Qed.

Lemma omap_Some_map {A B} (g : A -> B) (l : list A) :
  omap (fun x => Some (g x)) l = map g l.
Proof. induction l as [|x l IH]; csimpl; [|rewrite IH]; reflexivity. Qed.

Lemma omap_guard {A B} (keep : A -> bool) (g : A -> B) (l : list A) :
  omap (fun x => if keep x then Some (g x) else None) l
  = map g (List.filter keep l).
Proof.
  induction l as [|x l IH]; csimpl; [reflexivity|].
  destruct (keep x); csimpl; rewrite IH; reflexivity.
Qed.

(** The state after an update function, whatever it returns. *)
Lemma rebuild_outcome_state {A} (name : string)
    (candidates : list A -> list layer) (data : payload A) (w : world) :
  exists g,
    snd (rebuild_outcome name candidates data w) = with_layerGroups g w
    /\ (forall k, k <> name -> g !! k = layerGroups w !! k)
    /\ (is_Some (layerGroups w !! name) ->
        g !! name
        = Some match data with
               | PArray l => (placed (shown name w) (candidates l)).1
               | _ => []
               end).
Proof.
  unfold rebuild_outcome.
  destruct (layerGroups w !! name) as [ls|] eqn:Hls.
  - destruct data as [|len|l]; cbn [snd];
      (eexists; split; [reflexivity|split;
        [intros k Hk; apply lookup_insert_ne; congruence
        |intros _; apply lookup_insert_eq]]).
  - exists (layerGroups w). split; [|split].
    + cbn. rewrite world_eta. reflexivity.
    + reflexivity.
    + intros [? [=]].
Qed.


Lemma updateEarthquakes_run data w :
  WorldMap.updateEarthquakes data w
  = rebuild_outcome "earthquakes" (map WorldMap.earthquakeMarker) data w.
Proof.
  apply (rebuild_forEach _ (fun x => Some (WorldMap.earthquakeMarker x)));
    [reflexivity | apply omap_Some_map].
Qed.



Lemma updateBases_run data w :
  WorldMap.updateBases data w
  = rebuild_outcome "bases" (map WorldMap.baseMarker) data w.
Proof.
  apply (rebuild_forEach _ (fun x => Some (WorldMap.baseMarker x)));
    [reflexivity | apply omap_Some_map].
Qed.

Lemma updateNuclear_run data w :
  WorldMap.updateNuclear data w
  = rebuild_outcome "nuclear" (map WorldMap.nuclearMarker) data w.
Proof.
  apply (rebuild_forEach _ (fun x => Some (WorldMap.nuclearMarker x)));
    [reflexivity | apply omap_Some_map].
Qed.

Lemma updateWaterways_run data w :
  WorldMap.updateWaterways data w
  = rebuild_outcome "waterways" (map WorldMap.waterwayMarker) data w.
Proof.
  apply (rebuild_forEach _ (fun x => Some (WorldMap.waterwayMarker x)));
    [reflexivity | apply omap_Some_map].
Qed.

Lemma updateCables_run data w :
  WorldMap.updateCables data w
  = rebuild_outcome "cables" (omap cable_layer) data w.
Proof.
  apply (rebuild_forEach _ cable_layer); [|reflexivity].
  intros c. unfold cable_layer. destruct (cable_points c) as [ps|]; [|reflexivity].
  destruct (2 <=? length ps)%nat; reflexivity.
Qed.

Lemma updateDisasters_run data w :
  WorldMap.updateDisasters data w
  = rebuild_outcome "disasters"
      (fun l => map WorldMap.disasterMarker
                  (List.filter (fun d => negb (WorldMap.zero_coordinates d)) l))
      data w.
Proof.
  apply (rebuild_forEach _
           (fun d => if negb (WorldMap.zero_coordinates d)
                     then Some (WorldMap.disasterMarker d) else None)).
  - intros d. destruct (WorldMap.zero_coordinates d); reflexivity.
  - intros l. apply omap_guard.
Qed.

Lemma cluster_step_run (acc : list layer) (ev : ConflictEvent) (w : world) :
  WorldMap.cluster_step acc ev w
  = if WorldMap.falsy_coordinate ev then (Ok acc, w)
    else if WorldMap.throws_on_construction (WorldMap.conflictMarker ev)
    then (Throw WorldMap.invalid_latlng_error, w)
    else (Ok (acc ++ [WorldMap.conflictMarker ev]), w).
Proof.
  unfold WorldMap.cluster_step.
  destruct (WorldMap.falsy_coordinate ev); [reflexivity|].
  destruct (WorldMap.throws_on_construction (WorldMap.conflictMarker ev))
    eqn:Hev.
  - apply bind_throw. rewrite construct_run, Hev. reflexivity.
  - erewrite bind_run by (rewrite construct_run, Hev; reflexivity).
    reflexivity.
Qed.

(** The markers [updateConflictEvents] puts in its cluster. *)
Lemma cluster_markers (l : list ConflictEvent) (acc : list layer) (w : world) :
  WorldMap.forEach_on WorldMap.cluster_step l acc w
  = match (placed false
             (map WorldMap.conflictMarker
                (List.filter
                   (fun ev => negb (WorldMap.falsy_coordinate ev)) l))).2 with
    | None =>
        (Ok (acc ++ map WorldMap.conflictMarker
                      (List.filter
                         (fun ev => negb (WorldMap.falsy_coordinate ev)) l)),
         w)
    | Some e => (Throw e, w)
    end.
Proof.
  revert acc. induction l as [|ev l IH]; intros acc.
  - cbn. rewrite app_nil_r. reflexivity.
  - cbn [WorldMap.forEach_on List.filter].
    pose proof (cluster_step_run acc ev w) as Hstep.
    destruct (WorldMap.falsy_coordinate ev); cbn [negb].
    + erewrite bind_run by exact Hstep. apply IH.
    + cbn [map placed].
      destruct (WorldMap.throws_on_construction (WorldMap.conflictMarker ev)).
      * erewrite bind_throw by exact Hstep. reflexivity.
      * erewrite bind_run by exact Hstep.
        rewrite IH. cbn [andb fst snd].
        destruct (placed false _).2; [reflexivity|].
        rewrite <- app_assoc. reflexivity.
Qed.

Lemma updateConflictEvents_run data w :
  WorldMap.updateConflictEvents data w = cluster_outcome data w.
Proof.
  unfold WorldMap.updateConflictEvents, cluster_outcome.
  unfold mbind at 1, M_bind at 1, bind at 1.
  rewrite clearLayers_run.
  destruct (layerGroups w !! "conflict-events") as [ls|] eqn:Hg; [|reflexivity].
  destruct data as [| |l]; try reflexivity.
  erewrite bind_run by reflexivity. cbv zeta.
  set (w0 := with_layerGroups _ w).
  pose proof (cluster_markers l [] w0) as Hrun.
  destruct (placed false _).2 as [e|].
  - apply bind_throw, Hrun.
  - erewrite bind_run by exact Hrun.
    rewrite (addLayer_run _ _ _ []) by apply lookup_insert_eq.
    cbn [WorldMap.unplaceable]. rewrite andb_false_r.
    unfold w0. cbn [layerGroups with_layerGroups app].
    rewrite insert_insert_eq. reflexivity.
Qed.

Lemma cable_layer_drawn (l : list Cable) :
  omap cable_layer l = map drawn_line (filter has_route l).
Proof.
  induction l as [|c l IH]; [reflexivity|].
  csimpl. rewrite IH, filter_cons. unfold cable_layer at 1.
  destruct (decide (has_route c)) as [(ps & Hps & Hlen)|Hno].
  - rewrite Hps. destruct (Nat.leb_spec 2 (length ps)); [|lia].
    cbn [map]. f_equal. unfold drawn_line. rewrite Hps. reflexivity.
  - destruct (cable_points c) as [ps|] eqn:Hps; [|reflexivity].
    destruct (Nat.leb_spec 2 (length ps)); [|reflexivity].
    exfalso. apply Hno. exists ps. auto.
Qed.

Lemma drawn_line_proper (c : Cable) : has_route c -> proper_line (drawn_line c).
Proof.
  intros (ps & Hps & Hlen). unfold drawn_line, WorldMap.cableLine.
  rewrite Hps. cbn [default]. eexists _, _. split; [reflexivity|].
  rewrite length_map. exact Hlen.
Qed.

(** What a rebuilding update function does to its own calls. *)
Lemma cluster_rebuilds :
  (forall d1 d2 w,
     WorldMap.updateConflictEvents d2
       (exec (WorldMap.updateConflictEvents d1) w)
     = WorldMap.updateConflictEvents d2 w).
Proof.
  intros d1 d2 w. unfold exec. rewrite !updateConflictEvents_run.
  unfold cluster_outcome.
  destruct (layerGroups w !! "conflict-events") as [ls|] eqn:Hg; cbn [snd].
  - destruct d1 as [| |l1]; cbv zeta;
      try destruct (placed false _).2;
      cbn [snd layerGroups with_layerGroups];
      rewrite lookup_insert_eq; destruct d2 as [| |l2]; cbv zeta;
      try destruct (placed false _).2;
      cbn [layerGroups with_layerGroups];
      rewrite ?insert_insert_eq; reflexivity.
  - rewrite Hg. reflexivity.
Qed.

End LayerGroups.

Section Rebuilds.
Context `{Platform}.

(** With the group off the map, [placed] stops only at a constructor
    call that throws. *)
Lemma placed_off_all (candidates : list layer) :
  forallb (fun m => negb (WorldMap.throws_on_construction m)) candidates
  = true ->
  placed false candidates = (candidates, None).
Proof.
  induction candidates as [|ly rest IH]; [reflexivity|].
  cbn [forallb placed]. intros Hall.
  apply andb_true_iff in Hall as [Hly Hrest].
  apply negb_true_iff in Hly. rewrite Hly, (IH Hrest). reflexivity.
Qed.

Lemma drawable_placeable (ly : layer) :
  (forall members, ly <> MarkerCluster members) ->
  drawable ly = true -> WorldMap.unplaceable ly = false.
Proof.
  intros Hno Hd. destruct ly; cbn [drawable] in Hd;
    try (apply negb_true_iff, Hd).
  destruct (Hno members). reflexivity.
Qed.

Lemma map_placeable {A} (mk : A -> layer) (l : list A) :
  (forall x members, mk x <> MarkerCluster members) ->
  Forall (fun ly => drawable ly = true) (map mk l) ->
  Forall (fun ly => WorldMap.unplaceable ly = false) (map mk l).
Proof.
  intros Hmk Hall. rewrite Forall_forall in *. intros ly Hin.
  apply drawable_placeable; [|apply Hall, Hin].
  apply list_elem_of_In, in_map_iff in Hin as (x & <- & _). apply Hmk.
Qed.

Lemma cluster_rebuilds_contents :
  rebuilds "conflict-events" WorldMap.updateConflictEvents
    (fun l => [MarkerCluster
                 (map WorldMap.conflictMarker
                    (List.filter
                       (fun ev => negb (WorldMap.falsy_coordinate ev)) l))]).
Proof.
  split; [|split; [|split; [|split]]].
  - intros d w. apply cluster_rebuilds.
  - apply cluster_rebuilds.
  - intros l w [ls Hg] Hall. apply Forall_cons in Hall as [Hall _].
    cbn [drawable] in Hall.
    unfold eval, exec. rewrite updateConflictEvents_run.
    unfold cluster_outcome. rewrite Hg. cbv zeta.
    rewrite (placed_off_all _ Hall).
    cbn [fst snd layerGroups with_layerGroups].
    split; [reflexivity | apply lookup_insert_eq].
  - intros l w [ls Hg]. unfold exec. rewrite updateConflictEvents_run.
    unfold cluster_outcome. rewrite Hg. cbv zeta.
    destruct (placed false _).2.
    + exists 0. apply lookup_insert_eq.
    + exists 1. apply lookup_insert_eq.
  - intros d w k Hk. unfold exec. rewrite updateConflictEvents_run.
    unfold cluster_outcome.
    destruct (layerGroups w !! "conflict-events"); [|reflexivity].
    destruct d; cbv zeta; try destruct (placed false _).2;
      cbn [snd layerGroups with_layerGroups];
      apply lookup_insert_ne; congruence.
Qed.

(** [updateDisasters] on a record whose latitude is [null]. *)
Lemma disasters_null_latitude (w : world) (d : DisasterEvent)
    (rest : list DisasterEvent) :
  is_Some (layerGroups w !! "disasters") ->
  dis_lat d = Js.Null ->
  WorldMap.zero_coordinates d = false
  /\ eval (WorldMap.updateDisasters (PArray (d :: rest))) w
     = (if shown "disasters" w then Throw WorldMap.null_position_error
        else result_of
               (placed false
                  (map WorldMap.disasterMarker
                     (List.filter
                        (fun d => negb (WorldMap.zero_coordinates d)) rest))).2)
  /\ layerGroups (exec (WorldMap.updateDisasters (PArray (d :: rest))) w)
       !! "disasters"
     = Some (if shown "disasters" w then [WorldMap.disasterMarker d]
             else WorldMap.disasterMarker d
                  :: (placed false
                        (map WorldMap.disasterMarker
                           (List.filter
                              (fun d => negb (WorldMap.zero_coordinates d))
                              rest))).1).
Proof.
  intros [ls Hg] Hlat.
  assert (Hz : WorldMap.zero_coordinates d = false).
  { unfold WorldMap.zero_coordinates. rewrite Hlat. reflexivity. }
  split; [exact Hz|].
  unfold eval, exec. rewrite updateDisasters_run. unfold rebuild_outcome.
  rewrite Hg. cbn [List.filter]. rewrite Hz. cbn [negb map placed].
  assert (Hc : WorldMap.throws_on_construction (WorldMap.disasterMarker d)
               = false).
  { unfold WorldMap.disasterMarker. cbn. unfold WorldMap.invalid_latlng.
    cbn. rewrite Hlat. reflexivity. }
  assert (Hu : WorldMap.unplaceable (WorldMap.disasterMarker d) = true).
  { unfold WorldMap.disasterMarker. cbn. unfold WorldMap.located.
    cbn. rewrite Hlat. reflexivity. }
  rewrite Hc, Hu, andb_true_r.
  destruct (shown "disasters" w);
    cbn [fst snd layerGroups with_layerGroups result_of];
    (split; [reflexivity | apply lookup_insert_eq]).
Qed.


End Rebuilds.


Section Routes.
Context `{Platform}.

(** The polyline of a route whose points all have numeric coordinates
    has a position. *)
Lemma located_route_placeable (c : Cable) :
  located_route c = true -> WorldMap.unplaceable (drawn_line c) = false.
Proof.
  unfold located_route, drawn_line, WorldMap.cableLine.
  cbn [WorldMap.unplaceable]. intros Hall. apply negb_false_iff.
  induction (default [] (cable_points c)) as [|p ps IH]; [reflexivity|].
  cbn [map forallb] in *. apply andb_true_iff in Hall as [Hp Hps].
  rewrite Hp, (IH Hps). reflexivity.
Qed.

Lemma cable_layer_route (c : Cable) : is_Some (cable_layer c) <-> has_route c.
Proof.
  unfold cable_layer, has_route.
  destruct (cable_points c) as [ps|].
  - destruct (Nat.leb_spec 2 (length ps)); split.
    + intros _. eauto.
    + intros _. eexists. reflexivity.
    + intros [x Hx]. discriminate.
    + intros (ps' & [= <-] & Hlen). lia.
  - split; [intros [x Hx]; discriminate | intros (ps' & [=] & _)].
Qed.

Lemma updateCables_located (w : world) (l : list Cable) :
  is_Some (layerGroups w !! "cables") ->
  (forall c, c ∈ l -> has_route c -> located_route c = true) ->
  eval (WorldMap.updateCables (PArray l)) w = Ok tt
  /\ layerGroups (exec (WorldMap.updateCables (PArray l)) w) !! "cables"
     = Some (map drawn_line (filter has_route l)).
Proof.
  intros [ls Hg] Hloc. unfold eval, exec. rewrite updateCables_run.
  unfold rebuild_outcome. rewrite Hg, cable_layer_drawn.
  rewrite placed_all.
  - cbn [fst snd layerGroups with_layerGroups result_of].
    split; [reflexivity | apply lookup_insert_eq].
  - apply Forall_forall. intros ly Hin.
    apply list_elem_of_In, in_map_iff in Hin as (c & <- & Hin).
    apply list_elem_of_In, list_elem_of_filter in Hin as [Hr Hin].
    apply located_route_placeable, Hloc; assumption.
Qed.

Lemma updateCables_prefix (w : world) (l : list Cable) :
  is_Some (layerGroups w !! "cables") ->
  exists n,
    layerGroups (exec (WorldMap.updateCables (PArray l)) w) !! "cables"
    = Some (take n (map drawn_line (filter has_route l))).
Proof.
  intros [ls Hg]. unfold exec. rewrite updateCables_run.
  unfold rebuild_outcome. rewrite Hg, cable_layer_drawn.
  destruct (placed_prefix (shown "cables" w)
              (map drawn_line (filter has_route l))) as [n Hn].
  exists n. cbn [snd layerGroups with_layerGroups].
  rewrite lookup_insert_eq, Hn. reflexivity.
Qed.

End Routes.

(** C9 (amended).  [updateCables], given an array of cable records in
    which every point of a route is a pair of numeric coordinates,
    returns and leaves in the cables group one polyline for each record
    that has a route (a [points] field that is present and holds at
    least 2 points), in the order of the array, and nothing for the
    other records: a record yields a polyline exactly when it has a
    route.  Whatever the array, the group holds afterwards only
    polylines of records with a route, in order, and each of them runs
    through at least 2 points. *)
Theorem C9_cables_need_two_points `{Platform} (w : world) (l : list Cable) :
  is_Some (layerGroups w !! "cables") ->
  (forall c, c ∈ l -> has_route c -> located_route c = true) ->
  eval (WorldMap.updateCables (PArray l)) w = Ok tt
  /\ layerGroups (exec (WorldMap.updateCables (PArray l)) w) !! "cables"
     = Some (map drawn_line (filter has_route l))
  /\ (forall c, is_Some (cable_layer c) <-> has_route c)
  /\ (forall c, ~ has_route c ->
        eval (WorldMap.updateCables (PArray [c])) w = Ok tt
        /\ layerGroups (exec (WorldMap.updateCables (PArray [c])) w)
             !! "cables" = Some [])
  /\ (forall c, has_route c -> located_route c = true ->
        eval (WorldMap.updateCables (PArray [c])) w = Ok tt
        /\ layerGroups (exec (WorldMap.updateCables (PArray [c])) w)
             !! "cables" = Some [drawn_line c])
  /\ (forall l' : list Cable,
        (exists n,
           layerGroups (exec (WorldMap.updateCables (PArray l')) w)
             !! "cables"
           = Some (take n (map drawn_line (filter has_route l'))))
        /\ Forall proper_line (map drawn_line (filter has_route l'))).
Proof.
  intros Hg Hloc.
  destruct (updateCables_located w l Hg Hloc) as [Hok Hgroup].
  split; [exact Hok|]. split; [exact Hgroup|].
  split; [exact cable_layer_route|]. split; [|split].
  - intros c Hc.
    destruct (updateCables_located w [c] Hg) as [Hok1 Hg1].
    { intros c' Hin Hr. apply list_elem_of_singleton in Hin as ->.
      contradiction. }
    split; [exact Hok1|]. rewrite Hg1, filter_cons.
    destruct (decide (has_route c)); [contradiction | reflexivity].
  - intros c Hc Hl.
    destruct (updateCables_located w [c] Hg) as [Hok1 Hg1].
    { intros c' Hin Hr. apply list_elem_of_singleton in Hin as ->.
      exact Hl. }
    split; [exact Hok1|]. rewrite Hg1, filter_cons.
    destruct (decide (has_route c)); [reflexivity | contradiction].
  - intros l'. split; [apply updateCables_prefix, Hg|].
    apply Forall_forall. intros ly Hin.
    apply list_elem_of_In, in_map_iff in Hin.
    destruct Hin as (c & <- & Hin). apply drawn_line_proper.
    apply list_elem_of_In, list_elem_of_filter in Hin. apply Hin.
Qed.

(** C3 (a defect of the code).  [updateConflictEvents] skips every
    record whose [lat] or [lng] is falsy, which covers 0, [null] and a
    missing field: its cluster holds one marker for each other record.
    [updateDisasters] skips a record only when [lat] and [lng] are both
    the number 0, and draws the others when each has numeric
    coordinates.  A record whose latitude is [null] is not skipped: its
    marker, which has no position, is put in the group, and when the
    group is on the map adding it throws, so that no later record gets a
    marker.  A record whose latitude is missing is not skipped either:
    constructing its marker throws, and neither it nor any later record
    gets a marker. *)
Theorem C3_absent_coordinates_not_skipped `{Platform} (w : world) :
  (forall ev,
     WorldMap.falsy_coordinate ev = true <->
     Js.truthy (ev_lat ev) = false \/ Js.truthy (ev_lng ev) = false)
  /\ (forall v,
        Js.absent v = true \/ Js.strict_eq_zero v = true ->
        Js.truthy v = false)
  /\ (forall l,
        is_Some (layerGroups w !! "conflict-events") ->
        drawable (MarkerCluster
                    (map WorldMap.conflictMarker
                       (List.filter
                          (fun ev => negb (WorldMap.falsy_coordinate ev)) l)))
        = true ->
        eval (WorldMap.updateConflictEvents (PArray l)) w = Ok tt
        /\ layerGroups (exec (WorldMap.updateConflictEvents (PArray l)) w)
             !! "conflict-events"
           = Some [MarkerCluster
                     (map WorldMap.conflictMarker
                        (List.filter
                           (fun ev => negb (WorldMap.falsy_coordinate ev))
                           l))])
  /\ (forall d,
        WorldMap.zero_coordinates d = true <->
        exists p q, dis_lat d = Js.Num p /\ dis_lng d = Js.Num q
                    /\ (p == 0)%Q /\ (q == 0)%Q)
  /\ (forall l,
        is_Some (layerGroups w !! "disasters") ->
        Forall (fun ly => drawable ly = true)
          (map WorldMap.disasterMarker
             (List.filter (fun d => negb (WorldMap.zero_coordinates d)) l)) ->
        eval (WorldMap.updateDisasters (PArray l)) w = Ok tt
        /\ layerGroups (exec (WorldMap.updateDisasters (PArray l)) w)
             !! "disasters"
           = Some (map WorldMap.disasterMarker
                     (List.filter
                        (fun d => negb (WorldMap.zero_coordinates d)) l)))
  /\ (forall d rest,
        is_Some (layerGroups w !! "disasters") ->
        dis_lat d = Js.Null ->
        shown "disasters" w = true ->
        WorldMap.zero_coordinates d = false
        /\ eval (WorldMap.updateDisasters (PArray (d :: rest))) w
           = Throw WorldMap.null_position_error
        /\ layerGroups (exec (WorldMap.updateDisasters (PArray (d :: rest))) w)
             !! "disasters"
           = Some [WorldMap.disasterMarker d])
  /\ (forall d rest,
        is_Some (layerGroups w !! "disasters") ->
        dis_lat d = Js.Undefined ->
        WorldMap.zero_coordinates d = false
        /\ eval (WorldMap.updateDisasters (PArray (d :: rest))) w
           = Throw WorldMap.invalid_latlng_error
        /\ layerGroups (exec (WorldMap.updateDisasters (PArray (d :: rest))) w)
             !! "disasters"
           = Some []).
Proof.
  repeat match goal with |- _ /\ _ => split end.
  - intros ev. unfold WorldMap.falsy_coordinate.
    rewrite orb_true_iff, !negb_true_iff. reflexivity.
  - intros v [Ha|Hz]; destruct v; try discriminate; try reflexivity.
    simpl in *. rewrite Hz. reflexivity.
  - intros l Hg Hd.
    apply (proj1 (proj2 (proj2 cluster_rebuilds_contents)) l w Hg).
    constructor; [exact Hd | constructor].
  - intros d. unfold WorldMap.zero_coordinates, Js.strict_eq_zero.
    rewrite andb_true_iff. split.
    + destruct (dis_lat d) as [| | |p|], (dis_lng d) as [| | |q|];
        intros [Hp Hq]; try discriminate.
      exists p, q. repeat split; apply Qeq_bool_iff; assumption.
    + intros (p & q & -> & -> & Hp & Hq). split; apply Qeq_bool_iff; assumption.
  - intros l [ls Hg] Hall. unfold eval, exec. rewrite updateDisasters_run.
    unfold rebuild_outcome. rewrite Hg.
    rewrite placed_all by (apply map_placeable; [discriminate | exact Hall]).
    cbn [fst snd layerGroups with_layerGroups result_of].
    split; [reflexivity | apply lookup_insert_eq].
  - intros d rest Hg Hlat Hshown.
    destruct (disasters_null_latitude w d rest Hg Hlat) as (Hz & He & Hs).
    rewrite Hshown in He, Hs. auto.
  - intros d rest [ls Hg] Hlat.
    assert (Hz : WorldMap.zero_coordinates d = false).
    { unfold WorldMap.zero_coordinates. rewrite Hlat. reflexivity. }
    split; [exact Hz|].
    unfold eval, exec. rewrite updateDisasters_run. unfold rebuild_outcome.
    rewrite Hg. cbn [List.filter]. rewrite Hz. cbn [negb map placed].
    assert (Hc : WorldMap.throws_on_construction (WorldMap.disasterMarker d)
                 = true).
    { unfold WorldMap.disasterMarker. cbn. unfold WorldMap.invalid_latlng.
      cbn. rewrite Hlat. reflexivity. }
    rewrite Hc. cbn [fst snd layerGroups with_layerGroups result_of].
    split; [reflexivity | apply lookup_insert_eq].
Qed.

(** ** The cache *)

(** C1.  An entry of the cache is valid exactly when
    [now - stored_at < TTL].  While the age of the entry under [key] is
    below its TTL, [get] returns the stored value and the cache wrapper
    returns it without invoking the fetcher (the counter of fetcher calls
    and the store are unchanged).  Once the age is at or above the TTL,
    [get] answers absent, and the wrapper counts a miss: it invokes the
    fetcher once and returns and stores what the fetcher returned. *)
Theorem C1_cache_entry_valid_iff_fresh {V : Type}
    (st : gmap string (Cache.CacheEntry V)) (key : string)
    (e : Cache.CacheEntry V) (now : Z) :
  st !! key = Some e ->
  (Cache.valid now e = true <->
   (now - Cache.stored_at e < Cache.entry_ttl e)%Z)
  /\ ((now - Cache.stored_at e < Cache.entry_ttl e)%Z ->
      Cache.get now key st = Some (Cache.entry_value e)
      /\ forall ttl fetcher calls,
           Cache.cached now key ttl fetcher
             {| Cache.store := st; Cache.fetch_calls := calls |}
           = (Cache.entry_value e,
              {| Cache.store := st; Cache.fetch_calls := calls |}))
  /\ ((Cache.entry_ttl e <= now - Cache.stored_at e)%Z ->
      Cache.get now key st = None
      /\ forall ttl fetcher calls,
           Cache.cached now key ttl fetcher
             {| Cache.store := st; Cache.fetch_calls := calls |}
           = (fetcher now,
              {| Cache.store := Cache.set now key (fetcher now) ttl st;
                 Cache.fetch_calls := S calls |})).
Proof.
  intros Hkey.
  assert (Hvalid : Cache.valid now e = true <->
                   (now - Cache.stored_at e < Cache.entry_ttl e)%Z).
  { unfold Cache.valid. apply Z.ltb_lt. }
  split; [exact Hvalid|]. split.
  - intros Hfresh. apply Hvalid in Hfresh.
    assert (Hget : Cache.get now key st = Some (Cache.entry_value e)).
    { unfold Cache.get. rewrite Hkey, Hfresh. reflexivity. }
    split; [exact Hget|]. intros ttl fetcher calls.
    unfold Cache.cached. cbn [Cache.store]. rewrite Hget. reflexivity.
  - intros Hstale.
    assert (Hno : Cache.valid now e = false).
    { unfold Cache.valid. apply Z.ltb_ge. exact Hstale. }
    assert (Hget : Cache.get now key st = None).
    { unfold Cache.get. rewrite Hkey, Hno. reflexivity. }
    split; [exact Hget|]. intros ttl fetcher calls.
    unfold Cache.cached. cbn [Cache.store Cache.fetch_calls].
    rewrite Hget. reflexivity.
Qed.

(** ** The earthquake fetcher *)

(** C2.  The output of the earthquake fetcher is the upstream features
    of magnitude at least 4.5 whose time lies in the 24 hours up to
    [now], mapped to events, in the order of the feed: an event is in
    the output exactly when it comes from such a feature.  For a feed of
    one event of magnitude 3.0 and one of magnitude 5.2 from the last 24
    hours, the output is the second alone. *)
Theorem C2_earthquake_filter (now : Z) (feed : list Earthquake.Feature) :
  Earthquake.fetch now feed
  = map Earthquake.to_event (filter (strong_and_recent now) feed)
  /\ (forall e,
        In e (Earthquake.fetch now feed) <->
        exists f, In f feed /\ e = Earthquake.to_event f
                  /\ (45 # 10 <= Earthquake.f_mag f)%Q
                  /\ (now - 86400000 <= Earthquake.f_time f <= now)%Z)
  /\ (forall f30 f52,
        (Earthquake.f_mag f30 == 3)%Q ->
        (Earthquake.f_mag f52 == 52 # 10)%Q ->
        (now - 86400000 <= Earthquake.f_time f52 <= now)%Z ->
        Earthquake.fetch now [f30; f52] = [Earthquake.to_event f52]).
Proof.
  assert (Hret : forall f,
    Earthquake.retained now f = true <-> strong_and_recent now f).
  { intros f. unfold Earthquake.retained, strong_and_recent.
    rewrite !andb_true_iff, Qle_bool_iff, !Z.leb_le.
    unfold Earthquake.MIN_MAGNITUDE, Earthquake.DAY_MS. tauto. }
  assert (Hfilter : forall l,
    List.filter (Earthquake.retained now) l = filter (strong_and_recent now) l).
  { induction l as [|f l IH]; [reflexivity|].
    cbn [List.filter]. rewrite filter_cons, IH.
    destruct (Earthquake.retained now f) eqn:Hf;
      destruct (decide (strong_and_recent now f)) as [Hs|Hs];
      try reflexivity.
    - apply Hret in Hf. contradiction.
    - apply Hret in Hs. congruence. }
  split; [|split].
  - unfold Earthquake.fetch. rewrite Hfilter. reflexivity.
  - intros e. unfold Earthquake.fetch. rewrite in_map_iff. split.
    + intros (f & <- & Hin). apply filter_In in Hin. destruct Hin as [Hin Hf].
      apply Hret in Hf. exists f. unfold strong_and_recent in Hf. tauto.
    + intros (f & Hin & -> & Hmag & Htime). exists f. split; [reflexivity|].
      apply filter_In. split; [exact Hin|]. apply Hret. split; assumption.
  - intros f30 f52 H30 H52 Htime. unfold Earthquake.fetch.
    cbn [List.filter].
    assert (Earthquake.retained now f30 = false) as ->.
    { apply not_true_iff_false. rewrite Hret. unfold strong_and_recent.
      rewrite H30. intros [Hmag _]. revert Hmag. unfold Qle. simpl. lia. }
    assert (Earthquake.retained now f52 = true) as ->.
    { apply Hret. split; [|exact Htime]. rewrite H52. unfold Qle. simpl. lia. }
    reflexivity.
Qed.

(** ** The RSS fetcher *)

Lemma fetch_all_app kws net (l1 l2 : list Rss.Source) :
  Rss.fetch_all kws net (l1 ++ l2)
  = Rss.fetch_all kws net l1 ++ Rss.fetch_all kws net l2.
Proof.
  induction l1 as [|s l1 IH]; [reflexivity|].
  cbn [app Rss.fetch_all]. rewrite IH.
  destruct (Rss.fetch_source kws net s); [apply app_assoc | reflexivity].
Qed.

Lemma fetch_all_concat kws net (l : list Rss.Source) :
  Rss.fetch_all kws net l
  = concat (map (fun s => default [] (Rss.fetch_source kws net s)) l).
Proof.
  induction l as [|s l IH]; [reflexivity|].
  cbn [Rss.fetch_all map concat]. rewrite IH.
  destruct (Rss.fetch_source kws net s); reflexivity.
Qed.

Lemma fetch_source_length kws net (s : Rss.Source) :
  length (default [] (Rss.fetch_source kws net s)) = Rss.item_count net s.
Proof.
  unfold Rss.fetch_source, Rss.item_count.
  destruct (net (Rss.src_url s)); cbn [default]; try reflexivity.
  apply length_map.
Qed.

Lemma fetch_all_length kws net (l : list Rss.Source) :
  length (Rss.fetch_all kws net l) = sum_list (map (Rss.item_count net) l).
Proof.
  induction l as [|s l IH]; [reflexivity|].
  cbn [map sum_list sum_list_with].
  rewrite <- IH, <- (fetch_source_length kws).
  cbn [Rss.fetch_all].
  destruct (Rss.fetch_source kws net s); cbn [default];
    [apply length_app | reflexivity].
Qed.

(** C6.  The list the RSS fetcher returns is the concatenation, in the
    order of the configuration, of the items of the sources whose fetch
    succeeds, so its length is the sum of their item counts.  When one
    of 16 configured sources fails (by a timeout or otherwise) and the
    other 15 succeed, the result is the list obtained from the 15 alone: it holds
    every item of each of them and its length is the sum of the 15 item
    counts. *)
Theorem C6_rss_partial_failure (kws : list string)
    (net : string -> Rss.response) (before after : list Rss.Source)
    (failed : Rss.Source) :
  Rss.succeeds net failed = false ->
  Forall (fun s => Rss.succeeds net s = true) (before ++ after) ->
  length (before ++ failed :: after) = 16 ->
  let items := Rss.fetch_all kws net (before ++ failed :: after) in
  length (before ++ after) = 15
  /\ items = Rss.fetch_all kws net (before ++ after)
  /\ items
     = concat (map (fun s => default [] (Rss.fetch_source kws net s))
                 (before ++ after))
  /\ length items = sum_list (map (Rss.item_count net) (before ++ after))
  /\ (forall s, In s (before ++ after) ->
        exists its, Rss.fetch_source kws net s = Some its
                    /\ length its = Rss.item_count net s
                    /\ forall it, In it its -> In it items).
Proof.
  intros Hfail Hok Hlen items.
  assert (Hsame : items = Rss.fetch_all kws net (before ++ after)).
  { unfold items. rewrite !fetch_all_app. cbn [Rss.fetch_all].
    unfold Rss.succeeds in Hfail. unfold Rss.fetch_source at 1.
    destruct (net (Rss.src_url failed)); [reflexivity .. | discriminate]. }
  split; [|split; [|split; [|split]]].
  - rewrite length_app in *. cbn [length] in Hlen. lia.
  - exact Hsame.
  - rewrite Hsame. apply fetch_all_concat.
  - rewrite Hsame. apply fetch_all_length.
  - intros s Hin.
    assert (Hs : Rss.succeeds net s = true).
    { rewrite Forall_forall in Hok. apply Hok, list_elem_of_In, Hin. }
    unfold Rss.succeeds in Hs.
    pose proof (fetch_source_length kws net s) as Hcount.
    unfold Rss.fetch_source in *.
    destruct (net (Rss.src_url s)) as [| | |entries] eqn:Hnet;
      try discriminate.
    eexists. split; [reflexivity|]. split; [exact Hcount|].
    intros it Hit. rewrite Hsame, fetch_all_concat. apply in_concat.
    eexists. split; [|exact Hit]. apply in_map_iff. exists s.
    split; [|exact Hin]. unfold Rss.fetch_source. rewrite Hnet. reflexivity.
Qed.

(** ** Client code stays within the frame *)

Section Frame.
Context `{Platform}.

Lemma frame_refl (w : world) : frame w w.
Proof. unfold frame. tauto. Qed.

Lemma frame_trans (w1 w2 w3 : world) :
  frame w1 w2 -> frame w2 w3 -> frame w1 w3.
Proof.
  unfold frame. intros (Hd & Ht & Hi & Ha & Hn & Hr) (Hd' & Ht' & Hi' & Ha' & Hn' & Hr').
  repeat split; try congruence.
  - intros Hs. apply Hd, Hd', Hs.
  - intros Hs. apply Hd', Hd, Hs.
Qed.

Lemma frame_has (sel : string) (w w' : world) :
  frame w w' -> has sel w -> has sel w'.
Proof. intros (Hd & _) Hs. apply Hd, Hs. Qed.

(** What a computation does in a state: its result and the state it
    leaves. *)
Lemma run_eq {A} (m : M A) (w : world) : m w = (eval m w, exec m w).
Proof. unfold eval, exec. destruct (m w); reflexivity. Qed.

Lemma quiet_ret {A} (a : A) : quiet (ret a).
Proof. intros w. split; [apply frame_refl | reflexivity]. Qed.

Lemma quiet_throw {A} (e : error) : quiet (@throw A e).
Proof. intros w. split; [apply frame_refl | reflexivity]. Qed.

Lemma quiet_gets {A} (f : world -> A) : quiet (gets f).
Proof. intros w. split; [apply frame_refl | reflexivity]. Qed.

Lemma quiet_bind {A B} (m : M A) (k : A -> M B) :
  quiet m -> (forall a, quiet (k a)) -> quiet (m ≫= k).
Proof.
  intros Hm Hk w. specialize (Hm w). unfold exec in *.
  unfold mbind, M_bind, bind. destruct (m w) as [[a|e] w1]; cbn [snd] in *.
  - destruct (Hk a w1) as [Hf Hr]. unfold exec in *.
    split; [eapply frame_trans; [apply Hm | apply Hf] | ].
    rewrite Hr. apply Hm.
  - exact Hm.
Qed.

Lemma quiet_forEach {A} (f : A -> M unit) (l : list A) :
  (forall x, quiet (f x)) -> quiet (forEach f l).
Proof.
  intros Hf. induction l as [|x l IH]; cbn [forEach].
  - apply quiet_ret.
  - apply quiet_bind; [apply Hf | intros _; exact IH].
Qed.

Lemma quiet_then {A B} (p : settled A) (h : A -> M B) :
  (forall a, quiet (h a)) -> quiet (then_ p h).
Proof.
  intros Hh. destruct p as [a|e]; cbn [then_]; [|apply quiet_ret].
  intros w. specialize (Hh a w). unfold exec in *.
  destruct (h a w) as [[b|e] w1]; exact Hh.
Qed.

Lemma quiet_catch {A} (p : settled A) (h : error -> M A) :
  (forall e, quiet (h e)) -> quiet (catch_ p h).
Proof.
  intros Hh. destruct p as [a|e]; cbn [catch_]; [apply quiet_ret|].
  intros w. specialize (Hh e w). unfold exec in *.
  destruct (h e w) as [[b|e'] w1]; exact Hh.
Qed.

Lemma quiet_then_json {A} (p : settled (reply A)) : quiet (then_json p).
Proof.
  destruct p as [[| |d]|e]; cbn [then_json json]; apply quiet_ret.
Qed.

Lemma quiet_read {A} (sel : string) (prop : element -> A) :
  quiet (read sel prop).
Proof.
  unfold read. apply quiet_bind; [apply quiet_gets|]. intros d.
  destruct (d !! sel); [apply quiet_ret | apply quiet_throw].
Qed.

Lemma quiet_update (sel : string) (f : element -> element) :
  quiet (update sel f).
Proof.
  intros w. unfold update, exec. unfold_M.
  destruct (dom w !! sel) as [e|] eqn:He; cbn [snd];
    [|split; [apply frame_refl | reflexivity]].
  split; [|reflexivity]. unfold frame, has. cbn.
  repeat split; try reflexivity.
  - intros Hs. destruct (decide (sel = sel0)) as [<-|Hne].
    + rewrite He. eauto.
    + rewrite lookup_insert_ne in Hs by exact Hne. exact Hs.
  - intros Hs. destruct (decide (sel = sel0)) as [<-|Hne].
    + rewrite lookup_insert_eq. eauto.
    + rewrite lookup_insert_ne by exact Hne. exact Hs.
Qed.

Lemma quiet_console_error (line : string) : quiet (console_error line).
Proof. intros w. split; [|reflexivity]. unfold frame, has. cbn. tauto. Qed.

Lemma quiet_listen (sel ev : string) (cb : callback) :
  quiet (listen sel ev cb).
Proof. intros w. split; [|reflexivity]. unfold frame, has. cbn. tauto. Qed.

Lemma quiet_addEventListener (sel ev : string) (cb : callback) :
  quiet (addEventListener sel ev cb).
Proof.
  unfold addEventListener. apply quiet_bind; [apply quiet_read|].
  intros _. apply quiet_listen.
Qed.

Lemma quiet_layerGroups (f : world -> gmap string (list layer)) :
  quiet (modify (fun w => with_layerGroups (f w) w)).
Proof. intros w. split; [|reflexivity]. unfold frame, has. cbn. tauto. Qed.

Lemma quiet_onMap (f : world -> list string) :
  quiet (modify (fun w => with_onMap (f w) w)).
Proof. intros w. split; [|reflexivity]. unfold frame, has. cbn. tauto. Qed.

Lemma quiet_clearLayers (name : string) : quiet (WorldMap.clearLayers name).
Proof.
  unfold WorldMap.clearLayers. apply quiet_bind; [apply quiet_gets|].
  intros g. destruct (g !! name); [|apply quiet_throw].
  apply (quiet_layerGroups (fun _ => <[name := []]> g)).
Qed.

Lemma quiet_addLayer (name : string) (y : layer) :
  quiet (WorldMap.addLayer name y).
Proof.
  unfold WorldMap.addLayer. apply quiet_bind; [apply quiet_gets|].
  intros g. destruct (g !! name) as [ls|]; [|apply quiet_throw].
  apply quiet_bind;
    [apply (quiet_layerGroups (fun _ => <[name := ls ++ [y]]> g))|].
  intros _. apply quiet_bind; [apply quiet_gets|].
  intros shown. destruct (_ && _); [apply quiet_throw | apply quiet_ret].
Qed.

Lemma quiet_construct (y : layer) : quiet (WorldMap.construct y).
Proof.
  unfold WorldMap.construct.
  destruct (WorldMap.throws_on_construction y);
    [apply quiet_throw | apply quiet_ret].
Qed.

Lemma quiet_forEach_on {A S} (step : S -> A -> M S) (l : list A) (s : S) :
  (forall s x, quiet (step s x)) -> quiet (WorldMap.forEach_on step l s).
Proof.
  intros Hstep. revert s.
  induction l as [|x l IH]; intros s; cbn [WorldMap.forEach_on];
    [apply quiet_ret|].
  apply quiet_bind; [apply Hstep | exact IH].
Qed.

Lemma quiet_getLayers (name : string) : quiet (WorldMap.getLayers name).
Proof.
  unfold WorldMap.getLayers. apply quiet_bind; [apply quiet_gets|].
  intros g. destruct (g !! name); [apply quiet_ret | apply quiet_throw].
Qed.

Lemma quiet_array_of {A} (data : payload A) : quiet (WorldMap.array_of data).
Proof. destruct data; [apply quiet_throw .. | apply quiet_ret]. Qed.

Lemma quiet_length_of {A} (data : payload A) : quiet (Dashboard.length_of data).
Proof. destruct data; [apply quiet_throw | apply quiet_ret ..]. Qed.

End Frame.

Create HintDb quiet.

#[local] Hint Resolve quiet_ret quiet_throw quiet_gets quiet_read quiet_update
  quiet_console_error quiet_listen quiet_addEventListener quiet_clearLayers
  quiet_addLayer quiet_construct
  quiet_getLayers quiet_array_of quiet_length_of quiet_then_json
  quiet_layerGroups quiet_onMap : quiet.

(** Proves [quiet] for code assembled from the operations above. *)
Ltac quiet :=
  repeat first
    [ progress intros
    | solve [auto with quiet]
    | simple apply quiet_bind
    | simple apply quiet_forEach
    | simple apply quiet_forEach_on
    | simple apply quiet_then
    | simple apply quiet_catch
    | match goal with
      | |- quiet (match ?x with _ => _ end) => destruct x
      | |- quiet (let '(_, _) := ?x in _) => destruct x
      end ].

Section Loaders.
Context `{Platform}.

Lemma quiet_updateEarthquakes data : quiet (WorldMap.updateEarthquakes data).
Proof. unfold WorldMap.updateEarthquakes. quiet. Qed.

Lemma quiet_updateConflictZones data :
  quiet (WorldMap.updateConflictZones data).
Proof. unfold WorldMap.updateConflictZones. quiet. Qed.

Lemma quiet_updateHotspots data : quiet (WorldMap.updateHotspots data).
Proof. unfold WorldMap.updateHotspots. quiet. Qed.

Lemma quiet_set_textContent_value sel v :
  quiet (Dashboard.set_textContent_value sel v).
Proof.
  unfold Dashboard.set_textContent_value, set_textContent. quiet.
Qed.

#[local] Hint Resolve quiet_set_textContent_value : quiet.

Lemma quiet_renderNews items : quiet (Dashboard.renderNews items).
Proof. unfold Dashboard.renderNews, set_innerHTML. quiet. Qed.

Lemma quiet_renderGdelt items : quiet (Dashboard.renderGdelt items).
Proof. unfold Dashboard.renderGdelt, set_innerHTML. quiet. Qed.

Lemma quiet_onNews data : quiet (Dashboard.onNews data).
Proof.
  unfold Dashboard.onNews. apply quiet_bind; [apply quiet_renderNews|].
  intros _. destruct data; try apply quiet_throw.
  unfold Dashboard.renderAlerts, Dashboard.renderTicker,
    Dashboard.updateSourceFilter, set_innerHTML.
  quiet.
Qed.

Lemma quiet_updateStatus text : quiet (Dashboard.updateStatus text).
Proof. unfold Dashboard.updateStatus, set_textContent. quiet. Qed.

Lemma quiet_class_update sel f : quiet (Dashboard.class_update sel f).
Proof. unfold Dashboard.class_update. quiet. Qed.

(** [fetch] logs the request and nothing else. *)
Lemma fetch_run {A} (url : string) (r : network -> reply A) (w : world) :
  fetch url r w
  = (Ok match r (net w) with
        | NetFail => Rejected NetworkError
        | rp => Fulfilled rp
        end,
     with_requests (requests w ++ [url]) w).
Proof.
  unfold fetch. unfold_M. destruct (r (net w)); reflexivity.
Qed.

Lemma frame_with_requests (l : list string) (w : world) :
  frame w (with_requests l w).
Proof. unfold frame, has. cbn. tauto. Qed.

(** The chain [fetch(url).then(r => r.json()).then(h).catch(c)] of the
    loaders: one request; the promise it returns is settled, and it is
    fulfilled whenever [c] cannot throw. *)
Lemma fetch_chain {A} (url : string) (r : network -> reply A)
    (h : payload A -> M unit) (c : error -> M unit) (w : world) :
  (forall d, quiet (h d)) ->
  (forall e, quiet (c e)) ->
  exists p w',
    (p ← fetch url r; d ← then_json p; s ← then_ d h; catch_ s c) w
    = (Ok p, w')
    /\ frame w w'
    /\ requests w' = requests w ++ [url]
    /\ ((forall e w1, frame w w1 -> eval (c e) w1 = Ok tt) ->
        p = Fulfilled tt).
Proof.
  intros Hh Hc. unfold mbind, M_bind, bind. rewrite fetch_run.
  set (w0 := with_requests (requests w ++ [url]) w).
  assert (Hf0 : frame w w0) by apply frame_with_requests.
  assert (Hr0 : requests w0 = requests w ++ [url]) by reflexivity.
  assert (Hcatch : forall e w1,
    frame w w1 -> requests w1 = requests w ++ [url] ->
    exists p w',
      catch_ (Rejected e) c w1 = (Ok p, w')
      /\ frame w w' /\ requests w' = requests w ++ [url]
      /\ ((forall e w1, frame w w1 -> eval (c e) w1 = Ok tt) ->
          p = Fulfilled tt)).
  { intros e w1 Hf1 Hr1. cbn [catch_].
    destruct (Hc e w1) as [Hf Hr]. unfold exec in *.
    assert (Hev := fun Hsafe : forall e w1, frame w w1 -> eval (c e) w1 = Ok tt
                   => Hsafe e w1 Hf1).
    unfold eval in Hev.
    destruct (c e w1) as [[[]|e'] w2]; cbn [fst snd] in *;
      eexists _, _; (split; [reflexivity|]);
      (split; [exact (frame_trans _ _ _ Hf1 Hf)|]);
      (split; [congruence|]); intros Hsafe;
      [reflexivity | specialize (Hev Hsafe); discriminate]. }
  destruct (r (net w)) as [| |d]; cbn [then_json json then_ ret].
  - apply Hcatch; assumption.
  - apply Hcatch; assumption.
  - destruct (Hh d w0) as [Hf Hr]. unfold exec in *.
    destruct (h d w0) as [[[]|e] w1]; cbn [snd] in *.
    + cbn [catch_ ret]. eexists _, _. split; [reflexivity|].
      split; [exact (frame_trans _ _ _ Hf0 Hf)|].
      split; [congruence|]. reflexivity.
    + apply Hcatch; [exact (frame_trans _ _ _ Hf0 Hf) | congruence].
Qed.

Lemma read_run {A} (sel : string) (prop : element -> A) (w : world)
    (e : element) :
  dom w !! sel = Some e -> read sel prop w = (Ok (prop e), w).
Proof. intros He. unfold read. unfold_M. rewrite He. reflexivity. Qed.

Lemma update_run (sel : string) (f : element -> element) (w : world)
    (e : element) :
  dom w !! sel = Some e ->
  update sel f w = (Ok tt, with_dom (<[sel := f e]> (dom w)) w).
Proof. intros He. unfold update. unfold_M. rewrite He. reflexivity. Qed.

Lemma update_ok (sel : string) (f : element -> element) (w : world) :
  has sel w -> eval (update sel f) w = Ok tt.
Proof. intros [e He]. unfold eval. rewrite (update_run _ _ _ e He). reflexivity. Qed.

(** The [catch] handler of [loadNews] cannot throw when the news panel
    exists. *)
Lemma news_catch_ok (w : world) :
  has "news-list" w ->
  eval (console_error "News fetch failed:" ;;
        set_innerHTML "news-list" (Html.loading "Failed to load news")) w
  = Ok tt.
Proof.
  intros Hs. unfold eval, mbind, M_bind, bind, console_error, modify.
  apply (update_ok "news-list"). exact Hs.
Qed.

Lemma gdelt_catch_ok (w : world) :
  has "gdelt-list" w ->
  eval (console_error "GDELT fetch failed:" ;;
        set_innerHTML "gdelt-list" (Html.loading "Failed to load GDELT data")) w
  = Ok tt.
Proof.
  intros Hs. unfold eval, mbind, M_bind, bind, console_error, modify.
  apply (update_ok "gdelt-list"). exact Hs.
Qed.

(** Applies [fetch_chain] to the chain in the goal. *)
Ltac fetch_chain_here p w' Hrun Hf Hr Hp :=
  lazymatch goal with
  | |- context [ (fetch ?url ?r ≫= (fun p0 => then_json p0 ≫=
                   (fun d => then_ d ?h ≫= (fun s => catch_ s ?c)))) ?w ] =>
      let Hh := fresh "Hh" in
      let Hc := fresh "Hc" in
      assert (Hh : forall d, quiet (h d));
      [ | assert (Hc : forall e, quiet (c e));
          [ | destruct (fetch_chain url r h c w Hh Hc)
                as (p & w' & Hrun & Hf & Hr & Hp) ] ]
  end.

(** [loadNews]: one request to the news endpoint, and a promise that is
    fulfilled when the news panel exists. *)
Lemma loadNews_run (w : world) :
  has "news-source-filter" w ->
  exists p w',
    Dashboard.loadNews w = (Ok p, w')
    /\ frame w w'
    /\ requests w'
       = requests w ++ [Dashboard.news_url (current_source w) (alertsOnly w)]
    /\ (has "news-list" w -> p = Fulfilled tt).
Proof.
  intros [e He]. unfold Dashboard.loadNews.
  unfold mbind at 1, M_bind at 1, bind at 1. rewrite (read_run _ _ _ e He).
  unfold mbind at 1, M_bind at 1, bind at 1. cbn [gets].
  unfold current_source. rewrite He. cbn [fmap option_fmap option_map default].
  set (url := Dashboard.news_url (el_value e) (alertsOnly w)).
  assert (Hc : forall err : error,
    quiet (console_error "News fetch failed:" ;;
           set_innerHTML "news-list" (Html.loading "Failed to load news"))).
  { intros _. unfold set_innerHTML. quiet. }
  destruct (fetch_chain url (fun n => net_news n url) Dashboard.onNews _ w
              quiet_onNews Hc)
    as (p & w' & Hrun & Hf & Hr & Hp).
  exists p, w'. split; [exact Hrun|]. split; [exact Hf|].
  split; [exact Hr|]. intros Hs. apply Hp. intros _ w1 Hf1.
  apply news_catch_ok. eapply frame_has; eassumption.
Qed.

Lemma console_only_ok (line : string) (w : world) :
  eval (console_error line) w = Ok tt.
Proof. reflexivity. Qed.

Lemma loadEarthquakes_run (w : world) :
  exists w',
    Dashboard.loadEarthquakes w = (Ok (Fulfilled tt), w')
    /\ frame w w' /\ requests w' = requests w ++ ["/api/earthquakes"].
Proof.
  unfold Dashboard.loadEarthquakes.
  fetch_chain_here p w' Hrun Hf Hr Hp.
  - intros d. apply quiet_bind; [apply quiet_updateEarthquakes|]. quiet.
  - quiet.
  - exists w'. rewrite Hrun, Hp; [auto|intros; apply console_only_ok].
Qed.

Lemma loadConflictZones_run (w : world) :
  exists w',
    Dashboard.loadConflictZones w = (Ok (Fulfilled tt), w')
    /\ frame w w'
    /\ requests w' = requests w ++ ["/api/layers/conflict-zones"].
Proof.
  unfold Dashboard.loadConflictZones.
  fetch_chain_here p w' Hrun Hf Hr Hp.
  - apply quiet_updateConflictZones.
  - quiet.
  - exists w'. rewrite Hrun, Hp; [auto|intros; apply console_only_ok].
Qed.

Lemma loadHotspots_run (w : world) :
  exists w',
    Dashboard.loadHotspots w = (Ok (Fulfilled tt), w')
    /\ frame w w' /\ requests w' = requests w ++ ["/api/layers/hotspots"].
Proof.
  unfold Dashboard.loadHotspots.
  fetch_chain_here p w' Hrun Hf Hr Hp.
  - apply quiet_updateHotspots.
  - quiet.
  - exists w'. rewrite Hrun, Hp; [auto|intros; apply console_only_ok].
Qed.

(** [loadGdelt]: one request, and a promise that is fulfilled when the
    GDELT panel exists. *)
Lemma loadGdelt_run (w : world) :
  exists p w',
    Dashboard.loadGdelt w = (Ok p, w')
    /\ frame w w' /\ requests w' = requests w ++ ["/api/gdelt"]
    /\ (has "gdelt-list" w -> p = Fulfilled tt).
Proof.
  unfold Dashboard.loadGdelt.
  fetch_chain_here p w' Hrun Hf Hr Hp.
  - apply quiet_renderGdelt.
  - intros _. unfold set_innerHTML. quiet.
  - exists p, w'. rewrite Hrun. split; [reflexivity|].
    split; [exact Hf|]. split; [exact Hr|].
    intros Hs. apply Hp. intros _ w1 Hf1. apply gdelt_catch_ok.
    eapply frame_has; eassumption.
Qed.

Lemma stat_count_run {A} (url : string) (r : network -> reply A)
    (sel : string) (w : world) :
  exists w',
    Dashboard.stat_count url r sel w = (Ok (Fulfilled tt), w')
    /\ frame w w' /\ requests w' = requests w ++ [url].
Proof.
  unfold Dashboard.stat_count.
  fetch_chain_here p w' Hrun Hf Hr Hp.
  - quiet.
  - quiet.
  - exists w'. rewrite Hrun, Hp; [auto|reflexivity].
Qed.

Lemma loadStats_run (w : world) :
  exists w',
    Dashboard.loadStats w = (Ok (Fulfilled tt), w')
    /\ frame w w'
    /\ requests w' = requests w ++ ["/api/conflicts"; "/api/disasters"].
Proof.
  unfold Dashboard.loadStats, mbind, M_bind, bind.
  destruct (stat_count_run "/api/conflicts" net_conflicts "stat-conflicts" w)
    as (w1 & -> & Hf1 & Hr1).
  destruct (stat_count_run "/api/disasters" net_disasters "stat-disasters" w1)
    as (w2 & -> & Hf2 & Hr2).
  exists w2. split; [reflexivity|].
  split; [exact (frame_trans _ _ _ Hf1 Hf2)|].
  rewrite Hr2, Hr1, <- app_assoc. reflexivity.
Qed.

(** The end of [loadAllData]: the status line is written, and a failure
    to write it is swallowed. *)
Lemma settle_status (p : settled unit) (w : world) :
  exists w',
    (r ← then_ p (fun _ =>
           Dashboard.updateStatus "Live" ;;
           Dashboard.class_update ".dot" (Dashboard.add_class "connected"));
     _ ← catch_ r (fun _ => Dashboard.updateStatus "Error");
     ret tt) w = (Ok tt, w')
    /\ frame w w' /\ requests w' = requests w.
Proof.
  set (h := fun _ : unit =>
              Dashboard.updateStatus "Live" ;;
              Dashboard.class_update ".dot" (Dashboard.add_class "connected")).
  set (c := fun _ : error => Dashboard.updateStatus "Error").
  assert (Hh : quiet (then_ p h)).
  { apply quiet_then. intros u. unfold h. apply quiet_bind;
      [apply quiet_updateStatus | intros _; apply quiet_class_update]. }
  assert (Hc : forall r, quiet (catch_ r c)).
  { intros r. apply quiet_catch. intros e. unfold c.
    apply quiet_updateStatus. }
  unfold mbind, M_bind, bind.
  destruct (Hh w) as [Hf1 Hr1]. unfold exec in *.
  assert (exists r w1, then_ p h w = (Ok r, w1)) as (r & w1 & Hrun1).
  { destruct p as [[]|e]; cbn [then_]; [|eexists _, _; reflexivity].
    destruct (h tt w) as [[[]|e] w1]; eexists _, _; reflexivity. }
  rewrite Hrun1 in *. cbn [snd] in *.
  destruct (Hc r w1) as [Hf2 Hr2]. unfold exec in *.
  assert (exists s w2, catch_ r c w1 = (Ok s, w2)) as (s & w2 & Hrun2).
  { destruct r as [[]|e]; cbn [catch_]; [eexists _, _; reflexivity|].
    destruct (c e w1) as [[[]|e'] w2]; eexists _, _; reflexivity. }
  rewrite Hrun2 in *. cbn [snd ret] in *.
  exists w2. split; [reflexivity|].
  split; [exact (frame_trans _ _ _ Hf1 Hf2) | congruence].
Qed.

(** [loadAllData] issues its seven requests, in order, whatever the
    network answers, and returns. *)
Lemma loadAllData_run (w : world) :
  refresh_ready w ->
  exists w',
    Dashboard.loadAllData w = (Ok tt, w')
    /\ frame w w'
    /\ requests w' = requests w ++ refresh_urls w.
Proof.
  intros [[es Hes] [ef Hef]].
  unfold Dashboard.loadAllData.
  unfold mbind at 1, M_bind at 1, bind at 1.
  unfold Dashboard.updateStatus at 1, set_textContent.
  rewrite (update_run _ _ _ es Hes).
  set (w0 := with_dom _ w).
  assert (Hf0 : frame w w0).
  { pose proof (quiet_update "status-text" (set_textContent_of "Refreshing...") w)
      as [Hf _].
    unfold exec in Hf. rewrite (update_run _ _ _ es Hes) in Hf. exact Hf. }
  assert (Hsrc : dom w0 !! "news-source-filter" = Some ef).
  { unfold w0. cbn [dom with_dom]. rewrite lookup_insert_ne by discriminate.
    exact Hef. }
  destruct (loadNews_run w0) as (p1 & w1 & Hrun1 & Hf1 & Hr1 & _);
    [eexists; exact Hsrc|].
  unfold mbind at 1, M_bind at 1, bind at 1. rewrite Hrun1.
  destruct (loadEarthquakes_run w1) as (w2 & Hrun2 & Hf2 & Hr2).
  unfold mbind at 1, M_bind at 1, bind at 1. rewrite Hrun2.
  destruct (loadConflictZones_run w2) as (w3 & Hrun3 & Hf3 & Hr3).
  unfold mbind at 1, M_bind at 1, bind at 1. rewrite Hrun3.
  destruct (loadHotspots_run w3) as (w4 & Hrun4 & Hf4 & Hr4).
  unfold mbind at 1, M_bind at 1, bind at 1. rewrite Hrun4.
  destruct (loadGdelt_run w4) as (p5 & w5 & Hrun5 & Hf5 & Hr5 & _).
  unfold mbind at 1, M_bind at 1, bind at 1. rewrite Hrun5.
  destruct (loadStats_run w5) as (w6 & Hrun6 & Hf6 & Hr6).
  unfold mbind at 1, M_bind at 1, bind at 1. rewrite Hrun6.
  destruct (settle_status
              (Promise_all [p1; Fulfilled tt; Fulfilled tt; Fulfilled tt; p5;
                            Fulfilled tt]) w6) as (w7 & Hrun7 & Hf7 & Hr7).
  rewrite Hrun7. exists w7. split; [reflexivity|]. split.
  - apply (frame_trans _ _ _ Hf0), (frame_trans _ _ _ Hf1),
      (frame_trans _ _ _ Hf2), (frame_trans _ _ _ Hf3),
      (frame_trans _ _ _ Hf4), (frame_trans _ _ _ Hf5),
      (frame_trans _ _ _ Hf6), Hf7.
  - rewrite Hr7, Hr6, Hr5, Hr4, Hr3, Hr2, Hr1.
    unfold refresh_urls, current_source. rewrite Hsrc, Hef.
    rewrite <- !app_assoc. reflexivity.
Qed.

(** ** [init] *)

Lemma step_ok {A} (m : M A) (a : A) (w : world) :
  eval m w = Ok a -> m w = (Ok a, exec m w).
Proof. intros He. rewrite (run_eq m w), He. reflexivity. Qed.

Lemma forEach_ok {A} (f : A -> M unit) (l : list A) (w : world) :
  (forall x, quiet (f x)) ->
  (forall x w', In x l -> frame w w' -> eval (f x) w' = Ok tt) ->
  eval (forEach f l) w = Ok tt.
Proof.
  intros Hq. revert w. induction l as [|x l IH]; intros w Hok; [reflexivity|].
  cbn [forEach]. unfold eval, mbind, M_bind, bind.
  rewrite (step_ok (f x) tt w) by (apply Hok; [left; reflexivity | apply frame_refl]).
  apply IH. intros y w' Hy Hf. apply Hok; [right; exact Hy|].
  eapply frame_trans; [apply Hq | exact Hf].
Qed.

Lemma addEventListener_ok (sel ev : string) (cb : callback) (w : world) :
  has sel w -> eval (addEventListener sel ev cb) w = Ok tt.
Proof.
  intros [e He]. unfold addEventListener, eval, mbind, M_bind, bind.
  rewrite (read_run _ _ _ e He). reflexivity.
Qed.

Lemma quiet_setupLayerToggles : quiet WorldMap.setupLayerToggles.
Proof. unfold WorldMap.setupLayerToggles. quiet. Qed.

Lemma setupLayerToggles_ok (w : world) :
  eval WorldMap.setupLayerToggles w = Ok tt.
Proof.
  unfold WorldMap.setupLayerToggles. apply forEach_ok.
  - quiet.
  - intros [checkboxId layerName] w' _ _.
    unfold eval, mbind, M_bind, bind. cbn [gets].
    destruct (dom w' !! checkboxId) as [e|] eqn:He; reflexivity.
Qed.

Lemma quiet_addTo_map (name : string) : quiet (WorldMap.addTo_map name).
Proof.
  unfold WorldMap.addTo_map. apply quiet_bind; [apply quiet_getLayers|].
  intros ls. apply quiet_bind; [apply quiet_gets|].
  intros shown. destruct (bool_decide (name ∈ shown)); [apply quiet_ret|].
  apply quiet_bind; [apply (quiet_onMap (fun _ => shown ++ [name]))|].
  intros _. destruct (existsb WorldMap.unplaceable ls);
    [apply quiet_throw | apply quiet_ret].
Qed.

Lemma addTo_map_ok (name : string) (w : world) :
  layerGroups w !! name = Some [] -> eval (WorldMap.addTo_map name) w = Ok tt.
Proof.
  intros Hg. unfold WorldMap.addTo_map, WorldMap.getLayers. unfold_M.
  rewrite Hg. destruct (bool_decide (name ∈ onMap w)); reflexivity.
Qed.

Lemma quiet_WorldMap_init : quiet WorldMap.init.
Proof.
  unfold WorldMap.init.
  simple apply quiet_bind; [|intros _].
  { simple apply quiet_forEach. intros name.
    apply (quiet_layerGroups (fun w => <[name := []]> (layerGroups w))). }
  do 3 (simple apply quiet_bind; [apply quiet_addTo_map | intros _]).
  apply quiet_setupLayerToggles.
Qed.

Lemma create_groups_run (l : list string) (w : world) :
  exists w',
    forEach (fun name =>
      modify (fun w => with_layerGroups (<[name := []]> (layerGroups w)) w))
      l w = (Ok tt, w')
    /\ forall name,
         In name l \/ layerGroups w !! name = Some [] ->
         layerGroups w' !! name = Some [].
Proof.
  revert w. induction l as [|a l IH]; intros w.
  - exists w. split; [reflexivity|]. intros name [[]|Hn]. exact Hn.
  - cbn [forEach]. unfold mbind, M_bind, bind, modify.
    destruct (IH (with_layerGroups (<[a := []]> (layerGroups w)) w))
      as (w' & Hrun & Hg).
    exists w'. split; [exact Hrun|]. intros name Hname. apply Hg.
    cbn [layerGroups with_layerGroups].
    destruct (decide (a = name)) as [<-|Hne]; [right; apply lookup_insert_eq|].
    destruct Hname as [[Heq|Hin]|Hl];
      [contradiction | left; exact Hin
      | right; rewrite lookup_insert_ne by exact Hne; exact Hl].
Qed.

Lemma addTo_map_empty (name : string) (w : world) :
  layerGroups w !! name = Some [] ->
  exists w',
    WorldMap.addTo_map name w = (Ok tt, w') /\ layerGroups w' = layerGroups w.
Proof.
  intros Hg. unfold WorldMap.addTo_map, WorldMap.getLayers. unfold_M.
  rewrite Hg. destruct (bool_decide (name ∈ onMap w));
    eexists; split; reflexivity.
Qed.

Lemma setupLayerToggles_groups (w : world) :
  layerGroups (exec WorldMap.setupLayerToggles w) = layerGroups w.
Proof.
  revert w. unfold WorldMap.setupLayerToggles.
  generalize WorldMap.toggle_mapping. intros l.
  induction l as [|[c n] l IH]; intros w; [reflexivity|].
  cbn [forEach]. unfold exec, mbind, M_bind, bind. cbn [gets].
  destruct (dom w !! c) as [e|] eqn:He.
  - cbn [listen modify]. apply (IH (with_listeners _ w)).
  - cbn [ret]. apply IH.
Qed.

(** [WorldMap.init] creates its nine groups and cannot throw. *)
Lemma WorldMap_init_run (w : world) :
  exists w',
    WorldMap.init w = (Ok tt, w')
    /\ forall name, In name WorldMap.layerNames ->
         layerGroups w' !! name = Some [].
Proof.
  unfold WorldMap.init.
  destruct (create_groups_run WorldMap.layerNames w) as (w0 & Hrun0 & Hg0).
  unfold mbind at 1, M_bind at 1, bind at 1. rewrite Hrun0.
  assert (Hin : forall name, In name ["earthquakes"; "conflicts"; "hotspots"] ->
                  In name WorldMap.layerNames).
  { unfold WorldMap.layerNames. cbn [In]. intuition. }
  destruct (addTo_map_empty "earthquakes" w0) as (w1 & Hrun1 & Hg1).
  { apply Hg0. left. apply Hin. cbn [In]. tauto. }
  unfold mbind at 1, M_bind at 1, bind at 1. rewrite Hrun1.
  destruct (addTo_map_empty "conflicts" w1) as (w2 & Hrun2 & Hg2).
  { rewrite Hg1. apply Hg0. left. apply Hin. cbn [In]. tauto. }
  unfold mbind at 1, M_bind at 1, bind at 1. rewrite Hrun2.
  destruct (addTo_map_empty "hotspots" w2) as (w3 & Hrun3 & Hg3).
  { rewrite Hg2, Hg1. apply Hg0. left. apply Hin. cbn [In]. tauto. }
  unfold mbind, M_bind, bind. rewrite Hrun3.
  rewrite (step_ok _ _ _ (setupLayerToggles_ok w3)).
  eexists. split; [reflexivity|]. intros name Hname.
  rewrite setupLayerToggles_groups, Hg3, Hg2, Hg1. apply Hg0. left. exact Hname.
Qed.

Lemma WorldMap_init_ok (w : world) : eval WorldMap.init w = Ok tt.
Proof.
  destruct (WorldMap_init_run w) as (w' & Hrun & _).
  unfold eval. rewrite Hrun. reflexivity.
Qed.

(** A quiet computation that does not throw. *)
Lemma quiet_run {A} (m : M A) (a : A) (w : world) :
  quiet m -> eval m w = Ok a ->
  exists w', m w = (Ok a, w') /\ frame w w' /\ requests w' = requests w.
Proof.
  intros Hq Hok. exists (exec m w). split; [apply step_ok, Hok | apply Hq].
Qed.

Lemma clock_update_ok (w : world) :
  has "clock" w -> eval Dashboard.clock_update w = Ok tt.
Proof.
  intros Hs. unfold Dashboard.clock_update, eval.
  rewrite (bind_run _ _ w w (now w)) by reflexivity.
  apply (update_ok "clock"). exact Hs.
Qed.

Lemma quiet_clock_update : quiet Dashboard.clock_update.
Proof. unfold Dashboard.clock_update, set_textContent. quiet. Qed.

Lemma setupTabs_ok (w : world) : eval Dashboard.setupTabs w = Ok tt.
Proof.
  unfold Dashboard.setupTabs, eval.
  rewrite (bind_run _ _ w w (tabs w)) by reflexivity.
  apply forEach_ok; [quiet|]. reflexivity.
Qed.

Lemma quiet_setupTabs : quiet Dashboard.setupTabs.
Proof. unfold Dashboard.setupTabs. quiet. Qed.

Lemma quiet_setupButtons : quiet Dashboard.setupButtons.
Proof. unfold Dashboard.setupButtons. quiet. Qed.

Lemma setupButtons_ok (w : world) :
  has "btn-refresh" w -> has "btn-alerts" w -> has "btn-layers" w ->
  has "news-source-filter" w ->
  eval Dashboard.setupButtons w = Ok tt.
Proof.
  intros Hb1 Hb2 Hb3 Hb4. unfold Dashboard.setupButtons, eval.
  destruct (quiet_run _ tt w
              (quiet_addEventListener "btn-refresh" "click" CbRefreshClick)
              (addEventListener_ok _ _ _ _ Hb1)) as (w1 & Hrun1 & Hf1 & _).
  rewrite (bind_run _ _ _ _ _ Hrun1).
  destruct (quiet_run _ tt w1
              (quiet_addEventListener "btn-alerts" "click" CbAlertsClick)
              (addEventListener_ok _ _ _ _ (frame_has _ _ _ Hf1 Hb2)))
    as (w2 & Hrun2 & Hf2 & _).
  rewrite (bind_run _ _ _ _ _ Hrun2).
  pose proof (frame_trans _ _ _ Hf1 Hf2) as Hf12.
  destruct (quiet_run _ tt w2
              (quiet_addEventListener "btn-layers" "click" CbLayersClick)
              (addEventListener_ok _ _ _ _ (frame_has _ _ _ Hf12 Hb3)))
    as (w3 & Hrun3 & Hf3 & _).
  rewrite (bind_run _ _ _ _ _ Hrun3).
  apply addEventListener_ok.
  exact (frame_has _ _ _ (frame_trans _ _ _ Hf12 Hf3) Hb4).
Qed.




(** ** The panels *)

Lemma set_innerHTML_run (sel : string) (h : list Html.node) (w : world)
    (e : element) :
  dom w !! sel = Some e ->
  set_innerHTML sel h w
  = (Ok tt, with_dom (<[sel := set_innerHTML_of h e]> (dom w)) w).
Proof. apply update_run. Qed.

Lemma renderNews_run (l : list NewsItem) (w : world) (e : element) :
  dom w !! "news-list" = Some e ->
  Dashboard.renderNews (PArray l) w
  = (Ok tt,
     with_dom (<["news-list" := set_innerHTML_of (news_markup (now w) l) e]>
                 (dom w)) w).
Proof.
  intros He. unfold Dashboard.renderNews, news_markup.
  destruct (length l =? 0)%nat.
  - apply set_innerHTML_run, He.
  - rewrite (bind_run _ _ w w (now w)) by reflexivity.
    apply set_innerHTML_run, He.
Qed.

Lemma renderAlerts_run (l : list NewsItem) (w : world) (e : element) :
  dom w !! "alerts-list" = Some e ->
  Dashboard.renderAlerts l w
  = (Ok tt,
     with_dom (<["alerts-list" := set_innerHTML_of (alerts_markup (now w) l) e]>
                 (dom w)) w).
Proof.
  intros He. unfold Dashboard.renderAlerts, alerts_markup.
  destruct (length l =? 0)%nat.
  - apply set_innerHTML_run, He.
  - rewrite (bind_run _ _ w w (now w)) by reflexivity.
    apply set_innerHTML_run, He.
Qed.

Lemma renderGdelt_run (l : list GdeltEvent) (w : world) (e : element) :
  dom w !! "gdelt-list" = Some e ->
  Dashboard.renderGdelt (PArray l) w
  = (Ok tt,
     with_dom (<["gdelt-list" := set_innerHTML_of (gdelt_markup l) e]> (dom w))
       w).
Proof.
  intros He. unfold Dashboard.renderGdelt, gdelt_markup.
  destruct (length l =? 0)%nat; apply set_innerHTML_run, He.
Qed.

Lemma updateSourceFilter_run (l : list NewsItem) (w : world) (e : element) :
  dom w !! "news-source-filter" = Some e ->
  exists e', Dashboard.updateSourceFilter l w
             = (Ok tt, with_dom (<["news-source-filter" := e']> (dom w)) w).
Proof.
  intros He. unfold Dashboard.updateSourceFilter.
  rewrite (bind_run _ _ w w (el_value e)) by (apply read_run; exact He).
  eexists. apply update_run. exact He.
Qed.

(** The markup of a panel after a write to the DOM. *)
Lemma markup_written (sel : string) (h : list Html.node) (e : element)
    (d : gmap string element) (w : world) :
  markup_of sel (with_dom (<[sel := set_innerHTML_of h e]> d) w) = Some h.
Proof.
  unfold markup_of. cbn [dom with_dom]. rewrite lookup_insert_eq. reflexivity.
Qed.

Lemma markup_kept (sel sel' : string) (e : element)
    (d : gmap string element) (w : world) :
  sel <> sel' ->
  markup_of sel' (with_dom (<[sel := e]> d) w) = innerHTML <$> d !! sel'.
Proof.
  intros Hne. unfold markup_of. cbn [dom with_dom].
  rewrite lookup_insert_ne by exact Hne. reflexivity.
Qed.

(** The [then] handler of [loadNews] on an array, when the five elements
    it writes exist: each panel is written once. *)
Lemma onNews_run (l : list NewsItem) (w : world) :
  news_panels w ->
  exists w',
    Dashboard.onNews (PArray l) w = (Ok tt, w')
    /\ markup_of "news-list" w' = Some (news_markup (now w) l)
    /\ markup_of "alerts-list" w'
       = Some (alerts_markup (now w) (List.filter is_alert l))
    /\ markup_of "ticker-content" w'
       = Some (flat_map Dashboard.tickerHtml (Dashboard.tickerItems l)).
Proof.
  intros ([ef Hef] & [en Hen] & [ea Hea] & [et Het] & [es Hes]).
  unfold Dashboard.onNews.
  rewrite (bind_run _ _ _ _ _ (renderNews_run l w en Hen)).
  set (d1 := <["news-list" := _]> (dom w)).
  assert (Hea1 : d1 !! "alerts-list" = Some ea).
  { unfold d1. rewrite lookup_insert_ne by discriminate. exact Hea. }
  rewrite (bind_run _ _ _ _ _
             (renderAlerts_run (List.filter is_alert l) (with_dom d1 w) ea Hea1)).
  cbn [now with_dom dom].
  set (d2 := <["alerts-list" := _]> d1).
  assert (Het2 : d2 !! "ticker-content" = Some et).
  { unfold d2, d1. rewrite !lookup_insert_ne by discriminate. exact Het. }
  unfold Dashboard.renderTicker.
  rewrite (bind_run _ _ _ _ _
             (set_innerHTML_run "ticker-content" _ (with_dom d2 _) et Het2)).
  cbn [with_dom dom].
  set (d3 := <["ticker-content" := _]> d2).
  assert (Hef3 : d3 !! "news-source-filter" = Some ef).
  { unfold d3, d2, d1. rewrite !lookup_insert_ne by discriminate. exact Hef. }
  set (w3 := with_dom d3 _).
  destruct (updateSourceFilter_run l w3 ef Hef3) as (ef' & Hrun4).
  rewrite (bind_run _ _ _ _ _ Hrun4).
  change (dom w3) with d3.
  set (d4 := <["news-source-filter" := ef']> d3).
  rewrite (bind_run _ _ _ _ (Js.Num (inject_Z (Z.of_nat (length l)))))
    by reflexivity.
  assert (Hes4 : d4 !! "stat-news" = Some es).
  { unfold d4, d3, d2, d1. rewrite !lookup_insert_ne by discriminate.
    exact Hes. }
  unfold Dashboard.set_textContent_value, set_textContent.
  rewrite (update_run "stat-news" _ (with_dom d4 w3) es Hes4).
  eexists. split; [reflexivity|].
  unfold markup_of. cbn [dom with_dom]. unfold d4, d3, d2, d1.
  repeat split.
  - rewrite !lookup_insert_ne by discriminate. rewrite lookup_insert_eq.
    reflexivity.
  - rewrite !lookup_insert_ne by discriminate. rewrite lookup_insert_eq.
    reflexivity.
  - rewrite !lookup_insert_ne by discriminate. rewrite lookup_insert_eq.
    reflexivity.
Qed.

Lemma current_source_eq (w : world) (e : element) :
  dom w !! "news-source-filter" = Some e -> current_source w = el_value e.
Proof. intros He. unfold current_source. rewrite He. reflexivity. Qed.

(** [loadNews] when the network answers the news request with an
    array. *)
Lemma loadNews_array (l : list NewsItem) (w : world) :
  news_panels w ->
  net_news (net w) (Dashboard.news_url (current_source w) (alertsOnly w))
  = Json (PArray l) ->
  exists w',
    Dashboard.loadNews w = (Ok (Fulfilled tt), w')
    /\ markup_of "news-list" w' = Some (news_markup (now w) l)
    /\ markup_of "alerts-list" w'
       = Some (alerts_markup (now w) (List.filter is_alert l))
    /\ markup_of "ticker-content" w'
       = Some (flat_map Dashboard.tickerHtml (Dashboard.tickerItems l)).
Proof.
  intros Hpanels. pose proof Hpanels as ([ef Hef] & _).
  rewrite (current_source_eq w ef Hef). intros Hnet.
  unfold Dashboard.loadNews.
  rewrite (bind_run _ _ w w (el_value ef)) by (apply read_run; exact Hef).
  rewrite (bind_run _ _ w w (alertsOnly w)) by reflexivity.
  set (url := Dashboard.news_url (el_value ef) (alertsOnly w)) in *.
  rewrite (bind_run _ _ _ _ _ (fetch_run url (fun n => net_news n url) w)).
  rewrite Hnet.
  set (w0 := with_requests (requests w ++ [url]) w).
  rewrite (bind_run _ _ w0 w0 (Fulfilled (PArray l))) by reflexivity.
  destruct (onNews_run l w0 Hpanels) as (w' & Hrun & Hm).
  exists w'. split; [|exact Hm].
  rewrite (bind_run _ _ w0 w' (Fulfilled tt)); [reflexivity|].
  cbn [then_]. rewrite Hrun. reflexivity.
Qed.

(** [loadNews] when the request fails or the body is not JSON: the
    [catch] handler writes the placeholder, and only the news panel
    changes. *)
Lemma loadNews_failed (w : world) (e : element) :
  has "news-source-filter" w ->
  dom w !! "news-list" = Some e ->
  (net_news (net w) (Dashboard.news_url (current_source w) (alertsOnly w))
   = NetFail
   \/ net_news (net w) (Dashboard.news_url (current_source w) (alertsOnly w))
      = NotJson) ->
  exists w',
    Dashboard.loadNews w = (Ok (Fulfilled tt), w')
    /\ dom w'
       = <["news-list" :=
             set_innerHTML_of (Html.loading "Failed to load news") e]> (dom w)
    /\ layerGroups w' = layerGroups w.
Proof.
  intros [ef Hef] He. rewrite (current_source_eq w ef Hef). intros Hnet.
  unfold Dashboard.loadNews.
  rewrite (bind_run _ _ w w (el_value ef)) by (apply read_run; exact Hef).
  rewrite (bind_run _ _ w w (alertsOnly w)) by reflexivity.
  set (url := Dashboard.news_url (el_value ef) (alertsOnly w)) in *.
  rewrite (bind_run _ _ _ _ _ (fetch_run url (fun n => net_news n url) w)).
  set (w0 := with_requests (requests w ++ [url]) w).
  assert (Hcatch : forall err,
    catch_ (Rejected err)
      (fun _ => console_error "News fetch failed:" ;;
                set_innerHTML "news-list" (Html.loading "Failed to load news"))
      w0
    = (Ok (Fulfilled tt),
       with_dom (<["news-list" :=
                     set_innerHTML_of (Html.loading "Failed to load news") e]>
                   (dom w))
         (with_console (console w0 ++ ["News fetch failed:"]) w0))).
  { intros err. cbn [catch_].
    rewrite (bind_run _ _ w0
               (with_console (console w0 ++ ["News fetch failed:"]) w0) tt)
      by reflexivity.
    rewrite (set_innerHTML_run "news-list" _ _ e) by exact He.
    reflexivity. }
  destruct Hnet as [-> | ->].
  - rewrite (bind_run _ _ w0 w0 (Rejected NetworkError)) by reflexivity.
    rewrite (bind_run _ _ w0 w0 (Rejected NetworkError)) by reflexivity.
    rewrite Hcatch. eexists. split; [reflexivity|]. split; reflexivity.
  - rewrite (bind_run _ _ w0 w0 (Rejected SyntaxError)) by reflexivity.
    rewrite (bind_run _ _ w0 w0 (Rejected SyntaxError)) by reflexivity.
    rewrite Hcatch. eexists. split; [reflexivity|]. split; reflexivity.
Qed.

(** The GDELT panel likewise. *)
Lemma loadGdelt_failed (w : world) (e : element) :
  dom w !! "gdelt-list" = Some e ->
  net_gdelt (net w) = NetFail \/ net_gdelt (net w) = NotJson ->
  exists w',
    Dashboard.loadGdelt w = (Ok (Fulfilled tt), w')
    /\ dom w'
       = <["gdelt-list" :=
             set_innerHTML_of (Html.loading "Failed to load GDELT data") e]>
           (dom w)
    /\ layerGroups w' = layerGroups w.
Proof.
  intros He Hnet. unfold Dashboard.loadGdelt.
  rewrite (bind_run _ _ _ _ _ (fetch_run "/api/gdelt" net_gdelt w)).
  set (w0 := with_requests (requests w ++ ["/api/gdelt"]) w).
  assert (Hcatch : forall err,
    catch_ (Rejected err)
      (fun _ => console_error "GDELT fetch failed:" ;;
                set_innerHTML "gdelt-list"
                  (Html.loading "Failed to load GDELT data"))
      w0
    = (Ok (Fulfilled tt),
       with_dom (<["gdelt-list" :=
                     set_innerHTML_of
                       (Html.loading "Failed to load GDELT data") e]>
                   (dom w))
         (with_console (console w0 ++ ["GDELT fetch failed:"]) w0))).
  { intros err. cbn [catch_].
    rewrite (bind_run _ _ w0
               (with_console (console w0 ++ ["GDELT fetch failed:"]) w0) tt)
      by reflexivity.
    rewrite (set_innerHTML_run "gdelt-list" _ _ e) by exact He.
    reflexivity. }
  destruct Hnet as [-> | ->].
  - rewrite (bind_run _ _ w0 w0 (Rejected NetworkError)) by reflexivity.
    rewrite (bind_run _ _ w0 w0 (Rejected NetworkError)) by reflexivity.
    rewrite Hcatch. eexists. split; [reflexivity|]. split; reflexivity.
  - rewrite (bind_run _ _ w0 w0 (Rejected SyntaxError)) by reflexivity.
    rewrite (bind_run _ _ w0 w0 (Rejected SyntaxError)) by reflexivity.
    rewrite Hcatch. eexists. split; [reflexivity|]. split; reflexivity.
Qed.

(** [loadNews] when the network answers with an empty array: the five
    elements of the news feed are written, each with its empty state,
    and nothing else changes. *)
Lemma loadNews_empty (w : world) :
  news_panels w ->
  net_news (net w) (Dashboard.news_url (current_source w) (alertsOnly w))
  = Json (PArray []) ->
  exists w',
    Dashboard.loadNews w = (Ok (Fulfilled tt), w')
    /\ markup_of "news-list" w' = Some (Html.loading "No news available")
    /\ markup_of "alerts-list" w' = Some (Html.loading "No active alerts")
    /\ markup_of "ticker-content" w' = Some []
    /\ markup_of "news-source-filter" w'
       = Some [Html.Option_ "" false "All Sources"]
    /\ textContent <$> dom w' !! "stat-news"
       = Some (Dashboard.int_to_string 0)
    /\ (forall sel,
          sel ∉ ["news-list"; "alerts-list"; "ticker-content";
                 "news-source-filter"; "stat-news"] ->
          dom w' !! sel = dom w !! sel)
    /\ layerGroups w' = layerGroups w
    /\ console w' = console w.
Proof.
  intros Hpanels.
  pose proof Hpanels as ([ef Hef] & [en Hen] & [ea Hea] & [et Het] & [es Hes]).
  rewrite (current_source_eq w ef Hef). intros Hnet.
  unfold Dashboard.loadNews.
  rewrite (bind_run _ _ w w (el_value ef)) by (apply read_run; exact Hef).
  rewrite (bind_run _ _ w w (alertsOnly w)) by reflexivity.
  set (url := Dashboard.news_url (el_value ef) (alertsOnly w)) in *.
  rewrite (bind_run _ _ _ _ _ (fetch_run url (fun n => net_news n url) w)).
  rewrite Hnet.
  set (w0 := with_requests (requests w ++ [url]) w).
  rewrite (bind_run _ _ w0 w0 (Fulfilled (PArray []))) by reflexivity.
  set (d1 := <["news-list" :=
                 set_innerHTML_of (Html.loading "No news available") en]>
               (dom w)).
  set (d2 := <["alerts-list" :=
                 set_innerHTML_of (Html.loading "No active alerts") ea]> d1).
  set (d3 := <["ticker-content" := set_innerHTML_of [] et]> d2).
  set (d4 := <["news-source-filter" :=
                 set_value_of ""
                   (set_innerHTML_of [Html.Option_ "" false "All Sources"]
                      ef)]> d3).
  set (d5 := <["stat-news" :=
                 set_textContent_of (Dashboard.int_to_string 0) es]> d4).
  assert (Hon : Dashboard.onNews (PArray []) w0 = (Ok tt, with_dom d5 w0)).
  { unfold Dashboard.onNews.
    rewrite (bind_run _ _ _ _ _ (renderNews_run [] w0 en Hen)).
    change (news_markup (now w0) []) with (Html.loading "No news available").
    change (<["news-list" := _]> (dom w0)) with d1.
    assert (Hea1 : d1 !! "alerts-list" = Some ea).
    { unfold d1. rewrite lookup_insert_ne by discriminate. exact Hea. }
    cbn [List.filter].
    rewrite (bind_run _ _ _ _ _ (renderAlerts_run [] (with_dom d1 w0) ea Hea1)).
    cbn [now with_dom dom].
    change (alerts_markup (now w0) []) with (Html.loading "No active alerts").
    change (<["alerts-list" := _]> d1) with d2.
    assert (Het2 : d2 !! "ticker-content" = Some et).
    { unfold d2, d1. rewrite !lookup_insert_ne by discriminate. exact Het. }
    unfold Dashboard.renderTicker.
    rewrite (bind_run _ _ _ _ _
               (set_innerHTML_run "ticker-content" _ (with_dom d2 _) et Het2)).
    cbn [with_dom dom].
    change (<["ticker-content" := _]> d2) with d3.
    assert (Hef3 : d3 !! "news-source-filter" = Some ef).
    { unfold d3, d2, d1. rewrite !lookup_insert_ne by discriminate.
      exact Hef. }
    erewrite bind_run; cycle 1.
    { unfold Dashboard.updateSourceFilter.
      erewrite bind_run by (apply read_run; exact Hef3).
      cbv zeta. apply update_run. exact Hef3. }
    erewrite bind_run by reflexivity.
    assert (Hes4 : d4 !! "stat-news" = Some es).
    { unfold d4, d3, d2, d1. rewrite !lookup_insert_ne by discriminate.
      exact Hes. }
    unfold Dashboard.set_textContent_value, set_textContent.
    erewrite update_run; [reflexivity|]. exact Hes4. }
  rewrite (bind_run _ _ w0 (with_dom d5 w0) (Fulfilled tt));
    [|cbn [then_]; rewrite Hon; reflexivity].
  eexists. split; [reflexivity|].
  unfold markup_of. cbn [dom with_dom layerGroups console].
  unfold d5, d4, d3, d2, d1.
  repeat split.
  - rewrite !lookup_insert_ne by discriminate. rewrite lookup_insert_eq.
    reflexivity.
  - rewrite !lookup_insert_ne by discriminate. rewrite lookup_insert_eq.
    reflexivity.
  - rewrite !lookup_insert_ne by discriminate. rewrite lookup_insert_eq.
    reflexivity.
  - rewrite !lookup_insert_ne by discriminate. rewrite lookup_insert_eq.
    reflexivity.
  - rewrite lookup_insert_eq. reflexivity.
  - intros sel Hsel.
    rewrite !not_elem_of_cons in Hsel.
    destruct Hsel as (H1 & H2 & H3 & H4 & H5 & _).
    rewrite !lookup_insert_ne by congruence. reflexivity.
Qed.

(** [loadGdelt] when the network answers with an empty array. *)
Lemma loadGdelt_empty (w : world) (e : element) :
  dom w !! "gdelt-list" = Some e ->
  net_gdelt (net w) = Json (PArray []) ->
  exists w',
    Dashboard.loadGdelt w = (Ok (Fulfilled tt), w')
    /\ dom w'
       = <["gdelt-list" :=
             set_innerHTML_of (Html.loading "No GDELT data available") e]>
           (dom w)
    /\ layerGroups w' = layerGroups w
    /\ console w' = console w.
Proof.
  intros He Hnet. unfold Dashboard.loadGdelt.
  rewrite (bind_run _ _ _ _ _ (fetch_run "/api/gdelt" net_gdelt w)).
  rewrite Hnet.
  set (w0 := with_requests (requests w ++ ["/api/gdelt"]) w).
  rewrite (bind_run _ _ w0 w0 (Fulfilled (PArray []))) by reflexivity.
  erewrite bind_run; cycle 1.
  { cbn [then_]. rewrite (renderGdelt_run [] w0 e He). reflexivity. }
  eexists. split; [reflexivity|]. repeat split.
Qed.

End Loaders.

(** ** The ticker *)

Section Ticker.

Lemma NoDup_take_sub {A} (n : nat) (l : list A) : NoDup l -> NoDup (take n l).
Proof. intros Hnd. eapply sublist_NoDup; [exact Hnd | apply sublist_take]. Qed.

(** An element that passes a filter is found in the filtered list no
    later than in the list. *)
Lemma filter_lookup_le {A} (f : A -> bool) (l : list A) (i : nat) (x : A) :
  l !! i = Some x -> f x = true ->
  exists j, j <= i /\ List.filter f l !! j = Some x.
Proof.
  revert i. induction l as [|y l IH]; intros i Hi Hx; [discriminate|].
  destruct i as [|i]; cbn [List.filter].
  - injection Hi as ->. rewrite Hx. exists 0. split; [lia | reflexivity].
  - destruct (IH i Hi Hx) as (j & Hj & Hl).
    destruct (f y); [exists (S j) | exists j]; (split; [lia | exact Hl]).
Qed.

Lemma occurrences_once (x : NewsItem) (l : list NewsItem) :
  NoDup l -> x ∈ l -> occurrences x l = 1.
Proof.
  intros Hnd Hin. unfold occurrences.
  apply NoDup_count_occ'; [apply NoDup_ListNoDup, Hnd | apply list_elem_of_In, Hin].
Qed.

Lemma occurrences_none (x : NewsItem) (l : list NewsItem) :
  x ∉ l -> occurrences x l = 0.
Proof.
  intros Hin. unfold occurrences. apply count_occ_not_In.
  intros Hx. apply Hin, list_elem_of_In, Hx.
Qed.

(** How often an alert item among the first 15 shows in the ticker. *)
Lemma ticker_occurrences `{Platform} (l : list NewsItem) (i : nat)
    (x : NewsItem) :
  NoDup l -> l !! i = Some x -> i < 15 ->
  occurrences x (Dashboard.tickerItems l)
  = if bool_decide (x ∈ take 10 (List.filter is_alert l)) then 2 else 1.
Proof.
  intros Hnd Hi Hlt. unfold Dashboard.tickerItems, occurrences.
  rewrite count_occ_app. fold (occurrences x (take 15 l)).
  fold (occurrences x (take 10 (List.filter is_alert l))).
  rewrite (occurrences_once x (take 15 l)).
  - destruct (bool_decide_reflect (x ∈ take 10 (List.filter is_alert l)))
      as [Hin|Hout].
    + rewrite occurrences_once; [reflexivity | | exact Hin].
      apply NoDup_take_sub, NoDup_ListNoDup, List.NoDup_filter,
        NoDup_ListNoDup, Hnd.
    + rewrite occurrences_none by exact Hout. reflexivity.
  - apply NoDup_take_sub, Hnd.
  - apply elem_of_take. exists i. split; assumption.
Qed.

(** Filtering two lists in step. *)
Lemma Forall2_filter_both {A B} (R : A -> B -> Prop) (f : A -> bool)
    (g : B -> bool) (xs : list A) (ys : list B) :
  (forall x y, R x y -> f x = g y) ->
  Forall2 R xs ys -> Forall2 R (List.filter f xs) (List.filter g ys).
Proof.
  intros Hfg. induction 1 as [|x y xs ys Hxy _ IH]; [constructor|].
  cbn [List.filter]. rewrite (Hfg x y Hxy).
  destruct (g y); [constructor; assumption | exact IH].
Qed.

(** The positions of a prefix of a list, with the entries found
    there. *)
Lemma positions_prefix (l : list NewsItem) (n : nat) :
  n <= length l ->
  Forall2 (fun i x => l !! i = Some x) (seq 0 n) (take n l).
Proof.
  intros Hn. apply Forall2_same_length_lookup_2.
  - rewrite length_seq, length_take. lia.
  - intros j i x Hi Hx. apply lookup_seq in Hi as [-> Hj].
    rewrite lookup_take_lt in Hx by exact Hj. exact Hx.
Qed.

Lemma alert_at (l : list NewsItem) (i : nat) (x : NewsItem) :
  l !! i = Some x ->
  bool_decide (is_alert <$> l !! i = Some true) = is_alert x.
Proof.
  intros ->. cbn. destruct (is_alert x).
  - apply bool_decide_eq_true. reflexivity.
  - apply bool_decide_eq_false. discriminate.
Qed.

(** The ticker shows, entry by entry, the items at [ticker_positions]. *)
Lemma ticker_positions_items `{Platform} (l : list NewsItem) :
  Forall2 (fun i x => l !! i = Some x)
    (ticker_positions l) (Dashboard.tickerItems l).
Proof.
  assert (Hall : Forall2 (fun i x => l !! i = Some x) (seq 0 (length l)) l).
  { pose proof (positions_prefix l (length l) (Nat.le_refl _)) as Hp.
    rewrite firstn_all in Hp. exact Hp. }
  unfold ticker_positions, Dashboard.tickerItems. cbv zeta.
  apply Forall2_app; apply Forall2_take; [|exact Hall].
  apply (Forall2_filter_both _ _ _ _ _ (alert_at l)), Hall.
Qed.

Lemma NoDup_positions (f : nat -> bool) (s n m : nat) :
  List.NoDup (take m (List.filter f (seq s n))).
Proof.
  apply NoDup_ListNoDup, NoDup_take_sub, NoDup_ListNoDup, List.NoDup_filter,
    List.seq_NoDup.
Qed.

(** How often the ticker shows the entry at a position among the first
    15 that holds an alert item: twice when fewer than 10 alert items
    precede it, once otherwise. *)
Lemma shown_times_alert (l : list NewsItem) (i : nat) (x : NewsItem) :
  l !! i = Some x -> i < 15 -> is_alert x = true ->
  shown_times i l
  = if (length (List.filter is_alert (take i l)) <? 10)%nat then 2 else 1.
Proof.
  intros Hi Hlt Hx.
  assert (Hlen : i < length l) by (apply lookup_lt_Some in Hi; exact Hi).
  set (f := fun j => bool_decide (is_alert <$> l !! j = Some true)).
  set (k := length (List.filter is_alert (take i l))).
  unfold shown_times, ticker_positions. cbv zeta. fold f.
  rewrite count_occ_app.
  assert (Hreg : count_occ Nat.eq_dec (take 15 (seq 0 (length l))) i = 1).
  { apply NoDup_count_occ'.
    - apply NoDup_ListNoDup, NoDup_take_sub, NoDup_ListNoDup, List.seq_NoDup.
    - apply list_elem_of_In, elem_of_take. exists i.
      split; [apply lookup_seq; lia | exact Hlt]. }
  rewrite Hreg.
  assert (Hsplit : seq 0 (length l)
                   = seq 0 i ++ i :: seq (S i) (length l - S i)).
  { replace (length l) with (i + S (length l - S i)) at 1 by lia.
    rewrite seq_app. reflexivity. }
  assert (Hk : length (List.filter f (seq 0 i)) = k).
  { unfold k. eapply Forall2_length.
    apply (Forall2_filter_both _ _ _ _ _ (alert_at l)).
    apply positions_prefix. lia. }
  assert (Hfi : f i = true) by (unfold f; rewrite (alert_at l i x Hi); exact Hx).
  assert (Hfilter : List.filter f (seq 0 (length l))
                    = List.filter f (seq 0 i)
                      ++ i :: List.filter f (seq (S i) (length l - S i))).
  { rewrite Hsplit, List.filter_app. cbn [List.filter]. rewrite Hfi.
    reflexivity. }
  destruct (Nat.ltb_spec k 10) as [Hk10|Hk10].
  - assert (Halert : count_occ Nat.eq_dec
                       (take 10 (List.filter f (seq 0 (length l)))) i = 1).
    { apply NoDup_count_occ'; [apply NoDup_positions|].
      apply list_elem_of_In, elem_of_take. exists k. split; [|exact Hk10].
      rewrite Hfilter, lookup_app_r by lia.
      rewrite Hk, Nat.sub_diag. reflexivity. }
    rewrite Halert. reflexivity.
  - assert (Halert : count_occ Nat.eq_dec
                       (take 10 (List.filter f (seq 0 (length l)))) i = 0).
    2: { rewrite Halert. reflexivity. }
    apply count_occ_not_In.
    rewrite Hfilter, take_app_le by lia.
    intros Hin. apply list_elem_of_In, elem_of_take in Hin
      as (j & Hj & _).
    apply list_elem_of_lookup_2, list_elem_of_In, List.filter_In in Hj
      as [Hj _].
    apply in_seq in Hj. lia.
Qed.

End Ticker.

(** ** Requests of the map layers *)

Section LayerRequests.
Context `{Platform}.






Lemma prefix_append (s t : string) : String.prefix s (s +:+ t) = true.
Proof.
  induction s as [|c s IH]; simpl; [destruct t; reflexivity|].
  destruct (Ascii.ascii_dec c c); [exact IH | contradiction].
Qed.

Lemma news_url_prefix (source : string) (alerts : bool) :
  String.prefix "/api/news?limit=200" (Dashboard.news_url source alerts) = true.
Proof. unfold Dashboard.news_url. apply prefix_append. Qed.


End LayerRequests.


(** C4.  On a page that has the source filter and the news and GDELT
    panels: [renderNews] and [renderGdelt] write their 'No ... available'
    placeholder for an empty array.  When the request of [loadNews] is
    answered with an empty array, the news panel shows 'No news
    available', and the other elements of the news feed are written with
    their empty state (the alerts panel 'No active alerts', an empty
    ticker, the source filter with its one 'All Sources' option, the
    counter 0); no other element, no layer group and no console line
    changes.  [loadGdelt], answered with an empty array, writes 'No
    GDELT data available' in its panel and nothing else.  When the
    request of [loadNews] (of [loadGdelt]) fails or its body is not
    JSON, the [catch] handler writes the 'Failed to load' placeholder in
    that panel and no other element and no layer group changes.
    Whatever the network answers, both functions return a promise that
    is fulfilled: no exception and no rejection leaves them. *)
Theorem C4_panels_degrade `{Platform} (w : world) (en eg : element) :
  has "news-source-filter" w ->
  dom w !! "news-list" = Some en ->
  dom w !! "gdelt-list" = Some eg ->
  markup_of "news-list" (exec (Dashboard.renderNews (PArray [])) w)
  = Some (Html.loading "No news available")
  /\ markup_of "gdelt-list" (exec (Dashboard.renderGdelt (PArray [])) w)
     = Some (Html.loading "No GDELT data available")
  /\ (news_panels w ->
      net_news (net w) (Dashboard.news_url (current_source w) (alertsOnly w))
      = Json (PArray []) ->
      exists w',
        Dashboard.loadNews w = (Ok (Fulfilled tt), w')
        /\ markup_of "news-list" w' = Some (Html.loading "No news available")
        /\ markup_of "alerts-list" w'
           = Some (Html.loading "No active alerts")
        /\ markup_of "ticker-content" w' = Some []
        /\ markup_of "news-source-filter" w'
           = Some [Html.Option_ "" false "All Sources"]
        /\ textContent <$> dom w' !! "stat-news"
           = Some (Dashboard.int_to_string 0)
        /\ (forall sel,
              sel ∉ ["news-list"; "alerts-list"; "ticker-content";
                     "news-source-filter"; "stat-news"] ->
              dom w' !! sel = dom w !! sel)
        /\ layerGroups w' = layerGroups w
        /\ console w' = console w)
  /\ (net_gdelt (net w) = Json (PArray []) ->
      exists w',
        Dashboard.loadGdelt w = (Ok (Fulfilled tt), w')
        /\ dom w'
           = <["gdelt-list" :=
                 set_innerHTML_of (Html.loading "No GDELT data available")
                   eg]> (dom w)
        /\ layerGroups w' = layerGroups w
        /\ console w' = console w)
  /\ (net_news (net w) (Dashboard.news_url (current_source w) (alertsOnly w))
      = NetFail
      \/ net_news (net w)
           (Dashboard.news_url (current_source w) (alertsOnly w))
         = NotJson ->
      exists w',
        Dashboard.loadNews w = (Ok (Fulfilled tt), w')
        /\ dom w'
           = <["news-list" :=
                 set_innerHTML_of (Html.loading "Failed to load news") en]>
               (dom w)
        /\ layerGroups w' = layerGroups w)
  /\ (net_gdelt (net w) = NetFail \/ net_gdelt (net w) = NotJson ->
      exists w',
        Dashboard.loadGdelt w = (Ok (Fulfilled tt), w')
        /\ dom w'
           = <["gdelt-list" :=
                 set_innerHTML_of (Html.loading "Failed to load GDELT data")
                   eg]> (dom w)
        /\ layerGroups w' = layerGroups w)
  /\ (exists w', Dashboard.loadNews w = (Ok (Fulfilled tt), w'))
  /\ (exists w', Dashboard.loadGdelt w = (Ok (Fulfilled tt), w')).
Proof.
  intros Hfilter Hen Heg.
  repeat match goal with |- _ /\ _ => split end.
  - unfold exec. rewrite (renderNews_run [] w en Hen). cbn [snd].
    apply markup_written.
  - unfold exec. rewrite (renderGdelt_run [] w eg Heg). cbn [snd].
    apply markup_written.
  - apply loadNews_empty.
  - apply loadGdelt_empty, Heg.
  - apply loadNews_failed; assumption.
  - apply loadGdelt_failed; assumption.
  - destruct (loadNews_run w Hfilter) as (p & w' & Hrun & _ & _ & Hp).
    exists w'. rewrite Hrun, Hp; [reflexivity | eexists; exact Hen].
  - destruct (loadGdelt_run w) as (p & w' & Hrun & _ & _ & Hp).
    exists w'. rewrite Hrun, Hp; [reflexivity | eexists; exact Heg].
Qed.

(** Selecting on a flag commutes with any rewriting that keeps it. *)
Lemma filter_keeps_flag {A} (flag : A -> bool) (g : A -> A) (l : list A) :
  (forall x, flag (g x) = flag x) ->
  List.filter flag (map g l) = map g (List.filter flag l).
Proof.
  intros Hkeep. induction l as [|x l IH]; [reflexivity|].
  cbn [map List.filter]. rewrite Hkeep, IH.
  destruct (flag x); reflexivity.
Qed.

(** C7.  When the news request is answered with an array, [loadNews]
    fills the alerts panel with exactly the fetched items whose
    [is_alert] field is true, in their order (the 'No active alerts'
    placeholder when there is none), and the alert section of the ticker
    with the first 10 of the same items, followed by the first 15
    fetched items.  The selection reads no other field: it commutes
    with any rewriting of the items that keeps [is_alert], so nothing is
    matched against titles or summaries. *)
Theorem C7_alerts_from_server_flag `{Platform} (w : world)
    (l : list NewsItem) :
  news_panels w ->
  net_news (net w) (Dashboard.news_url (current_source w) (alertsOnly w))
  = Json (PArray l) ->
  exists w',
    Dashboard.loadNews w = (Ok (Fulfilled tt), w')
    /\ markup_of "alerts-list" w'
       = Some (alerts_markup (now w) (List.filter is_alert l))
    /\ markup_of "ticker-content" w'
       = Some (flat_map Dashboard.tickerHtml
                 (take 10 (List.filter is_alert l) ++ take 15 l))
    /\ (forall x, In x (List.filter is_alert l) <-> In x l /\ is_alert x = true)
    /\ (forall rewrite : NewsItem -> NewsItem,
          (forall x, is_alert (rewrite x) = is_alert x) ->
          List.filter is_alert (map rewrite l)
          = map rewrite (List.filter is_alert l)).
Proof.
  intros Hpanels Hnet.
  destruct (loadNews_array l w Hpanels Hnet) as (w' & Hrun & _ & Ha & Ht).
  exists w'. split; [exact Hrun|]. split; [exact Ha|]. split; [exact Ht|].
  split.
  - intros x. apply filter_In.
  - intros rewrite Hkeep. apply filter_keeps_flag, Hkeep.
Qed.

(** C8 (amended).  [renderNews], given an array, writes the markup of
    its first 100 items and of no other (the placeholder when the array
    is empty): at most 100 entries, entry [i] being item [i].  The URL
    [loadNews] requests starts with [/api/news?limit=200].  The ticker
    shows at most 10 alert items followed by the at most 15 first items;
    entry by entry, it shows the items at [ticker_positions].  The entry
    at a position among the first 15 that holds an alert item is shown
    twice when fewer than 10 alert items precede it, and once otherwise;
    at a position among the first 10 it is always shown twice.  When
    the items are pairwise distinct, the same holds of the number of
    times the item occurs in the ticker. *)
Theorem C8_news_and_ticker_limits `{Platform} (w : world) (e : element)
    (l : list NewsItem) :
  dom w !! "news-list" = Some e ->
  markup_of "news-list" (exec (Dashboard.renderNews (PArray l)) w)
  = Some (if (length l =? 0)%nat then Html.loading "No news available"
          else map (Dashboard.newsItemHtml (now w)) (take 100 l))
  /\ length (take 100 l) <= 100
  /\ (forall i, i < 100 -> take 100 l !! i = l !! i)
  /\ (forall i, 100 <= i -> take 100 l !! i = None)
  /\ (forall source alerts,
        String.prefix "/api/news?limit=200"
          (Dashboard.news_url source alerts) = true)
  /\ Dashboard.tickerItems l = take 10 (List.filter is_alert l) ++ take 15 l
  /\ length (take 10 (List.filter is_alert l)) <= 10
  /\ length (take 15 l) <= 15
  /\ Forall2 (fun i x => l !! i = Some x)
       (ticker_positions l) (Dashboard.tickerItems l)
  /\ (forall i x,
        l !! i = Some x -> i < 15 -> is_alert x = true ->
        shown_times i l
        = if (length (List.filter is_alert (take i l)) <? 10)%nat
          then 2 else 1)
  /\ (forall i x,
        l !! i = Some x -> i < 10 -> is_alert x = true ->
        shown_times i l = 2)
  /\ (NoDup l ->
      forall i x,
        l !! i = Some x -> i < 15 -> is_alert x = true ->
        occurrences x (Dashboard.tickerItems l)
        = if bool_decide (x ∈ take 10 (List.filter is_alert l)) then 2 else 1).
Proof.
  intros He.
  repeat match goal with |- _ /\ _ => split end.
  - unfold exec. rewrite (renderNews_run l w e He). cbn [snd].
    rewrite markup_written. reflexivity.
  - rewrite length_take. lia.
  - intros i Hi. apply lookup_take_lt, Hi.
  - intros i Hi. apply lookup_take_ge, Hi.
  - apply news_url_prefix.
  - reflexivity.
  - rewrite length_take. lia.
  - rewrite length_take. lia.
  - apply ticker_positions_items.
  - apply shown_times_alert.
  - intros i x Hi Hlt Hx.
    rewrite (shown_times_alert l i x Hi) by (lia || exact Hx).
    assert (Hk : length (List.filter is_alert (take i l)) <= i).
    { etransitivity; [apply List.filter_length_le|].
      rewrite length_take. lia. }
    destruct (Nat.ltb_spec (length (List.filter is_alert (take i l))) 10);
      [reflexivity | lia].
  - intros Hnd i x Hi Hlt _. apply (ticker_occurrences l i x Hnd Hi Hlt).
Qed.

(* ===================================================================== *)
(** * Further properties of the client *)
(* ===================================================================== *)

Import Observe.

(** ** More of map.js *)

Section MapExtras.
Context `{Platform}.

(** The groups [init] creates. *)
Lemma create_groups_eq (l : list string) (w : world) :
  exists g,
    forEach (fun name =>
      modify (fun w => with_layerGroups (<[name := []]> (layerGroups w)) w))
      l w = (Ok tt, with_layerGroups g w)
    /\ (forall n, n ∈ l -> g !! n = Some [])
    /\ (forall k, k ∉ l -> g !! k = layerGroups w !! k).
Proof.
  revert w. induction l as [|x l IH]; intros w.
  - exists (layerGroups w). split; [|split].
    + cbn. rewrite world_eta. reflexivity.
    + intros n Hn. inversion Hn.
    + reflexivity.
  - cbn [forEach].
    destruct (IH (with_layerGroups (<[x := []]> (layerGroups w)) w))
      as (g & Hrun & Hin & Hout).
    exists g. split; [|split].
    + erewrite bind_run by reflexivity. exact Hrun.
    + intros n Hn. destruct (decide (n ∈ l)) as [Hl|Hl]; [exact (Hin n Hl)|].
      apply elem_of_cons in Hn as [->|Hn]; [|contradiction].
      rewrite (Hout x Hl). cbn. apply lookup_insert_eq.
    + intros k Hk. apply not_elem_of_cons in Hk as [Hkx Hkl].
      rewrite (Hout k Hkl). cbn. apply lookup_insert_ne. congruence.
Qed.

Lemma with_onMap_eta (w : world) : with_onMap (onMap w) w = w.
Proof. destruct w; reflexivity. Qed.

(** [addTo]: the group is on the map afterwards; the call throws when
    the group was not and holds a layer without a position. *)
Lemma addTo_map_outcome (name : string) (ls : list layer) (w : world) :
  layerGroups w !! name = Some ls ->
  WorldMap.addTo_map name w
  = (if shown name w || negb (existsb WorldMap.unplaceable ls) then Ok tt
     else Throw WorldMap.null_position_error,
     with_onMap (if bool_decide (name ∈ onMap w) then onMap w
                 else onMap w ++ [name]) w).
Proof.
  intros Hls. unfold WorldMap.addTo_map, WorldMap.getLayers, shown.
  unfold mbind, M_bind, bind, gets, modify, ret, throw. rewrite Hls.
  destruct (bool_decide (name ∈ onMap w)); cbn [orb].
  - rewrite with_onMap_eta. reflexivity.
  - destruct (existsb WorldMap.unplaceable ls); reflexivity.
Qed.

Lemma addTo_map_eq (name : string) (w : world) :
  layerGroups w !! name = Some [] ->
  WorldMap.addTo_map name w
  = (Ok tt,
     with_onMap (if bool_decide (name ∈ onMap w) then onMap w
                 else onMap w ++ [name]) w).
Proof.
  intros Hls. rewrite (addTo_map_outcome name [] w Hls).
  rewrite orb_true_r. reflexivity.
Qed.

Lemma elem_of_added (x n : string) (l : list string) :
  n ∈ (if bool_decide (x ∈ l) then l else l ++ [x]) <-> n ∈ l \/ n = x.
Proof.
  destruct (bool_decide_reflect (x ∈ l)) as [Hx|Hx].
  - split; [auto|]. intros [Hn| ->]; assumption.
  - rewrite elem_of_app, list_elem_of_singleton. reflexivity.
Qed.

Lemma with_listeners_eta (w : world) : with_listeners (listeners w) w = w.
Proof. destruct w; reflexivity. Qed.

Lemma registrations_cons (w : world) (c n : string)
    (l : list (string * string)) :
  registrations w ((c, n) :: l)
  = if bool_decide (is_Some (dom w !! c))
    then (c, "change", CbLayerToggle c n) :: registrations w l
    else registrations w l.
Proof.
  unfold registrations. cbn.
  destruct (bool_decide (is_Some (dom w !! c))); reflexivity.
Qed.

Lemma registrations_run (l : list (string * string)) (w : world) :
  forEach (fun '(checkboxId, layerName) =>
    d ← gets dom;
    match d !! checkboxId with
    | None => ret tt
    | Some _ =>
        listen checkboxId "change" (CbLayerToggle checkboxId layerName)
    end) l w
  = (Ok tt, with_listeners (listeners w ++ registrations w l) w).
Proof.
  revert w. induction l as [|[c n] l IH]; intros w.
  - cbn. rewrite app_nil_r, with_listeners_eta. reflexivity.
  - cbn [forEach]. rewrite registrations_cons.
    destruct (dom w !! c) as [e|] eqn:Hc.
    + erewrite bind_run; cycle 1.
      { unfold mbind, M_bind, bind, gets, listen, modify. rewrite Hc.
        reflexivity. }
      rewrite IH. rewrite bool_decide_true by eauto.
      unfold registrations. cbn [listeners with_listeners dom].
      rewrite <- app_assoc. reflexivity.
    + erewrite bind_run; cycle 1.
      { unfold mbind, M_bind, bind, gets, ret. rewrite Hc. reflexivity. }
      rewrite IH. rewrite bool_decide_false by (intros [? [=]]).
      reflexivity.
Qed.

Lemma setupLayerToggles_eq (w : world) :
  WorldMap.setupLayerToggles w
  = (Ok tt,
     with_listeners (listeners w ++ registrations w WorldMap.toggle_mapping) w).
Proof. apply registrations_run. Qed.

Lemma elem_of_registrations (w : world) (l : list (string * string))
    (c n : string) :
  (c, "change", CbLayerToggle c n) ∈ registrations w l
  <-> (c, n) ∈ l /\ has c w.
Proof.
  unfold registrations, has. rewrite !list_elem_of_In, in_map_iff. split.
  - intros ([c' n'] & Heq & Hin). cbn in Heq.
    injection Heq as -> _ ->.
    apply List.filter_In in Hin as [Hin Hd].
    apply bool_decide_eq_true in Hd. split; [exact Hin|exact Hd].
  - intros [Hin Hd]. exists (c, n). split; [reflexivity|].
    apply List.filter_In. split; [exact Hin|].
    apply bool_decide_eq_true, Hd.
Qed.

(** [fetch(url).then(r => r.json()).then(render)]: the handler runs on
    a JSON body, and an exception it throws is dropped with the
    promise. *)
Lemma fetch_render_run {A} (url : string) (r : network -> reply A)
    (render : payload A -> M unit) (w : world) :
  WorldMap.fetch_render url r render w
  = (Ok tt,
     match r (net w) with
     | Json d => exec (render d) (with_requests (requests w ++ [url]) w)
     | _ => with_requests (requests w ++ [url]) w
     end).
Proof.
  unfold WorldMap.fetch_render.
  erewrite bind_run by apply fetch_run.
  cbn [net with_requests].
  destruct (r (net w)) as [| |d]; try reflexivity.
  unfold mbind, M_bind, bind, then_json, json, ret, then_, exec. cbn.
  destruct (render d _) as [[[]|e] w']; reflexivity.
Qed.

(** What [updateConflictEvents] leaves of the state. *)
Lemma cluster_outcome_state (data : payload ConflictEvent) (w : world) :
  exists g,
    snd (cluster_outcome data w) = with_layerGroups g w
    /\ (forall k, k <> "conflict-events" -> g !! k = layerGroups w !! k)
    /\ (is_Some (layerGroups w !! "conflict-events") ->
        g !! "conflict-events" = cluster_drawn (Json data)).
Proof.
  unfold cluster_outcome, cluster_drawn.
  destruct (layerGroups w !! "conflict-events") as [ls|] eqn:Hls.
  - destruct data as [|len|l]; cbv zeta;
      try destruct (placed false _).2; cbn [snd];
      (eexists; split; [reflexivity|split;
        [intros k Hk; apply lookup_insert_ne; congruence
        |intros _; apply lookup_insert_eq]]).
  - exists (layerGroups w). split; [|split].
    + cbn. rewrite world_eta. reflexivity.
    + reflexivity.
    + intros [? [=]].
Qed.

Lemma fetch_render_state {A} (name url : string) (r : network -> reply A)
    (render : payload A -> M unit)
    (left : bool -> reply A -> option (list layer)) (w : world) :
  (forall b, left b NetFail = None) ->
  (forall b, left b NotJson = None) ->
  (forall b d, is_Some (left b (Json d))) ->
  (forall d w, exists g,
     snd (render d w) = with_layerGroups g w
     /\ (forall k, k <> name -> g !! k = layerGroups w !! k)
     /\ (is_Some (layerGroups w !! name) ->
         g !! name = left (shown name w) (Json d))) ->
  exists g,
    WorldMap.fetch_render url r render w
    = (Ok tt, with_layerGroups g (with_requests (requests w ++ [url]) w))
    /\ (forall k, k <> name -> g !! k = layerGroups w !! k)
    /\ (failed (r (net w)) = true -> g = layerGroups w)
    /\ (is_Some (layerGroups w !! name) ->
        g !! name = match left (shown name w) (r (net w)) with
                    | Some ls => Some ls
                    | None => layerGroups w !! name
                    end).
Proof.
  intros Hfail Hbody Hjson Hrender. rewrite fetch_render_run.
  destruct (r (net w)) as [| |d] eqn:Hr.
  - exists (layerGroups w). rewrite Hfail. repeat split; auto.
  - exists (layerGroups w). rewrite Hbody. repeat split; auto.
  - unfold exec.
    destruct (Hrender d (with_requests (requests w ++ [url]) w))
      as (g & -> & Hk & Hn).
    exists g. split; [reflexivity|]. split; [exact Hk|].
    split; [intros [=]|]. intros Hg.
    change (shown name (with_requests (requests w ++ [url]) w))
      with (shown name w) in Hn.
    rewrite (Hn Hg).
    destruct (Hjson (shown name w) d) as [ls ->]. reflexivity.
Qed.

(** The state after a handler that rebuilds the group [name]. *)
Lemma rebuild_render_state {A} (name : string)
    (render : payload A -> M unit) (candidates : list A -> list layer) :
  (forall d w, render d w = rebuild_outcome name candidates d w) ->
  forall d w, exists g,
    snd (render d w) = with_layerGroups g w
    /\ (forall k, k <> name -> g !! k = layerGroups w !! k)
    /\ (is_Some (layerGroups w !! name) ->
        g !! name = drawn (shown name w) candidates (Json d)).
Proof.
  intros Hrender d w. rewrite Hrender.
  destruct (rebuild_outcome_state name candidates d w) as (g & Hs & Hk & Hn).
  exists g. split; [exact Hs|]. split; [exact Hk|].
  intros Hg. rewrite (Hn Hg). destruct d; reflexivity.
Qed.

Lemma requests_eta (w : world) :
  with_layerGroups (layerGroups w) (with_requests (requests w ++ []) w) = w.
Proof. destruct w; cbn. rewrite app_nil_r. reflexivity. Qed.

(** [loadLayerData]: what it returns and what it changes. *)
Lemma loadLayerData_state (name : string) (w : world) :
  exists g,
    WorldMap.loadLayerData name w
    = (Ok tt,
       with_layerGroups g
         (with_requests (requests w ++ layer_requests name) w))
    /\ (forall k, k <> name -> g !! k = layerGroups w !! k)
    /\ (layer_failed name (net w) = true -> g = layerGroups w)
    /\ (is_Some (layerGroups w !! name) ->
        g !! name = match layer_drawn name (shown name w) (net w) with
                    | Some ls => Some ls
                    | None => layerGroups w !! name
                    end).
Proof.
  assert (Hnone : exists g,
    (Ok tt, w)
    = (Ok tt, with_layerGroups g (with_requests (requests w ++ []) w))
    /\ (forall k, k <> name -> g !! k = layerGroups w !! k)
    /\ (false = true -> g = layerGroups w)
    /\ (is_Some (layerGroups w !! name) ->
        g !! name = layerGroups w !! name)).
  { exists (layerGroups w). rewrite requests_eta. repeat split; auto. }
  unfold WorldMap.loadLayerData, layer_requests, layer_failed, layer_drawn.
  unfold WorldMap.layer_urls. cbn [WorldMap.lookup_url].
  repeat match goal with
  | |- context [String.eqb ?a name] =>
      rewrite (String.eqb_sym a name)
  end.
  destruct (String.eqb_spec name "bases") as [->|_].
  { apply (fetch_render_state "bases" _ _ _
             (fun b => drawn b (map WorldMap.baseMarker)));
      [reflexivity | reflexivity | intros b [| |l]; eexists; reflexivity |].
    apply rebuild_render_state, updateBases_run. }
  destruct (String.eqb_spec name "nuclear") as [->|_].
  { apply (fetch_render_state "nuclear" _ _ _
             (fun b => drawn b (map WorldMap.nuclearMarker)));
      [reflexivity | reflexivity | intros b [| |l]; eexists; reflexivity |].
    apply rebuild_render_state, updateNuclear_run. }
  destruct (String.eqb_spec name "waterways") as [->|_].
  { apply (fetch_render_state "waterways" _ _ _
             (fun b => drawn b (map WorldMap.waterwayMarker)));
      [reflexivity | reflexivity | intros b [| |l]; eexists; reflexivity |].
    apply rebuild_render_state, updateWaterways_run. }
  destruct (String.eqb_spec name "cables") as [->|_].
  { apply (fetch_render_state "cables" _ _ _
             (fun b => drawn b (omap cable_layer)));
      [reflexivity | reflexivity | intros b [| |l]; eexists; reflexivity |].
    apply rebuild_render_state, updateCables_run. }
  destruct (String.eqb_spec name "disasters") as [->|_].
  { apply (fetch_render_state "disasters" _ _ _
             (fun b => drawn b
                (fun l => map WorldMap.disasterMarker
                            (List.filter
                               (fun d => negb (WorldMap.zero_coordinates d))
                               l))));
      [reflexivity | reflexivity | intros b [| |l]; eexists; reflexivity |].
    apply rebuild_render_state, updateDisasters_run. }
  destruct (String.eqb_spec name "conflict-events") as [->|_].
  { apply (fetch_render_state "conflict-events" _ _ _
             (fun _ => cluster_drawn));
      [reflexivity | reflexivity | intros b [| |l]; eexists; reflexivity |].
    intros d w0. rewrite updateConflictEvents_run.
    apply cluster_outcome_state. }
  exact Hnone.
Qed.

(** [WorldMap.init], step by step. *)
Lemma WorldMap_init_eq (w : world) :
  exists g o,
    WorldMap.init w
    = (Ok tt,
       with_listeners (listeners w ++ registrations w WorldMap.toggle_mapping)
         (with_onMap o (with_layerGroups g w)))
    /\ (forall n, n ∈ WorldMap.layerNames -> g !! n = Some [])
    /\ (forall k, k ∉ WorldMap.layerNames -> g !! k = layerGroups w !! k)
    /\ (onMap w = [] -> o = default_layers).
Proof.
  unfold WorldMap.init.
  destruct (create_groups_eq WorldMap.layerNames w) as (g & Hrun & Hin & Hout).
  assert (Hg : forall n, In n WorldMap.layerNames -> g !! n = Some []).
  { intros n Hn. apply Hin, list_elem_of_In, Hn. }
  set (o1 := if bool_decide ("earthquakes" ∈ onMap w) then onMap w
             else onMap w ++ ["earthquakes"]).
  set (o2 := if bool_decide ("conflicts" ∈ o1) then o1
             else o1 ++ ["conflicts"]).
  set (o3 := if bool_decide ("hotspots" ∈ o2) then o2
             else o2 ++ ["hotspots"]).
  exists g, o3. split.
  { erewrite bind_run by exact Hrun.
    erewrite bind_run; cycle 1.
    { apply addTo_map_eq. apply Hg. cbn. auto. }
    erewrite bind_run; cycle 1.
    { apply addTo_map_eq. apply Hg. cbn. auto. }
    erewrite bind_run; cycle 1.
    { apply addTo_map_eq. apply Hg. cbn. auto 10. }
    rewrite setupLayerToggles_eq. reflexivity. }
  split; [exact Hin|]. split; [exact Hout|].
  intros Hempty. subst o3 o2 o1. rewrite Hempty. reflexivity.
Qed.

End MapExtras.

(** X1.  The earthquake icon is as wide as the larger of 8 and four
    times the magnitude, so never narrower than 8 pixels, and it is red
    from magnitude 5 on and orange below. *)
Theorem X1_earthquake_icon (mag : Q) :
  exists size color,
    WorldMap.icons_earthquake mag = EarthquakeIcon size color
    /\ (8 <= size)%Q
    /\ (mag * 4 <= size)%Q
    /\ ((size == 8)%Q \/ (size == mag * 4)%Q)
    /\ (color = "#ff4444" <-> (5 <= mag)%Q)
    /\ (color = "#ff8800" <-> (mag < 5)%Q).
Proof.
  unfold WorldMap.icons_earthquake, WorldMap.Math_max.
  eexists _, _. split; [reflexivity|].
  assert (Hsize : forall a b : Q,
    (a <= (if Qle_bool a b then b else a))%Q
    /\ (b <= (if Qle_bool a b then b else a))%Q
    /\ (((if Qle_bool a b then b else a) == a)%Q
        \/ ((if Qle_bool a b then b else a) == b)%Q)).
  { intros a b. destruct (Qle_bool a b) eqn:Hab.
    - apply Qle_bool_iff in Hab. repeat split;
        [exact Hab | apply Qle_refl | right; reflexivity].
    - assert (~ (a <= b)%Q) as Hn
        by (intros Hle; apply Qle_bool_iff in Hle; congruence).
      apply Qnot_le_lt in Hn. repeat split;
        [apply Qle_refl | apply Qlt_le_weak, Hn | left; reflexivity]. }
  destruct (Hsize 8%Q (mag * 4)%Q) as (H8 & H4 & Hor).
  split; [exact H8|]. split; [exact H4|]. split; [exact Hor|].
  destruct (Qle_bool 5 mag) eqn:H5.
  - apply Qle_bool_iff in H5. split; split; try discriminate; auto.
    intros Hlt. exfalso. apply (Qlt_not_le _ _ Hlt H5).
  - assert (~ (5 <= mag)%Q) as Hn
      by (intros Hle; apply Qle_bool_iff in Hle; congruence).
    split; split; try discriminate; auto.
    + contradiction.
    + intros _. apply Qnot_le_lt, Hn.
Qed.

(** X2.  What [WorldMap.init] does after it has created the Leaflet
    map: each of the nine layer groups exists and is empty, whatever it
    held before; groups of other names are as before; on a map that
    showed no group, exactly the earthquake, conflict and hotspot groups
    are shown, in this order; a [change] listener is registered for each
    layer checkbox the page has; no element changes, and no request,
    timer or [console.error] line is added. *)
Theorem X2_map_init `{Platform} (w : world) :
  exists w',
    WorldMap.init w = (Ok tt, w')
    /\ Forall (fun name => layerGroups w' !! name = Some [])
         WorldMap.layerNames
    /\ (forall k, k ∉ WorldMap.layerNames ->
          layerGroups w' !! k = layerGroups w !! k)
    /\ (onMap w = [] -> onMap w' = default_layers)
    /\ listeners w'
       = listeners w ++ registrations w WorldMap.toggle_mapping
    /\ dom w' = dom w
    /\ requests w' = requests w
    /\ timers w' = timers w
    /\ console w' = console w.
Proof.
  destruct (WorldMap_init_eq w) as (g & o & Hrun & Hin & Hout & Ho).
  eexists. split; [exact Hrun|].
  split; [apply Forall_forall; intros n Hn; exact (Hin n Hn)|].
  split; [exact Hout|]. split; [exact Ho|].
  repeat split; reflexivity.
Qed.

(** X3.  [setupLayerToggles] never throws: it registers one [change]
    listener for each of the nine layer checkboxes that the page has,
    in the order of the mapping, skips the checkboxes that are missing,
    and changes nothing else. *)
Theorem X3_layer_toggles_registered `{Platform} (w : world) :
  WorldMap.setupLayerToggles w
  = (Ok tt,
     with_listeners (listeners w ++ registrations w WorldMap.toggle_mapping) w)
  /\ (forall c n,
        (c, "change", CbLayerToggle c n)
          ∈ registrations w WorldMap.toggle_mapping
        <-> (c, n) ∈ WorldMap.toggle_mapping /\ has c w)
  /\ length (registrations w WorldMap.toggle_mapping) <= 9.
Proof.
  split; [apply setupLayerToggles_eq|]. split.
  - intros c n. apply elem_of_registrations.
  - unfold registrations. rewrite length_map.
    etransitivity; [apply List.filter_length_le|]. reflexivity.
Qed.

(** X4.  Checking the box of a layer whose group exists puts the group
    on the map and keeps the groups that were there.  The listener
    returns, unless the group was off the map and holds a layer without
    a position: then adding the group to the map throws.  The data of
    the layer is requested only when the group is empty, and then with
    the one URL of the layer, if it has one; no element changes. *)
Theorem X4_layer_checked `{Platform} (c name : string) (w : world)
    (e : element) (ls : list layer) :
  name ∈ WorldMap.layerNames ->
  dom w !! c = Some e ->
  checked e = true ->
  layerGroups w !! name = Some ls ->
  exists w',
    WorldMap.onLayerToggle c name w
    = (if shown name w || negb (existsb WorldMap.unplaceable ls) then Ok tt
       else Throw WorldMap.null_position_error, w')
    /\ (forall n, n ∈ onMap w' <-> n ∈ onMap w \/ n = name)
    /\ requests w'
       = requests w ++ (if (length ls =? 0)%nat then layer_requests name
                        else [])
    /\ (ls <> [] -> layerGroups w' = layerGroups w)
    /\ dom w' = dom w
    /\ console w' = console w.
Proof.
  intros _ He Hc Hls. unfold WorldMap.onLayerToggle.
  erewrite bind_run by (apply read_run, He). rewrite Hc.
  pose proof (addTo_map_outcome name ls w Hls) as Hadd.
  set (o := if bool_decide (name ∈ onMap w) then onMap w
            else onMap w ++ [name]) in *.
  destruct (shown name w || negb (existsb WorldMap.unplaceable ls)) eqn:Hres.
  - erewrite bind_run by exact Hadd.
    erewrite bind_run; cycle 1.
    { unfold WorldMap.getLayers, mbind, M_bind, bind, gets, ret.
      cbn [layerGroups with_onMap]. rewrite Hls. reflexivity. }
    destruct ls as [|y ls]; cbn [length Nat.eqb].
    + destruct (loadLayerData_state name (with_onMap o w))
        as (g & Hrun & _ & _ & _).
      rewrite Hrun. eexists. split; [reflexivity|].
      split; [intros n; apply elem_of_added|].
      repeat split. intros Hne. contradiction.
    + eexists. split; [reflexivity|].
      split; [intros n; apply elem_of_added|].
      repeat split. cbn. rewrite app_nil_r. reflexivity.
  - erewrite bind_throw by exact Hadd.
    eexists. split; [reflexivity|].
    split; [intros n; apply elem_of_added|].
    destruct ls as [|y ls]; [rewrite orb_true_r in Hres; discriminate|].
    repeat split. cbn. rewrite app_nil_r. reflexivity.
Qed.

(** X5.  Unchecking the box of a layer takes its group off the map and
    nothing else: the layers of the group are kept, so that checking the
    box again shows them without a request; the other groups stay on the
    map and no request is issued. *)
Theorem X5_layer_unchecked `{Platform} (c name : string) (w : world)
    (e : element) :
  name ∈ WorldMap.layerNames ->
  is_Some (layerGroups w !! name) ->
  dom w !! c = Some e ->
  checked e = false ->
  exists w',
    WorldMap.onLayerToggle c name w = (Ok tt, w')
    /\ (name ∉ onMap w')
    /\ (forall n, n <> name -> n ∈ onMap w' <-> n ∈ onMap w)
    /\ layerGroups w' = layerGroups w
    /\ requests w' = requests w
    /\ dom w' = dom w.
Proof.
  intros _ _ He Hc. unfold WorldMap.onLayerToggle.
  erewrite bind_run by (apply read_run, He). rewrite Hc.
  eexists. split; [reflexivity|]. cbn [onMap with_onMap].
  split.
  { intros Hin. apply list_elem_of_In, List.filter_In in Hin as [_ Hn].
    rewrite String.eqb_refl in Hn. discriminate. }
  split.
  { intros n Hne. rewrite !list_elem_of_In, List.filter_In.
    destruct (String.eqb_spec n name); [contradiction|]. cbn. tauto. }
  repeat split.
Qed.

(** X6.  [loadLayerData], called with the name of a layer, never
    throws.  It issues the one request of the layer, and none for the
    earthquake, conflict and hotspot layers, which have no URL here; it
    changes nothing but the request log and the group of that name.
    When the request fails or its body is not JSON, no group changes and
    no [console.error] line is written: the rejection is dropped. *)
Theorem X6_layer_data_requests `{Platform} (name : string) (w : world) :
  name ∈ WorldMap.layerNames ->
  exists g,
    WorldMap.loadLayerData name w
    = (Ok tt,
       with_layerGroups g
         (with_requests (requests w ++ layer_requests name) w))
    /\ (forall k, k <> name -> g !! k = layerGroups w !! k)
    /\ (layer_failed name (net w) = true -> g = layerGroups w)
    /\ length (layer_requests name) <= 1
    /\ (layer_requests name = [] <-> name ∈ default_layers).
Proof.
  intros Hname.
  destruct (loadLayerData_state name w) as (g & Hrun & Hk & Hf & _).
  exists g. split; [exact Hrun|]. split; [exact Hk|]. split; [exact Hf|].
  apply list_elem_of_In in Hname. unfold WorldMap.layerNames in Hname.
  cbn [In] in Hname. unfold default_layers.
  repeat (destruct Hname as [<-|Hname];
    [split; [vm_compute; lia|]; rewrite list_elem_of_In; split; intros Hx;
       first [discriminate Hx | reflexivity | cbn; tauto
             | cbn in Hx; exfalso; intuition discriminate]|]).
  contradiction.
Qed.

(** X7.  Once the request of [loadLayerData] is settled, the group of
    the layer holds what the reply draws, and what it held before when
    the request failed or the body is not JSON.  An array draws the
    layers of its records, in order: all of them when each has a
    position; else those before the first record for which the
    constructor throws or, with the group on the map, up to and
    including the first layer without a position, at which [addLayer]
    throws.  A JSON body of another kind draws nothing.  So checking the
    box of an empty layer shows what the reply draws with the group on
    the map. *)
Theorem X7_layer_data_drawn `{Platform} (c name : string) (w : world)
    (e : element) :
  name ∈ WorldMap.layerNames ->
  is_Some (layerGroups w !! name) ->
  layerGroups (exec (WorldMap.loadLayerData name) w) !! name
  = match layer_drawn name (shown name w) (net w) with
    | Some ls => Some ls
    | None => layerGroups w !! name
    end
  /\ (dom w !! c = Some e -> checked e = true ->
      layerGroups w !! name = Some [] ->
      exists w',
        WorldMap.onLayerToggle c name w = (Ok tt, w')
        /\ name ∈ onMap w'
        /\ layerGroups w' !! name
           = Some (default [] (layer_drawn name true (net w))))
  /\ (forall (A : Type) (candidates : list A -> list layer) (l : list A)
        (on_map : bool),
        (exists n,
           drawn on_map candidates (Json (PArray l))
           = Some (take n (candidates l)))
        /\ (Forall (fun ly => WorldMap.unplaceable ly = false)
              (candidates l) ->
            drawn on_map candidates (Json (PArray l))
            = Some (candidates l))
        /\ (forall ly rest,
              candidates l = ly :: rest ->
              WorldMap.throws_on_construction ly = true ->
              drawn on_map candidates (Json (PArray l)) = Some [])
        /\ (forall ly rest,
              candidates l = ly :: rest ->
              WorldMap.throws_on_construction ly = false ->
              WorldMap.unplaceable ly = true ->
              drawn true candidates (Json (PArray l)) = Some [ly])).
Proof.
  intros _ Hg. split; [|split].
  - destruct (loadLayerData_state name w) as (g & Hrun & _ & _ & Hd).
    unfold exec. rewrite Hrun. exact (Hd Hg).
  - intros He Hc Hls. unfold WorldMap.onLayerToggle.
    erewrite bind_run by (apply read_run, He). rewrite Hc.
    erewrite bind_run by (apply addTo_map_eq, Hls).
    set (o := if bool_decide (name ∈ onMap w) then onMap w
              else onMap w ++ [name]).
    erewrite bind_run; cycle 1.
    { unfold WorldMap.getLayers, mbind, M_bind, bind, gets, ret.
      cbn [layerGroups with_onMap]. rewrite Hls. reflexivity. }
    cbn [length Nat.eqb].
    destruct (loadLayerData_state name (with_onMap o w))
      as (g & Hrun & _ & _ & Hd).
    assert (Hshown : shown name (with_onMap o w) = true).
    { unfold shown. cbn [onMap with_onMap]. apply bool_decide_eq_true.
      apply elem_of_added. right. reflexivity. }
    rewrite Hshown in Hd.
    rewrite Hrun. eexists. split; [reflexivity|]. split.
    + cbn [onMap with_layerGroups with_requests with_onMap].
      apply elem_of_added. right. reflexivity.
    + cbn [layerGroups with_layerGroups]. rewrite Hd by exact Hg.
      cbn [net with_onMap layerGroups]. rewrite Hls.
      destruct (layer_drawn name true (net w)); reflexivity.
  - intros A candidates l on_map. unfold drawn.
    split; [|split; [|split]].
    + destruct (placed_prefix on_map (candidates l)) as [n Hn].
      exists n. rewrite Hn. reflexivity.
    + intros Hall. rewrite (placed_all _ _ Hall). reflexivity.
    + intros ly rest -> Hthrows. cbn [placed]. rewrite Hthrows. reflexivity.
    + intros ly rest -> Hc Hu. cbn [placed]. rewrite Hc, Hu. reflexivity.
Qed.

(** ** More of dashboard.js *)

Section DashboardExtras.
Context `{Platform}.

Lemma update_throw (sel : string) (f : element -> element) (w : world) :
  dom w !! sel = None -> update sel f w = (Throw (null_access sel), w).
Proof.
  intros Hsel. unfold update, mbind, M_bind, bind, gets, throw.
  rewrite Hsel. reflexivity.
Qed.

Lemma read_throw {A} (sel : string) (prop : element -> A) (w : world) :
  dom w !! sel = None -> read sel prop w = (Throw (null_access sel), w).
Proof.
  intros Hsel. unfold read, mbind, M_bind, bind, gets, throw.
  rewrite Hsel. reflexivity.
Qed.

Lemma not_has (sel : string) (w : world) : ~ has sel w -> dom w !! sel = None.
Proof.
  unfold has. destruct (dom w !! sel); [intros Hn; destruct Hn; eauto|auto].
Qed.

(** A quiet computation that throws: the state it leaves. *)
Lemma quiet_throws {A} (m : M A) (e : error) (w : world) :
  quiet m -> eval m w = Throw e ->
  exists w', m w = (Throw e, w') /\ frame w w' /\ requests w' = requests w.
Proof.
  intros Hq He. exists (exec m w). rewrite (run_eq m w), He.
  destruct (Hq w) as [Hf Hr]. auto.
Qed.

Lemma append_assoc (a b c : string) : (a +:+ b) +:+ c = a +:+ (b +:+ c).
Proof.
  induction a as [|x a IH]; [reflexivity|].
  change (String x ((a +:+ b) +:+ c) = String x (a +:+ (b +:+ c))).
  f_equal. exact IH.
Qed.

Lemma substring_app (d s : string) (n : nat) :
  String.substring 0 (String.length d + n) (d +:+ s)
  = d +:+ String.substring 0 n s.
Proof.
  induction d as [|c d IH]; [reflexivity|].
  change (String c (String.substring 0 (String.length d + n) (d +:+ s))
          = String c (d +:+ String.substring 0 n s)).
  f_equal. exact IH.
Qed.

Lemma replace_T_app (d t : string) :
  Forall (fun c => c <> "T"%char) (list_ascii_of_string d) ->
  Dashboard.replace_T (d +:+ String "T"%char t) = d +:+ String " "%char t.
Proof.
  induction d as [|c d IH]; intros Hd.
  - reflexivity.
  - cbn [list_ascii_of_string] in Hd. apply Forall_cons in Hd as [Hc Hd].
    change (Dashboard.replace_T (String c (d +:+ String "T"%char t))
            = String c (d +:+ String " "%char t)).
    cbn [Dashboard.replace_T].
    destruct (Ascii.eqb_spec c "T"%char) as [->|_]; [contradiction|].
    f_equal. exact (IH Hd).
Qed.

Lemma setupClock_run (w : world) :
  has "clock" w ->
  exists w',
    Dashboard.setupClock w = (Ok tt, w')
    /\ timers w' = timers w ++ [(CbClockUpdate, 1000%Z)]
    /\ requests w' = requests w
    /\ (forall sel, has sel w' <-> has sel w).
Proof.
  intros Hc. unfold Dashboard.setupClock.
  destruct (quiet_run _ _ _ quiet_clock_update (clock_update_ok w Hc))
    as (w1 & Hrun & Hf & Hr).
  erewrite bind_run by exact Hrun.
  eexists. split; [reflexivity|]. cbn [timers with_timers requests].
  destruct Hf as (Hhas & _ & -> & _). auto.
Qed.

Lemma setupClock_throw (w : world) :
  ~ has "clock" w ->
  Dashboard.setupClock w = (Throw (null_access "clock"), w).
Proof.
  intros Hc. unfold Dashboard.setupClock. apply bind_throw.
  unfold Dashboard.clock_update. erewrite bind_run by reflexivity.
  apply update_throw, not_has, Hc.
Qed.

Lemma addEventListener_run (sel ev : string) (cb : callback) (w : world)
    (e : element) :
  dom w !! sel = Some e ->
  addEventListener sel ev cb w
  = (Ok tt, with_listeners (listeners w ++ [(sel, ev, cb)]) w).
Proof.
  intros He. unfold addEventListener.
  erewrite bind_run by (apply read_run, He). reflexivity.
Qed.

Lemma addEventListener_throw (sel ev : string) (cb : callback) (w : world) :
  dom w !! sel = None ->
  addEventListener sel ev cb w = (Throw (null_access sel), w).
Proof.
  intros He. unfold addEventListener. apply bind_throw, read_throw, He.
Qed.

Lemma setupButtons_throws (w : world) :
  ~ (has "btn-refresh" w /\ has "btn-alerts" w /\ has "btn-layers" w
     /\ has "news-source-filter" w) ->
  exists e, eval Dashboard.setupButtons w = Throw e.
Proof.
  intros Hn. unfold Dashboard.setupButtons, eval.
  destruct (dom w !! "btn-refresh") as [e1|] eqn:H1; cycle 1.
  { eexists. erewrite bind_throw by (apply addEventListener_throw, H1).
    reflexivity. }
  erewrite bind_run by (eapply addEventListener_run; exact H1).
  destruct (dom w !! "btn-alerts") as [e2|] eqn:H2; cycle 1.
  { eexists. erewrite bind_throw by (apply addEventListener_throw, H2).
    reflexivity. }
  erewrite bind_run by (eapply addEventListener_run; exact H2).
  destruct (dom w !! "btn-layers") as [e3|] eqn:H3; cycle 1.
  { eexists. erewrite bind_throw by (apply addEventListener_throw, H3).
    reflexivity. }
  erewrite bind_run by (eapply addEventListener_run; exact H3).
  destruct (dom w !! "news-source-filter") as [e4|] eqn:H4; cycle 1.
  { eexists. rewrite addEventListener_throw by exact H4. reflexivity. }
  exfalso. apply Hn. unfold has. rewrite H1, H2, H3, H4. eauto.
Qed.

End DashboardExtras.

(** X8.  [formatTime] gives the empty string for an empty date and
    'NaNd ago' for a string that is not a date.  Otherwise the age
    decides, in milliseconds: 'Just now' below one minute, also for a
    date in the future; whole minutes from 1 to 59 below one hour; whole
    hours from 1 to 23 below one day; whole days from then on. *)
Theorem X8_formatTime_bands `{Platform} (now_ms date : Z) (iso : string) :
  Dashboard.formatTime now_ms "" = ""
  /\ (iso <> "" -> Date_parse iso = None ->
      Dashboard.formatTime now_ms iso = "NaNd ago")
  /\ (iso <> "" -> Date_parse iso = Some date ->
      let age := (now_ms - date)%Z in
      ((age < 60000)%Z -> Dashboard.formatTime now_ms iso = "Just now")
      /\ ((60000 <= age < 3600000)%Z ->
          Dashboard.formatTime now_ms iso
          = Dashboard.int_to_string (age / 60000) +:+ "m ago"
          /\ (1 <= age / 60000 < 60)%Z)
      /\ ((3600000 <= age < 86400000)%Z ->
          Dashboard.formatTime now_ms iso
          = Dashboard.int_to_string (age / 3600000) +:+ "h ago"
          /\ (1 <= age / 3600000 < 24)%Z)
      /\ ((86400000 <= age)%Z ->
          Dashboard.formatTime now_ms iso
          = Dashboard.int_to_string (age / 86400000) +:+ "d ago"
          /\ (1 <= age / 86400000)%Z)).
Proof.
  split; [reflexivity|]. split.
  - intros Hne Hp. unfold Dashboard.formatTime.
    destruct (String.eqb_spec iso ""); [contradiction|]. rewrite Hp.
    reflexivity.
  - intros Hne Hp age. unfold Dashboard.formatTime.
    destruct (String.eqb_spec iso ""); [contradiction|]. rewrite Hp.
    fold age. cbv zeta.
    assert (Hhr : (age / 60000 / 60 = age / 3600000)%Z)
      by (rewrite Z.div_div by lia; reflexivity).
    assert (Hday : (age / 60000 / 60 / 24 = age / 86400000)%Z)
      by (rewrite !Z.div_div by lia; reflexivity).
    rewrite Hday, Hhr.
    assert (Hm1 : (age / 60000 < 1 <-> age < 60000)%Z).
    { split; intros Hlt.
      - apply Z.nle_gt. intros Hge.
        assert (1 <= age / 60000)%Z by (apply Z.div_le_lower_bound; lia). lia.
      - apply Z.div_lt_upper_bound; lia. }
    assert (Hm60 : (age / 60000 < 60 <-> age < 3600000)%Z).
    { split; intros Hlt.
      - apply Z.nle_gt. intros Hge.
        assert (60 <= age / 60000)%Z by (apply Z.div_le_lower_bound; lia). lia.
      - apply Z.div_lt_upper_bound; lia. }
    assert (Hh24 : (age / 3600000 < 24 <-> age < 86400000)%Z).
    { split; intros Hlt.
      - apply Z.nle_gt. intros Hge.
        assert (24 <= age / 3600000)%Z by (apply Z.div_le_lower_bound; lia).
        lia.
      - apply Z.div_lt_upper_bound; lia. }
    destruct (Z.ltb_spec (age / 60000) 1) as [H1|H1];
    destruct (Z.ltb_spec (age / 60000) 60) as [H60|H60];
    destruct (Z.ltb_spec (age / 3600000) 24) as [H24|H24].
    all: repeat match goal with |- _ /\ _ => split end.
    all: intros Hage; try reflexivity; try lia.
    all: try (split; [reflexivity|]).
    all: try (apply Z.div_le_lower_bound; lia).
    all: try (split; [apply Z.div_le_lower_bound; lia
                     |apply Z.div_lt_upper_bound; lia]).
Qed.

(** X9.  When the ISO form of the time is a date of ten characters, a
    ['T'] and a time, the clock shows the date, a space, the first eight
    characters of the time and ' UTC': the first ['T'] is replaced and
    the fraction of the second and the zone letter are cut.  No other
    element changes. *)
Theorem X9_clock_text `{Platform} (w : world) (e : element) (d t : string) :
  dom w !! "clock" = Some e ->
  Date_toISOString (now w) = d +:+ String "T"%char t ->
  String.length d = 10 ->
  Forall (fun c => c <> "T"%char) (list_ascii_of_string d) ->
  exists w',
    Dashboard.clock_update w = (Ok tt, w')
    /\ text_of "clock" w'
       = Some (d +:+ " " +:+ String.substring 0 8 t +:+ " UTC")
    /\ (forall sel, sel <> "clock" -> dom w' !! sel = dom w !! sel)
    /\ timers w' = timers w.
Proof.
  intros He Hiso Hlen HnoT. unfold Dashboard.clock_update.
  erewrite bind_run by reflexivity. cbv zeta.
  unfold set_textContent. rewrite (update_run _ _ _ _ He).
  eexists. split; [reflexivity|]. split; [|split; [|reflexivity]].
  - unfold text_of. cbn [dom with_dom]. rewrite lookup_insert_eq.
    cbn [fmap option_fmap option_map textContent set_textContent_of].
    rewrite Hiso, (replace_T_app _ _ HnoT).
    change 19 with (10 + 9). rewrite <- Hlen, substring_app.
    cbn [String.substring]. rewrite append_assoc. reflexivity.
  - intros sel Hsel. cbn [dom with_dom]. apply lookup_insert_ne. congruence.
Qed.

(** X10.  [setupClock] writes the clock once, with the first 19
    characters of the ISO form of the current time, its first ['T']
    replaced by a space, followed by ' UTC', and registers the timer
    that runs the same update every second; no other element changes
    and no request is issued.  On a page without the clock element it
    throws before the timer is registered and leaves the state as it
    was. *)
Theorem X10_setupClock `{Platform} (w : world) :
  (has "clock" w ->
   exists w',
     Dashboard.setupClock w = (Ok tt, w')
     /\ text_of "clock" w'
        = Some (String.substring 0 19
                  (Dashboard.replace_T (Date_toISOString (now w)))
                +:+ " UTC")
     /\ (forall sel, sel <> "clock" -> dom w' !! sel = dom w !! sel)
     /\ timers w' = timers w ++ [(CbClockUpdate, 1000%Z)]
     /\ Dashboard.run_callback CbClockUpdate = Dashboard.clock_update
     /\ requests w' = requests w)
  /\ (~ has "clock" w ->
      Dashboard.setupClock w = (Throw (null_access "clock"), w)).
Proof.
  split.
  - intros [e He]. unfold Dashboard.setupClock, Dashboard.clock_update.
    erewrite bind_run; cycle 1.
    { erewrite bind_run by reflexivity. cbv zeta.
      unfold set_textContent. apply update_run, He. }
    eexists. split; [reflexivity|].
    cbn [timers with_timers requests dom with_dom now].
    split.
    { unfold text_of. cbn [dom with_dom with_timers].
      rewrite lookup_insert_eq. reflexivity. }
    split.
    { intros sel Hsel. apply lookup_insert_ne. congruence. }
    repeat split.
  - apply setupClock_throw.
Qed.

(** X11.  Once the Leaflet map is created, on a page that lacks one of
    the elements [Dashboard.init] looks up (the clock, the status text,
    a button or the source filter), [init] throws: no request has been
    issued by then and the refresh timer is never registered.  Only the
    clock timer is, when the clock exists. *)
Theorem X11_init_incomplete_page `{Platform} (w : world) :
  ~ page_ready w ->
  exists e w',
    Dashboard.init w = (Throw e, w')
    /\ requests w' = requests w
    /\ timers w'
       = timers w ++ (if bool_decide (has "clock" w)
                      then [(CbClockUpdate, 1000%Z)] else []).
Proof.
  intros Hn. unfold Dashboard.init.
  destruct (quiet_run _ _ _ quiet_WorldMap_init (WorldMap_init_ok w))
    as (w1 & Hrun1 & Hf1 & Hr1).
  erewrite bind_run by exact Hrun1.
  destruct Hf1 as (Hhas1 & _ & Ht1 & _).
  destruct (bool_decide_reflect (has "clock" w)) as [Hc|Hc]; cycle 1.
  { exists (null_access "clock"), w1.
    split; [|split; [exact Hr1|rewrite app_nil_r; exact Ht1]].
    apply bind_throw, setupClock_throw. rewrite Hhas1. exact Hc. }
  destruct (setupClock_run w1) as (w2 & Hrun2 & Ht2 & Hr2 & Hhas2);
    [rewrite Hhas1; exact Hc|].
  erewrite bind_run by exact Hrun2.
  destruct (quiet_run _ _ _ quiet_setupTabs (setupTabs_ok w2))
    as (w3 & Hrun3 & Hf3 & Hr3).
  erewrite bind_run by exact Hrun3.
  destruct Hf3 as (Hhas3 & _ & Ht3 & _).
  assert (Hall : forall sel, has sel w3 <-> has sel w).
  { intros sel. rewrite Hhas3, Hhas2, Hhas1. reflexivity. }
  destruct (decide (has "btn-refresh" w3 /\ has "btn-alerts" w3
                    /\ has "btn-layers" w3 /\ has "news-source-filter" w3))
    as [(Hb1 & Hb2 & Hb3 & Hb4)|Hb].
  - destruct (quiet_run _ _ _ quiet_setupButtons
                (setupButtons_ok w3 Hb1 Hb2 Hb3 Hb4))
      as (w4 & Hrun4 & Hf4 & Hr4).
    erewrite bind_run by exact Hrun4.
    destruct Hf4 as (Hhas4 & _ & Ht4 & _).
    assert (Hst : ~ has "status-text" w4).
    { rewrite Hhas4, Hall. intros Hst. apply Hn.
      rewrite !Hall in *. unfold page_ready, refresh_ready. tauto. }
    exists (null_access "status-text"), w4. split.
    + apply bind_throw. unfold Dashboard.loadAllData. apply bind_throw.
      apply update_throw, not_has, Hst.
    + split; [congruence|]. rewrite Ht4, Ht3, Ht2, Ht1. reflexivity.
  - destruct (setupButtons_throws w3 Hb) as [e He].
    destruct (quiet_throws _ _ _ quiet_setupButtons He)
      as (w4 & Hrun4 & Hf4 & Hr4).
    destruct Hf4 as (_ & _ & Ht4 & _).
    exists e, w4. split.
    + apply (bind_throw Dashboard.setupButtons). exact Hrun4.
    + split; [congruence|]. rewrite Ht4, Ht3, Ht2, Ht1. reflexivity.
Qed.

(** ** The loaders, by what the network answers *)

Section LoaderCases.
Context `{Platform}.

Lemma then_ok {A B} (a : A) (f : A -> M B) (w w' : world) (b : B) :
  f a w = (Ok b, w') -> then_ (Fulfilled a) f w = (Ok (Fulfilled b), w').
Proof. intros Hf. cbn [then_]. rewrite Hf. reflexivity. Qed.

Lemma then_throw {A B} (a : A) (f : A -> M B) (w w' : world) (e : error) :
  f a w = (Throw e, w') -> then_ (Fulfilled a) f w = (Ok (Rejected e), w').
Proof. intros Hf. cbn [then_]. rewrite Hf. reflexivity. Qed.

Lemma catch_ok {A} (e : error) (h : error -> M A) (w w' : world) (a : A) :
  h e w = (Ok a, w') -> catch_ (Rejected e) h w = (Ok (Fulfilled a), w').
Proof. intros Hh. cbn [catch_]. rewrite Hh. reflexivity. Qed.

(** A [fetch] chain with a [then] and a [catch] handler, by the cases of
    the reply. *)
Lemma chain_cases {A} (url : string) (r : network -> reply A)
    (h : payload A -> M unit) (c : error -> M unit) (w : world) :
  (p ← fetch url r; d ← then_json p; s ← then_ d h; catch_ s c) w
  = match r (net w) with
    | NetFail =>
        catch_ (Rejected NetworkError) c
          (with_requests (requests w ++ [url]) w)
    | NotJson =>
        catch_ (Rejected SyntaxError) c
          (with_requests (requests w ++ [url]) w)
    | Json d =>
        match h d (with_requests (requests w ++ [url]) w) with
        | (Ok u, w1) => (Ok (Fulfilled u), w1)
        | (Throw e, w1) => catch_ (Rejected e) c w1
        end
    end.
Proof.
  erewrite bind_run by apply fetch_run.
  destruct (r (net w)) as [| |d]; try reflexivity.
  unfold mbind, M_bind, bind, then_json, json, ret, then_.
  destruct (h d _) as [[u|e] w1]; reflexivity.
Qed.

(** The [catch] handler of a panel: a console line and a placeholder. *)
Lemma panel_catch_run (line sel : string) (h : list Html.node) (w : world)
    (e : element) :
  dom w !! sel = Some e ->
  (console_error line ;; set_innerHTML sel h) w
  = (Ok tt,
     with_dom (<[sel := set_innerHTML_of h e]> (dom w))
       (with_console (console w ++ [line]) w)).
Proof.
  intros He. erewrite bind_run by reflexivity.
  unfold set_innerHTML. erewrite update_run by exact He. reflexivity.
Qed.

Lemma set_textContent_value_run (sel : string) (v : Js.value) (w : world)
    (e : element) :
  dom w !! sel = Some e ->
  Dashboard.set_textContent_value sel v w
  = (Ok tt,
     with_dom (<[sel := set_textContent_of
                          (if Js.absent v then "" else to_display v) e]>
                 (dom w)) w).
Proof.
  intros He. unfold Dashboard.set_textContent_value, set_textContent.
  apply update_run, He.
Qed.

(** The end of [loadAllData] after six fulfilled promises. *)
Lemma settle_fulfilled (w : world) (e : element) :
  dom w !! "status-text" = Some e ->
  exists w',
    (r ← then_ (Fulfilled tt) (fun _ =>
           Dashboard.updateStatus "Live" ;;
           Dashboard.class_update ".dot" (Dashboard.add_class "connected"));
     _ ← catch_ r (fun _ => Dashboard.updateStatus "Error");
     ret tt) w = (Ok tt, w')
    /\ text_of "status-text" w'
       = Some (if bool_decide (has ".dot" w) then "Live" else "Error")
    /\ (has ".dot" w ->
        exists cs, classes_of ".dot" w' = Some cs /\ "connected" ∈ cs)
    /\ requests w' = requests w.
Proof.
  intros He.
  set (w1 := with_dom (<["status-text" := set_textContent_of "Live" e]> (dom w))
               w).
  assert (Hlive : Dashboard.updateStatus "Live" w = (Ok tt, w1)).
  { unfold Dashboard.updateStatus, set_textContent. apply update_run, He. }
  assert (Hdot : dom w1 !! ".dot" = dom w !! ".dot").
  { unfold w1. cbn [dom with_dom]. apply lookup_insert_ne. discriminate. }
  assert (Hcase : (exists ed, dom w !! ".dot" = Some ed)
                  \/ dom w !! ".dot" = None)
    by (destruct (dom w !! ".dot"); eauto).
  destruct Hcase as [[ed Hd]|Hd]; rewrite Hd in Hdot.
  - eexists. split.
    { erewrite bind_run; cycle 1.
      { apply then_ok. erewrite bind_run by exact Hlive.
        unfold Dashboard.class_update. apply update_run. exact Hdot. }
      erewrite bind_run by reflexivity. reflexivity. }
    rewrite bool_decide_true by (unfold has; rewrite Hd; eauto).
    split; [|split; [|reflexivity]].
    + unfold text_of, w1. cbn [dom with_dom].
      rewrite lookup_insert_ne by discriminate. rewrite lookup_insert_eq.
      reflexivity.
    + intros _. eexists. split.
      * unfold classes_of. cbn [dom with_dom]. rewrite lookup_insert_eq.
        reflexivity.
      * cbn [classList set_classList_of]. unfold Dashboard.add_class.
        destruct (bool_decide_reflect ("connected" ∈ classList ed)) as [Hin|_];
          [exact Hin|].
        apply elem_of_app. right. apply list_elem_of_singleton. reflexivity.
  - eexists. split.
    { erewrite bind_run; cycle 1.
      { apply then_throw. erewrite bind_run by exact Hlive.
        unfold Dashboard.class_update. apply update_throw. exact Hdot. }
      erewrite bind_run; cycle 1.
      { apply catch_ok. unfold Dashboard.updateStatus, set_textContent.
        apply update_run. unfold w1. cbn [dom with_dom].
        apply lookup_insert_eq. }
      reflexivity. }
    rewrite bool_decide_false by (unfold has; rewrite Hd; intros [? [=]]).
    split; [|split; [|reflexivity]].
    + unfold text_of. cbn [dom with_dom]. rewrite lookup_insert_eq.
      reflexivity.
    + intros [x Hx]. unfold has in Hx. congruence.
Qed.

Lemma eval_run {A} (m : M A) (w w' : world) (r : result A) :
  m w = (r, w') -> eval m w = r.
Proof. intros Hm. unfold eval. rewrite Hm. reflexivity. Qed.

(** [loadNews] by the cases of the reply. *)
Lemma loadNews_cases (w : world) (ef : element) :
  dom w !! "news-source-filter" = Some ef ->
  Dashboard.loadNews w
  = match net_news (net w)
            (Dashboard.news_url (current_source w) (alertsOnly w)) with
    | Json d =>
        match Dashboard.onNews d
                (with_requests
                   (requests w
                    ++ [Dashboard.news_url (current_source w) (alertsOnly w)])
                   w) with
        | (Ok u, w1) => (Ok (Fulfilled u), w1)
        | (Throw e, w1) =>
            catch_ (Rejected e) (fun err =>
              console_error "News fetch failed:" ;;
              set_innerHTML "news-list" (Html.loading "Failed to load news"))
              w1
        end
    | NetFail =>
        catch_ (Rejected NetworkError) (fun err =>
          console_error "News fetch failed:" ;;
          set_innerHTML "news-list" (Html.loading "Failed to load news"))
          (with_requests
             (requests w
              ++ [Dashboard.news_url (current_source w) (alertsOnly w)]) w)
    | NotJson =>
        catch_ (Rejected SyntaxError) (fun err =>
          console_error "News fetch failed:" ;;
          set_innerHTML "news-list" (Html.loading "Failed to load news"))
          (with_requests
             (requests w
              ++ [Dashboard.news_url (current_source w) (alertsOnly w)]) w)
    end.
Proof.
  intros He. unfold Dashboard.loadNews.
  erewrite bind_run by (apply read_run, He).
  erewrite bind_run by reflexivity.
  rewrite (current_source_eq w ef He).
  rewrite chain_cases. reflexivity.
Qed.

Lemma renderAlerts_throw (l : list NewsItem) (w : world) :
  dom w !! "alerts-list" = None ->
  Dashboard.renderAlerts l w = (Throw (null_access "alerts-list"), w).
Proof.
  intros Hn. unfold Dashboard.renderAlerts, set_innerHTML.
  destruct (length l =? 0)%nat; [apply update_throw, Hn|].
  erewrite bind_run by reflexivity. apply update_throw, Hn.
Qed.

Lemma renderAlerts_ok (l : list NewsItem) (w : world) :
  has "alerts-list" w -> eval (Dashboard.renderAlerts l) w = Ok tt.
Proof.
  intros [e He]. eapply eval_run, renderAlerts_run, He.
Qed.

Lemma quiet_renderAlerts (l : list NewsItem) : quiet (Dashboard.renderAlerts l).
Proof. unfold Dashboard.renderAlerts, set_innerHTML. quiet. Qed.

Lemma quiet_renderTicker (l : list NewsItem) : quiet (Dashboard.renderTicker l).
Proof. unfold Dashboard.renderTicker, set_innerHTML. quiet. Qed.

(** The [then] handler of [loadNews] throws when an element it writes
    after the news panel is missing. *)
Lemma onNews_throws (l : list NewsItem) (w : world) :
  has "news-list" w ->
  has "news-source-filter" w ->
  ~ news_panels w ->
  exists err, eval (Dashboard.onNews (PArray l)) w = Throw err.
Proof.
  intros [en Hen] Hsf Hn. unfold Dashboard.onNews, eval.
  destruct (quiet_run _ _ _ (quiet_renderNews (PArray l))
              (eval_run _ _ _ _ (renderNews_run l w en Hen)))
    as (w1 & Hrun1 & Hf1 & _).
  erewrite bind_run by exact Hrun1.
  destruct Hf1 as (Hhas1 & _).
  destruct (decide (has "alerts-list" w)) as [Hal|Hal]; cycle 1.
  { eexists. erewrite bind_throw; [reflexivity|].
    apply renderAlerts_throw, not_has. rewrite Hhas1. exact Hal. }
  destruct (quiet_run _ _ _ (quiet_renderAlerts (List.filter is_alert l))
              (renderAlerts_ok _ w1 (proj2 (Hhas1 _) Hal)))
    as (w2 & Hrun2 & Hf2 & _).
  erewrite bind_run by exact Hrun2.
  destruct Hf2 as (Hhas2 & _).
  destruct (decide (has "ticker-content" w)) as [Htc|Htc]; cycle 1.
  { eexists. erewrite bind_throw; [reflexivity|].
    unfold Dashboard.renderTicker, set_innerHTML.
    apply update_throw, not_has. rewrite Hhas2, Hhas1. exact Htc. }
  assert (Htc2 : has "ticker-content" w2) by (rewrite Hhas2, Hhas1; exact Htc).
  destruct (quiet_run _ _ _ (quiet_renderTicker l)
              (update_ok "ticker-content" _ w2 Htc2))
    as (w3 & Hrun3 & Hf3 & _).
  erewrite bind_run by exact Hrun3.
  destruct Hf3 as (Hhas3 & _).
  assert (Hsf3 : has "news-source-filter" w3)
    by (rewrite Hhas3, Hhas2, Hhas1; exact Hsf).
  destruct Hsf3 as [ef3 Hef3].
  destruct (updateSourceFilter_run l w3 ef3 Hef3) as (e' & Hrun4).
  erewrite bind_run by exact Hrun4.
  erewrite bind_run by reflexivity.
  eexists. unfold Dashboard.set_textContent_value, set_textContent.
  rewrite update_throw; [reflexivity|].
  cbn [dom with_dom]. rewrite lookup_insert_ne by discriminate.
  apply not_has. rewrite Hhas3, Hhas2, Hhas1. intros Hsn. apply Hn.
  unfold news_panels. unfold has in *. rewrite Hen. eauto 10.
Qed.

(** One counter of [loadStats]. *)
Lemma stat_count_text {A} (url : string) (r : network -> reply A)
    (sel : string) (w : world) (e : element) :
  dom w !! sel = Some e ->
  exists w',
    Dashboard.stat_count url r sel w = (Ok (Fulfilled tt), w')
    /\ text_of sel w' = Some (stat_text (textContent e) (r (net w)))
    /\ (forall k, k <> sel -> dom w' !! k = dom w !! k)
    /\ console w' = console w
    /\ requests w' = requests w ++ [url]
    /\ net w' = net w.
Proof.
  intros He. unfold Dashboard.stat_count. rewrite chain_cases.
  assert (Hkeep : text_of sel (with_requests (requests w ++ [url]) w)
                  = Some (textContent e)).
  { unfold text_of. cbn [dom with_requests]. rewrite He. reflexivity. }
  assert (Hset : forall v,
    exists w',
      (n ← ret v; Dashboard.set_textContent_value sel n)
        (with_requests (requests w ++ [url]) w) = (Ok tt, w')
      /\ text_of sel w' = Some (if Js.absent v then "" else to_display v)
      /\ (forall k, k <> sel -> dom w' !! k = dom w !! k)
      /\ console w' = console w
      /\ requests w' = requests w ++ [url]
      /\ net w' = net w).
  { intros v. eexists. split.
    { erewrite bind_run by reflexivity.
      apply set_textContent_value_run. exact He. }
    split.
    { unfold text_of. cbn [dom with_dom]. rewrite lookup_insert_eq.
      reflexivity. }
    split; [|repeat split].
    intros k Hk. cbn [dom with_dom with_requests].
    apply lookup_insert_ne. congruence. }
  destruct (r (net w)) as [| |[|len|l]]; cbn [stat_text].
  - eexists. split; [apply catch_ok; reflexivity|]. repeat split. exact Hkeep.
  - eexists. split; [apply catch_ok; reflexivity|]. repeat split. exact Hkeep.
  - cbn [Dashboard.length_of].
    erewrite bind_throw by reflexivity.
    eexists. split; [apply catch_ok; reflexivity|]. repeat split. exact Hkeep.
  - destruct (Hset len) as (w' & Hrun & Ht & Hd & Hc & Hr & Hn).
    cbn [Dashboard.length_of]. rewrite Hrun. eauto 10.
  - destruct (Hset (Js.Num (inject_Z (Z.of_nat (length l)))))
      as (w' & Hrun & Ht & Hd & Hc & Hr & Hn).
    cbn [Dashboard.length_of]. rewrite Hrun. eauto 10.
Qed.

Lemma units_leb_total (a b : list N) :
  Dashboard.units_leb a b = true \/ Dashboard.units_leb b a = true.
Proof.
  revert b. induction a as [|x a IH]; intros [|y b]; cbn; auto.
  destruct (N.ltb_spec x y), (N.ltb_spec y x); auto; lia.
Qed.

Lemma string_le_total : Total Dashboard.string_le.
Proof. intros x y. apply units_leb_total. Qed.

Lemma elem_of_sorted_sources (l : list NewsItem) (s : string) :
  s ∈ Dashboard.sorted_sources l <-> s ∈ map news_source l.
Proof.
  unfold Dashboard.sorted_sources.
  rewrite merge_sort_Permutation. apply elem_of_remove_dups.
Qed.

End LoaderCases.

(** X12.  On a page that has the status text, the source filter and the
    news and GDELT panels, [loadAllData] ends with the status 'Live'
    whatever the network answers, also when every request fails: each
    loader catches its own errors.  The dot gets the class [connected].
    Only when the dot element is missing does the status end as
    'Error'. *)
Theorem X12_status_after_refresh `{Platform} (w : world) :
  refresh_ready w ->
  has "news-list" w ->
  has "gdelt-list" w ->
  exists w',
    Dashboard.loadAllData w = (Ok tt, w')
    /\ text_of "status-text" w'
       = Some (if bool_decide (has ".dot" w) then "Live" else "Error")
    /\ (has ".dot" w ->
        exists cs, classes_of ".dot" w' = Some cs /\ "connected" ∈ cs).
Proof.
  intros [[es Hes] [ef Hef]] Hnl Hgl.
  unfold Dashboard.loadAllData.
  destruct (quiet_run _ _ _ (quiet_updateStatus "Refreshing...")
              (update_ok "status-text" _ w (ex_intro _ es Hes)))
    as (w0 & Hrun0 & Hf0 & _).
  erewrite bind_run by exact Hrun0.
  destruct (loadNews_run w0) as (p1 & w1 & Hrun1 & Hf1 & _ & Hp1);
    [apply (frame_has _ _ _ Hf0); eexists; exact Hef|].
  erewrite bind_run by exact Hrun1.
  rewrite Hp1 by (apply (frame_has _ _ _ Hf0), Hnl).
  destruct (loadEarthquakes_run w1) as (w2 & Hrun2 & Hf2 & _).
  erewrite bind_run by exact Hrun2.
  destruct (loadConflictZones_run w2) as (w3 & Hrun3 & Hf3 & _).
  erewrite bind_run by exact Hrun3.
  destruct (loadHotspots_run w3) as (w4 & Hrun4 & Hf4 & _).
  erewrite bind_run by exact Hrun4.
  destruct (loadGdelt_run w4) as (p5 & w5 & Hrun5 & Hf5 & _ & Hp5).
  erewrite bind_run by exact Hrun5.
  assert (Hf04 : frame w w4).
  { exact (frame_trans _ _ _ Hf0 (frame_trans _ _ _ Hf1
             (frame_trans _ _ _ Hf2 (frame_trans _ _ _ Hf3 Hf4)))). }
  rewrite Hp5 by (apply (frame_has _ _ _ Hf04), Hgl).
  destruct (loadStats_run w5) as (w6 & Hrun6 & Hf6 & _).
  erewrite bind_run by exact Hrun6.
  assert (Hf06 : frame w w6).
  { exact (frame_trans _ _ _ Hf04 (frame_trans _ _ _ Hf5 Hf6)). }
  cbn [Promise_all].
  destruct (frame_has "status-text" _ _ Hf06 (ex_intro _ es Hes)) as [es6 Hes6].
  destruct (settle_fulfilled w6 es6 Hes6) as (w7 & Hrun7 & Htext & Hcls & _).
  exists w7. split; [exact Hrun7|].
  destruct Hf06 as (Hhas & _).
  split.
  - rewrite Htext. apply f_equal.
    destruct (bool_decide_reflect (has ".dot" w6)) as [Hd|Hd];
      [rewrite bool_decide_true by (apply Hhas, Hd)
      |rewrite bool_decide_false by (rewrite <- Hhas; exact Hd)];
      reflexivity.
  - intros Hd. apply Hcls, Hhas, Hd.
Qed.

(** X13.  When the body of the news response is JSON but not an array
    (null, an object, a number), the news panel ends with 'Failed to
    load news' and one line is written to the console; also for an
    object without a length, for which [renderNews] first writes 'No
    news available'.  No other element and no layer group changes, and
    the promise is fulfilled. *)
Theorem X13_news_not_an_array `{Platform} (w : world) (e : element)
    (d : payload NewsItem) :
  has "news-source-filter" w ->
  dom w !! "news-list" = Some e ->
  net_news (net w) (Dashboard.news_url (current_source w) (alertsOnly w))
  = Json d ->
  (forall l, d <> PArray l) ->
  exists w',
    Dashboard.loadNews w = (Ok (Fulfilled tt), w')
    /\ markup_of "news-list" w' = Some (Html.loading "Failed to load news")
    /\ console w' = console w ++ ["News fetch failed:"]
    /\ (forall sel, sel <> "news-list" -> dom w' !! sel = dom w !! sel)
    /\ layerGroups w' = layerGroups w.
Proof.
  intros [ef Hef] He Hnet Hd.
  rewrite (loadNews_cases w ef Hef), Hnet.
  set (w0 := with_requests _ w).
  assert (He0 : dom w0 !! "news-list" = Some e) by exact He.
  assert (Hdone : forall (err : error) (e0 : element) (w1 : world),
    dom w1 !! "news-list" = Some e0 ->
    console w1 = console w -> layerGroups w1 = layerGroups w ->
    (forall sel, sel <> "news-list" -> dom w1 !! sel = dom w !! sel) ->
    exists w',
      catch_ (Rejected err) (fun _ =>
        console_error "News fetch failed:" ;;
        set_innerHTML "news-list" (Html.loading "Failed to load news")) w1
      = (Ok (Fulfilled tt), w')
      /\ markup_of "news-list" w' = Some (Html.loading "Failed to load news")
      /\ console w' = console w ++ ["News fetch failed:"]
      /\ (forall sel, sel <> "news-list" -> dom w' !! sel = dom w !! sel)
      /\ layerGroups w' = layerGroups w).
  { intros err e0 w1 He1 Hc1 Hg1 Hd1. eexists. split.
    { apply catch_ok. apply panel_catch_run. exact He1. }
    split; [apply markup_written|].
    split; [cbn [console with_dom with_console]; rewrite Hc1; reflexivity|].
    split; [|exact Hg1].
    intros sel Hsel. cbn [dom with_dom with_console].
    rewrite lookup_insert_ne by congruence. apply Hd1, Hsel. }
  unfold Dashboard.onNews.
  destruct d as [|len|l]; [| |destruct (Hd l); reflexivity].
  - erewrite bind_throw by reflexivity.
    apply (Hdone _ e w0 He0); reflexivity.
  - cbn [Dashboard.renderNews]. destruct (Js.truthy len).
    + erewrite bind_throw by reflexivity.
      apply (Hdone _ e w0 He0); reflexivity.
    + erewrite bind_run by (apply set_innerHTML_run, He0).
      unfold throw.
      eapply Hdone.
      * cbn [dom with_dom]. apply lookup_insert_eq.
      * reflexivity.
      * reflexivity.
      * intros sel Hsel. cbn [dom with_dom]. apply lookup_insert_ne.
        congruence.
Qed.

(** X14.  When the news arrive as an array but an element the handler
    writes after the news panel is missing (the alerts panel, the ticker
    or the news counter), the handler throws after [renderNews] has
    drawn the items, and the [catch] handler overwrites the news panel
    with 'Failed to load news'.  The promise is fulfilled. *)
Theorem X14_news_overwritten `{Platform} (w : world) (e : element)
    (l : list NewsItem) :
  has "news-source-filter" w ->
  dom w !! "news-list" = Some e ->
  net_news (net w) (Dashboard.news_url (current_source w) (alertsOnly w))
  = Json (PArray l) ->
  ~ news_panels w ->
  exists w',
    Dashboard.loadNews w = (Ok (Fulfilled tt), w')
    /\ markup_of "news-list" w' = Some (Html.loading "Failed to load news").
Proof.
  intros Hsf He Hnet Hn. destruct Hsf as [ef Hef].
  rewrite (loadNews_cases w ef Hef), Hnet.
  set (w0 := with_requests _ w).
  destruct (onNews_throws l w0) as [err Herr];
    [eexists; exact He | eexists; exact Hef | exact Hn |].
  destruct (quiet_throws _ _ _ (quiet_onNews (PArray l)) Herr)
    as (w1 & Hrun & Hf & _).
  rewrite Hrun.
  destruct (frame_has "news-list" _ _ Hf (ex_intro _ e He)) as [e1 He1].
  eexists. split.
  - apply catch_ok, panel_catch_run, He1.
  - apply markup_written.
Qed.

(** X15.  [loadGdelt] always returns a fulfilled promise, and what the
    GDELT panel then shows depends on the reply alone: the first 50
    items of an array (a placeholder for an empty one); 'No GDELT data
    available' for a body without a truthy length; 'Failed to load GDELT
    data' for null, for any other body and when the request fails.  The
    panel never holds more than 50 entries, and no other element
    changes. *)
Theorem X15_gdelt_panel `{Platform} (w : world) (e : element) :
  dom w !! "gdelt-list" = Some e ->
  exists w',
    Dashboard.loadGdelt w = (Ok (Fulfilled tt), w')
    /\ markup_of "gdelt-list" w' = Some (gdelt_panel (net_gdelt (net w)))
    /\ length (gdelt_panel (net_gdelt (net w))) <= 50
    /\ (forall l, l <> [] ->
          gdelt_panel (Json (PArray l))
          = map Dashboard.gdeltItemHtml (take 50 l))
    /\ (forall sel, sel <> "gdelt-list" -> dom w' !! sel = dom w !! sel)
    /\ requests w' = requests w ++ ["/api/gdelt"].
Proof.
  intros He. unfold Dashboard.loadGdelt. rewrite chain_cases.
  set (w0 := with_requests _ w).
  assert (He0 : dom w0 !! "gdelt-list" = Some e) by exact He.
  assert (Hlen : length (gdelt_panel (net_gdelt (net w))) <= 50).
  { unfold gdelt_panel, gdelt_markup.
    destruct (net_gdelt (net w)) as [| |[|len|l]]; cbn; try lia.
    - destruct (Js.truthy len); cbn; lia.
    - destruct (length l =? 0)%nat; cbn; [lia|].
      rewrite length_map, length_take. lia. }
  assert (Harr : forall l, l <> [] ->
            gdelt_panel (Json (PArray l))
            = map Dashboard.gdeltItemHtml (take 50 l)).
  { intros [|x l] Hl; [contradiction|reflexivity]. }
  assert (Hfail : forall err,
    exists w',
      catch_ (Rejected err) (fun _ =>
        console_error "GDELT fetch failed:" ;;
        set_innerHTML "gdelt-list"
          (Html.loading "Failed to load GDELT data")) w0
      = (Ok (Fulfilled tt), w')
      /\ markup_of "gdelt-list" w'
         = Some (Html.loading "Failed to load GDELT data")
      /\ (forall sel, sel <> "gdelt-list" -> dom w' !! sel = dom w !! sel)
      /\ requests w' = requests w ++ ["/api/gdelt"]).
  { intros err. eexists. split.
    { apply catch_ok, panel_catch_run, He0. }
    split; [apply markup_written|]. split; [|reflexivity].
    intros sel Hsel. cbn [dom with_dom with_console].
    apply lookup_insert_ne. congruence. }
  assert (Hwrite : forall h,
    exists w',
      set_innerHTML "gdelt-list" h w0 = (Ok tt, w')
      /\ markup_of "gdelt-list" w' = Some h
      /\ (forall sel, sel <> "gdelt-list" -> dom w' !! sel = dom w !! sel)
      /\ requests w' = requests w ++ ["/api/gdelt"]).
  { intros h. eexists. split; [apply set_innerHTML_run, He0|].
    split; [apply markup_written|]. split; [|reflexivity].
    intros sel Hsel. cbn [dom with_dom]. apply lookup_insert_ne. congruence. }
  destruct (net_gdelt (net w)) as [| |[|len|l]]; cbn [gdelt_panel] in *.
  - destruct (Hfail NetworkError) as (w' & Hrun & Hm & Hd & Hr). eauto 10.
  - destruct (Hfail SyntaxError) as (w' & Hrun & Hm & Hd & Hr). eauto 10.
  - cbn [Dashboard.renderGdelt]. unfold throw at 1.
    destruct (Hfail (TypeError "null has no properties: length"))
      as (w' & Hrun & Hm & Hd & Hr). eauto 10.
  - cbn [Dashboard.renderGdelt]. destruct (Js.truthy len).
    + unfold throw at 1.
      destruct (Hfail (TypeError "items.slice(...).map is not a function"))
        as (w' & Hrun & Hm & Hd & Hr). eauto 10.
    + destruct (Hwrite (Html.loading "No GDELT data available"))
        as (w' & Hrun & Hm & Hd & Hr). rewrite Hrun. eauto 10.
  - rewrite (renderGdelt_run l w0 e He0).
    eexists. split; [reflexivity|]. split; [apply markup_written|].
    split; [exact Hlen|]. split; [exact Harr|]. split; [|reflexivity].
    intros sel Hsel. cbn [dom with_dom]. apply lookup_insert_ne. congruence.
Qed.

(** X16.  [loadStats] requests the conflicts and then the disasters and
    always returns a fulfilled promise without writing to the console.
    Each counter then shows the length of the array received; it keeps
    the text it had when its request fails, the body is not JSON or is
    null; it is cleared when the body is another value without a
    length. *)
Theorem X16_stat_counters `{Platform} (w : world) (ec ed : element) :
  dom w !! "stat-conflicts" = Some ec ->
  dom w !! "stat-disasters" = Some ed ->
  exists w',
    Dashboard.loadStats w = (Ok (Fulfilled tt), w')
    /\ text_of "stat-conflicts" w'
       = Some (stat_text (textContent ec) (net_conflicts (net w)))
    /\ text_of "stat-disasters" w'
       = Some (stat_text (textContent ed) (net_disasters (net w)))
    /\ console w' = console w
    /\ requests w' = requests w ++ ["/api/conflicts"; "/api/disasters"].
Proof.
  intros Hec Hed. unfold Dashboard.loadStats.
  destruct (stat_count_text "/api/conflicts" net_conflicts "stat-conflicts"
              w ec Hec) as (w1 & Hrun1 & Ht1 & Hd1 & Hc1 & Hr1 & Hn1).
  erewrite bind_run by exact Hrun1.
  assert (Hed1 : dom w1 !! "stat-disasters" = Some ed)
    by (rewrite Hd1 by discriminate; exact Hed).
  destruct (stat_count_text "/api/disasters" net_disasters "stat-disasters"
              w1 ed Hed1) as (w2 & Hrun2 & Ht2 & Hd2 & Hc2 & Hr2 & Hn2).
  erewrite bind_run by exact Hrun2.
  exists w2. split; [reflexivity|]. split.
  { unfold text_of in *. rewrite Hd2 by discriminate. exact Ht1. }
  split; [rewrite Ht2, Hn1; reflexivity|].
  split; [congruence|]. rewrite Hr2, Hr1, <- app_assoc. reflexivity.
Qed.

(** X17.  [loadEarthquakes] on a page with the earthquake group and the
    earthquake counter always returns a fulfilled promise.  For an array
    whose events all have numeric coordinates the group holds one marker
    for each event, in order, the counter shows their number and the
    console is as before.  For an array in general the group holds the
    markers placed before [updateEarthquakes] throws, if it does, and
    then no element changes and one line is written to the console.
    For a body that is not an array the group is left empty, and for a
    failed request it is left as it was; in both cases no element
    changes and one line is written to the console. *)
Theorem X17_earthquakes_loaded `{Platform} (w : world) (e : element)
    (ls : list layer) :
  layerGroups w !! "earthquakes" = Some ls ->
  dom w !! "stat-earthquakes" = Some e ->
  exists w',
    Dashboard.loadEarthquakes w = (Ok (Fulfilled tt), w')
    /\ requests w' = requests w ++ ["/api/earthquakes"]
    /\ match net_earthquakes (net w) with
       | Json (PArray l) =>
           let markers := map WorldMap.earthquakeMarker l in
           layerGroups w' !! "earthquakes"
           = Some (placed (shown "earthquakes" w) markers).1
           /\ match (placed (shown "earthquakes" w) markers).2 with
              | None =>
                  text_of "stat-earthquakes" w'
                  = Some (Dashboard.int_to_string (Z.of_nat (length l)))
                  /\ console w' = console w
              | Some _ =>
                  dom w' = dom w
                  /\ console w' = console w ++ ["Earthquake fetch failed:"]
              end
           /\ (Forall (fun ly => WorldMap.unplaceable ly = false) markers ->
               layerGroups w' !! "earthquakes" = Some markers
               /\ text_of "stat-earthquakes" w'
                  = Some (Dashboard.int_to_string (Z.of_nat (length l)))
               /\ console w' = console w)
       | Json _ =>
           layerGroups w' !! "earthquakes" = Some []
           /\ dom w' = dom w
           /\ console w' = console w ++ ["Earthquake fetch failed:"]
       | _ =>
           layerGroups w' = layerGroups w
           /\ dom w' = dom w
           /\ console w' = console w ++ ["Earthquake fetch failed:"]
       end.
Proof.
  intros Hls He. unfold Dashboard.loadEarthquakes. rewrite chain_cases.
  set (w0 := with_requests _ w).
  assert (Hup : forall d,
    WorldMap.updateEarthquakes d w0
    = match d with
      | PArray l =>
          (result_of
             (placed (shown "earthquakes" w)
                (map WorldMap.earthquakeMarker l)).2,
           with_layerGroups
             (<["earthquakes" :=
                  (placed (shown "earthquakes" w)
                     (map WorldMap.earthquakeMarker l)).1]>
                (layerGroups w0)) w0)
      | POther _ =>
          (Throw (TypeError "data.forEach is not a function"),
           with_layerGroups (<["earthquakes" := []]> (layerGroups w0)) w0)
      | PNull =>
          (Throw (TypeError "null has no properties: forEach"),
           with_layerGroups (<["earthquakes" := []]> (layerGroups w0)) w0)
      end).
  { intros d. rewrite updateEarthquakes_run. unfold rebuild_outcome.
    unfold w0 at 1. cbn [layerGroups with_requests]. rewrite Hls.
    reflexivity. }
  destruct (net_earthquakes (net w)) as [| |[|len|l]].
  - eexists. split; [apply catch_ok; reflexivity|]. repeat split.
  - eexists. split; [apply catch_ok; reflexivity|]. repeat split.
  - erewrite bind_throw by exact (Hup PNull).
    eexists. split; [apply catch_ok; reflexivity|]. split; [reflexivity|].
    split; [apply lookup_insert_eq|]. split; reflexivity.
  - erewrite bind_throw by exact (Hup (POther len)).
    eexists. split; [apply catch_ok; reflexivity|]. split; [reflexivity|].
    split; [apply lookup_insert_eq|]. split; reflexivity.
  - cbv zeta. specialize (Hup (PArray l)). cbv beta iota in Hup.
    assert (Hall : Forall (fun ly => WorldMap.unplaceable ly = false)
                     (map WorldMap.earthquakeMarker l) ->
                   placed (shown "earthquakes" w)
                     (map WorldMap.earthquakeMarker l)
                   = (map WorldMap.earthquakeMarker l, None))
      by apply placed_all.
    destruct (placed (shown "earthquakes" w)
                (map WorldMap.earthquakeMarker l)) as [kept [err|]];
      cbn [fst snd result_of] in *.
    + erewrite bind_throw by exact Hup.
      eexists. split; [apply catch_ok; reflexivity|]. split; [reflexivity|].
      split; [apply lookup_insert_eq|]. split; [split; reflexivity|].
      intros Hwf. specialize (Hall Hwf). discriminate.
    + erewrite bind_run by exact Hup.
      erewrite bind_run by reflexivity.
      erewrite set_textContent_value_run by exact He.
      assert (Ht : text_of "stat-earthquakes"
                     (with_dom
                        (<["stat-earthquakes" :=
                             set_textContent_of
                               (Dashboard.int_to_string
                                  (Z.of_nat (length l))) e]>
                           (dom w0))
                        (with_layerGroups
                           (<["earthquakes" := kept]> (layerGroups w0)) w0))
                   = Some (Dashboard.int_to_string (Z.of_nat (length l)))).
      { unfold text_of. cbn [dom with_dom]. rewrite lookup_insert_eq.
        reflexivity. }
      eexists. split; [reflexivity|]. split; [reflexivity|].
      split; [apply lookup_insert_eq|]. split; [split; [exact Ht|reflexivity]|].
      intros Hwf. specialize (Hall Hwf). injection Hall as ->.
      split; [apply lookup_insert_eq|]. split; [exact Ht|reflexivity].
Qed.

(** X18.  A click on the alerts button flips [alertsOnly] before the
    news are requested: the one request it issues carries the new value
    of the flag and the current source.  A change of the source filter
    issues one news request with the flag as it is. *)
Theorem X18_alerts_click `{Platform} (w : world) (e : element) :
  dom w !! "btn-alerts" = Some e ->
  has "news-source-filter" w ->
  (exists w',
     Dashboard.run_callback CbAlertsClick w = (Ok tt, w')
     /\ alertsOnly w' = negb (alertsOnly w)
     /\ requests w'
        = requests w
          ++ [Dashboard.news_url (current_source w) (negb (alertsOnly w))])
  /\ (exists w',
        Dashboard.run_callback CbSourceChange w = (Ok tt, w')
        /\ alertsOnly w' = alertsOnly w
        /\ requests w'
           = requests w
             ++ [Dashboard.news_url (current_source w) (alertsOnly w)]).
Proof.
  intros He Hsf. split.
  - cbn [Dashboard.run_callback]. unfold Dashboard.onAlertsClick.
    erewrite bind_run by reflexivity.
    set (w1 := with_alertsOnly (negb (alertsOnly w)) w).
    assert (He1 : dom w1 !! "btn-alerts" = Some e) by exact He.
    unfold Dashboard.class_update.
    erewrite bind_run by (apply update_run, He1).
    set (w2 := with_dom _ w1).
    assert (Hd2 : dom w2 !! "news-source-filter"
                  = dom w !! "news-source-filter").
    { unfold w2. cbn [dom with_dom]. apply lookup_insert_ne. discriminate. }
    destruct (loadNews_run w2) as (p & w3 & Hrun & Hf & Hr & _).
    { unfold has. rewrite Hd2. exact Hsf. }
    erewrite bind_run by exact Hrun.
    exists w3. split; [reflexivity|].
    destruct Hf as (_ & _ & _ & Ha & _).
    split; [rewrite Ha; reflexivity|].
    rewrite Hr. unfold current_source. rewrite Hd2. reflexivity.
  - cbn [Dashboard.run_callback].
    destruct (loadNews_run w Hsf) as (p & w3 & Hrun & Hf & Hr & _).
    erewrite bind_run by exact Hrun.
    exists w3. split; [reflexivity|].
    destruct Hf as (_ & _ & _ & Ha & _). split; [exact Ha|exact Hr].
Qed.

(** X19.  [updateSourceFilter] writes the option 'All Sources' and then
    one option for each of [sorted_sources], in that order, with the
    escaped source as value and as text, selected when the source is the
    current value of the filter.  [sorted_sources] holds the sources of
    the items, each once, in ascending order of their UTF-16 code
    units.  The filter keeps its value when that is one of the sources
    and falls back to 'All Sources' otherwise; without the filter
    element the function throws. *)
Theorem X19_source_filter `{Platform} (l : list NewsItem) (w : world) :
  (forall s, s ∈ Dashboard.sorted_sources l <-> s ∈ map news_source l)
  /\ NoDup (Dashboard.sorted_sources l)
  /\ Sorted Dashboard.string_le (Dashboard.sorted_sources l)
  /\ (forall a b,
        Dashboard.string_le a b
        <-> Dashboard.units_leb (code_units a) (code_units b) = true)
  /\ (forall e, dom w !! "news-source-filter" = Some e ->
        exists w',
          Dashboard.updateSourceFilter l w = (Ok tt, w')
          /\ markup_of "news-source-filter" w'
             = Some (Html.Option_ "" false "All Sources"
                     :: map (fun s =>
                               Html.Option_ (Dashboard.escapeHtml s)
                                 (String.eqb s (el_value e))
                                 (Dashboard.escapeHtml s))
                          (Dashboard.sorted_sources l))
          /\ value_of "news-source-filter" w'
             = Some (if bool_decide (el_value e ∈ map news_source l)
                     then el_value e else "")
          /\ (forall sel, sel <> "news-source-filter" ->
                dom w' !! sel = dom w !! sel))
  /\ (~ has "news-source-filter" w ->
      Dashboard.updateSourceFilter l w
      = (Throw (null_access "news-source-filter"), w)).
Proof.
  split; [apply elem_of_sorted_sources|]. split.
  { unfold Dashboard.sorted_sources. rewrite merge_sort_Permutation.
    apply NoDup_remove_dups. }
  split.
  { unfold Dashboard.sorted_sources.
    apply (Sorted_merge_sort Dashboard.string_le (Total0 := string_le_total)). }
  split; [reflexivity|].
  split.
  - intros e He. unfold Dashboard.updateSourceFilter.
    erewrite bind_run by (apply read_run, He). cbv zeta.
    erewrite update_run by exact He.
    eexists. split; [reflexivity|].
    split; [unfold markup_of; cbn [dom with_dom];
            rewrite lookup_insert_eq; reflexivity|].
    split.
    + unfold value_of. cbn [dom with_dom]. rewrite lookup_insert_eq.
      cbn [fmap option_fmap option_map el_value set_value_of]. f_equal.
      destruct (bool_decide_reflect (el_value e ∈ Dashboard.sorted_sources l))
        as [Hin|Hin].
      * rewrite bool_decide_true by (apply elem_of_sorted_sources, Hin).
        reflexivity.
      * rewrite bool_decide_false
          by (rewrite <- elem_of_sorted_sources; exact Hin).
        reflexivity.
    + intros sel Hsel. cbn [dom with_dom]. apply lookup_insert_ne.
      congruence.
  - intros Hn. unfold Dashboard.updateSourceFilter.
    apply bind_throw, read_throw, not_has, Hn.
Qed.

(** ** What a refresh writes *)

Section Writes.
Context `{Platform}.
Variables sels groups : list string.

Lemma kept_refl (w : world) : kept sels groups w w.
Proof. unfold kept. tauto. Qed.

Lemma kept_trans (w1 w2 w3 : world) :
  kept sels groups w1 w2 -> kept sels groups w2 w3 -> kept sels groups w1 w3.
Proof.
  unfold kept.
  intros (Hd & Hg & Ho & Hl & Ht & Ha & Hb) (Hd' & Hg' & Ho' & Hl' & Ht' & Ha' & Hb').
  repeat split; try congruence.
  - intros sel Hs. rewrite (Hd' sel Hs). apply Hd, Hs.
  - intros g Hs. rewrite (Hg' g Hs). apply Hg, Hs.
Qed.

Lemma wo_ret {A} (a : A) : writes_only sels groups (ret a).
Proof. intros w. apply kept_refl. Qed.

Lemma wo_throw {A} (e : error) : writes_only sels groups (@throw A e).
Proof. intros w. apply kept_refl. Qed.

Lemma wo_gets {A} (f : world -> A) : writes_only sels groups (gets f).
Proof. intros w. apply kept_refl. Qed.

Lemma wo_bind {A B} (m : M A) (k : A -> M B) :
  writes_only sels groups m -> (forall a, writes_only sels groups (k a)) ->
  writes_only sels groups (m ≫= k).
Proof.
  intros Hm Hk w. specialize (Hm w). unfold exec in *.
  unfold mbind, M_bind, bind. destruct (m w) as [[a|e] w1]; cbn [snd] in *.
  - eapply kept_trans; [exact Hm | apply Hk].
  - exact Hm.
Qed.

Lemma wo_forEach {A} (f : A -> M unit) (l : list A) :
  (forall x, writes_only sels groups (f x)) ->
  writes_only sels groups (forEach f l).
Proof.
  intros Hf. induction l as [|x l IH]; cbn [forEach].
  - apply wo_ret.
  - apply wo_bind; [apply Hf | intros _; exact IH].
Qed.

Lemma wo_then {A B} (p : settled A) (h : A -> M B) :
  (forall a, writes_only sels groups (h a)) ->
  writes_only sels groups (then_ p h).
Proof.
  intros Hh. destruct p as [a|e]; cbn [then_]; [|apply wo_ret].
  intros w. specialize (Hh a w). unfold exec in *.
  destruct (h a w) as [[b|e] w1]; exact Hh.
Qed.

Lemma wo_catch {A} (p : settled A) (h : error -> M A) :
  (forall e, writes_only sels groups (h e)) ->
  writes_only sels groups (catch_ p h).
Proof.
  intros Hh. destruct p as [a|e]; cbn [catch_]; [apply wo_ret|].
  intros w. specialize (Hh e w). unfold exec in *.
  destruct (h e w) as [[b|e'] w1]; exact Hh.
Qed.

Lemma wo_then_json {A} (p : settled (reply A)) :
  writes_only sels groups (then_json p).
Proof. destruct p as [[| |d]|e]; cbn [then_json json]; apply wo_ret. Qed.

Lemma wo_fetch {A} (url : string) (r : network -> reply A) :
  writes_only sels groups (fetch url r).
Proof. intros w. unfold exec. rewrite fetch_run. unfold kept. cbn. tauto. Qed.

Lemma wo_read {A} (sel : string) (prop : element -> A) :
  writes_only sels groups (read sel prop).
Proof.
  unfold read. apply wo_bind; [apply wo_gets|]. intros d.
  destruct (d !! sel); [apply wo_ret | apply wo_throw].
Qed.

Lemma wo_update (sel : string) (f : element -> element) :
  sel ∈ sels -> writes_only sels groups (update sel f).
Proof.
  intros Hin w. unfold exec.
  destruct (dom w !! sel) as [e|] eqn:He.
  - rewrite (update_run _ _ _ _ He). unfold kept. cbn.
    repeat split. intros k Hk. apply lookup_insert_ne. congruence.
  - rewrite (update_throw _ _ _ He). apply kept_refl.
Qed.

Lemma wo_console_error (line : string) :
  writes_only sels groups (console_error line).
Proof. intros w. unfold kept. cbn. tauto. Qed.

Lemma wo_clearLayers (name : string) :
  name ∈ groups -> writes_only sels groups (WorldMap.clearLayers name).
Proof.
  intros Hin w. unfold exec. rewrite clearLayers_run.
  destruct (layerGroups w !! name); [|apply kept_refl].
  unfold kept. cbn. repeat split. intros k Hk. apply lookup_insert_ne.
  congruence.
Qed.

Lemma wo_addLayer (name : string) (y : layer) :
  name ∈ groups -> writes_only sels groups (WorldMap.addLayer name y).
Proof.
  intros Hin w. unfold exec.
  destruct (layerGroups w !! name) as [ls|] eqn:Hls.
  - rewrite (addLayer_run _ _ _ _ Hls). unfold kept. cbn.
    repeat split. intros k Hk. apply lookup_insert_ne. congruence.
  - unfold WorldMap.addLayer, mbind, M_bind, bind, gets, throw.
    rewrite Hls. apply kept_refl.
Qed.

Lemma wo_construct (y : layer) :
  writes_only sels groups (WorldMap.construct y).
Proof.
  unfold WorldMap.construct.
  destruct (WorldMap.throws_on_construction y); [apply wo_throw | apply wo_ret].
Qed.

Lemma wo_array_of {A} (data : payload A) :
  writes_only sels groups (WorldMap.array_of data).
Proof. destruct data; [apply wo_throw .. | apply wo_ret]. Qed.

Lemma wo_length_of {A} (data : payload A) :
  writes_only sels groups (Dashboard.length_of data).
Proof. destruct data; [apply wo_throw | apply wo_ret ..]. Qed.

End Writes.

Create HintDb writes.
#[local] Hint Resolve wo_ret wo_throw wo_gets wo_then_json wo_fetch wo_read
  wo_console_error wo_construct wo_array_of wo_length_of : writes.

Ltac listed := apply list_elem_of_In; cbn; tauto.

Ltac writes :=
  repeat first
    [ progress intros
    | solve [auto with writes]
    | simple apply wo_bind
    | simple apply wo_forEach
    | simple apply wo_then
    | simple apply wo_catch
    | simple apply wo_update; listed
    | simple apply wo_clearLayers; listed
    | simple apply wo_addLayer; listed
    | match goal with
      | |- writes_only _ _ (match ?x with _ => _ end) => destruct x
      end ].

Section WritesRefresh.
Context `{Platform}.

Lemma loadAllData_writes :
  writes_only refresh_elements ["earthquakes"; "conflicts"; "hotspots"]
    Dashboard.loadAllData.
Proof.
  unfold Dashboard.loadAllData, Dashboard.updateStatus,
    Dashboard.loadNews, Dashboard.loadEarthquakes,
    Dashboard.loadConflictZones, Dashboard.loadHotspots,
    Dashboard.loadGdelt, Dashboard.loadStats, Dashboard.stat_count,
    Dashboard.class_update, Dashboard.onNews, Dashboard.renderNews,
    Dashboard.renderAlerts, Dashboard.renderTicker,
    Dashboard.updateSourceFilter, Dashboard.renderGdelt,
    Dashboard.set_textContent_value,
    WorldMap.updateEarthquakes, WorldMap.updateConflictZones,
    WorldMap.updateHotspots, set_innerHTML, set_textContent,
    refresh_elements.
  writes.
Qed.

Lemma listen_each {A} (sel : A -> string) (ev : string) (cb : A -> callback)
    (l : list A) (w : world) :
  forEach (fun x => listen (sel x) ev (cb x)) l w
  = (Ok tt,
     with_listeners (listeners w ++ map (fun x => (sel x, ev, cb x)) l) w).
Proof.
  revert w. induction l as [|x l IH]; intros w.
  - cbn. rewrite app_nil_r, with_listeners_eta. reflexivity.
  - cbn [forEach]. erewrite bind_run by reflexivity. rewrite IH.
    cbn [listeners with_listeners map]. rewrite <- app_assoc. reflexivity.
Qed.

Lemma setupButtons_eq (w : world) :
  has "btn-refresh" w -> has "btn-alerts" w -> has "btn-layers" w ->
  has "news-source-filter" w ->
  Dashboard.setupButtons w
  = (Ok tt,
     with_listeners
       (listeners w
        ++ [("btn-refresh", "click", CbRefreshClick);
            ("btn-alerts", "click", CbAlertsClick);
            ("btn-layers", "click", CbLayersClick);
            ("news-source-filter", "change", CbSourceChange)]) w).
Proof.
  intros [e1 H1] [e2 H2] [e3 H3] [e4 H4]. unfold Dashboard.setupButtons.
  erewrite bind_run by (eapply addEventListener_run; exact H1).
  erewrite bind_run by (eapply addEventListener_run; exact H2).
  erewrite bind_run by (eapply addEventListener_run; exact H3).
  erewrite addEventListener_run by exact H4.
  cbn [listeners with_listeners]. rewrite <- !app_assoc. reflexivity.
Qed.

End WritesRefresh.

(** X20.  A refresh writes nothing but the eleven elements of the status
    line, the news, alerts, ticker and GDELT panels, the source filter
    and the counters, and no layer group but those of the earthquakes,
    conflict zones and hotspots, whether it returns or throws: what is
    on the map, the listeners, the timers and the [alertsOnly] flag are
    as before, as is every other element and layer group. *)
Theorem X20_refresh_writes_only `{Platform} :
  writes_only refresh_elements ["earthquakes"; "conflicts"; "hotspots"]
    Dashboard.loadAllData.
Proof. apply loadAllData_writes. Qed.

(** X21.  On a page that has the elements it looks up, and once the
    Leaflet map is created, [Dashboard.init] issues exactly the seven
    requests of one refresh, and registers, in this order, the [change]
    listeners of the layer checkboxes the page has, one [click] listener
    for each tab and the listeners of the three buttons and of the
    source filter. *)
Theorem X21_init_requests_and_listeners `{Platform} (w : world) :
  page_ready w ->
  exists w',
    Dashboard.init w = (Ok tt, w')
    /\ requests w' = requests w ++ refresh_urls w
    /\ listeners w'
       = listeners w
         ++ registrations w WorldMap.toggle_mapping
         ++ map (fun name =>
                   (Dashboard.tab_sel name, "click", CbTabClick name))
              (tabs w)
         ++ [("btn-refresh", "click", CbRefreshClick);
             ("btn-alerts", "click", CbAlertsClick);
             ("btn-layers", "click", CbLayersClick);
             ("news-source-filter", "change", CbSourceChange)].
Proof.
  intros ((Hst & Hsf) & [ec Hc] & Hb1 & Hb2 & Hb3).
  unfold Dashboard.init.
  destruct (WorldMap_init_eq w) as (g & o & Hrun1 & _).
  erewrite bind_run by exact Hrun1.
  set (w1 := with_listeners _ _).
  assert (Hrun2 : Dashboard.setupClock w1
    = (Ok tt,
       with_timers (timers w1 ++ [(CbClockUpdate, 1000%Z)])
         (with_dom
            (<["clock" := set_textContent_of
                  (String.substring 0 19
                     (Dashboard.replace_T (Date_toISOString (now w1)))
                   +:+ " UTC") ec]> (dom w1)) w1))).
  { unfold Dashboard.setupClock, Dashboard.clock_update.
    erewrite bind_run; cycle 1.
    { erewrite bind_run by reflexivity. cbv zeta.
      unfold set_textContent. apply update_run. exact Hc. }
    reflexivity. }
  erewrite bind_run by exact Hrun2.
  set (w2 := with_timers _ _).
  assert (Hdom : forall sel, sel <> "clock" -> dom w2 !! sel = dom w !! sel).
  { intros sel Hsel. unfold w2. cbn [dom with_timers with_dom].
    apply lookup_insert_ne. congruence. }
  assert (Hhas : forall sel, sel <> "clock" -> has sel w -> has sel w2).
  { intros sel Hsel Hs. unfold has. rewrite Hdom by exact Hsel. exact Hs. }
  erewrite bind_run; cycle 1.
  { unfold Dashboard.setupTabs. erewrite bind_run by reflexivity.
    apply listen_each. }
  set (w3 := with_listeners _ w2).
  erewrite bind_run; cycle 1.
  { apply setupButtons_eq; apply (Hhas _); try discriminate; assumption. }
  set (w4 := with_listeners _ w3).
  destruct (loadAllData_run w4) as (w5 & Hrun5 & _ & Hr5).
  { split; apply (Hhas _); try discriminate; assumption. }
  erewrite bind_run by exact Hrun5.
  destruct (loadAllData_writes w4) as (_ & _ & _ & Hl5 & _).
  unfold exec in Hl5. rewrite Hrun5 in Hl5. cbn [snd] in Hl5.
  eexists. split; [reflexivity|].
  cbn [requests listeners with_timers]. split.
  - rewrite Hr5. unfold refresh_urls, current_source.
    change (dom w4) with (dom w2). rewrite Hdom by discriminate.
    reflexivity.
  - rewrite Hl5. unfold w4, w3. cbn [listeners with_listeners].
    unfold w2. cbn [listeners with_timers with_dom tabs].
    unfold w1. cbn [listeners with_listeners tabs with_onMap
                     with_layerGroups].
    rewrite <- !app_assoc. reflexivity.
Qed.

(* ===================================================================== *)
(** * The model evaluated on the sample page *)
(* ===================================================================== *)

Section Evaluated.
#[local] Existing Instance Sample.platform.

(** Closes [is_Some] goals on a concrete state. *)
Ltac present := apply is_Some_alt; vm_compute; exact I.


(** A cable with a route, one with a single point and one without
    points, drawn on the sample page: the group holds the line of the
    first and nothing else. *)
Lemma C9_cables_need_two_points_witness :
  let l := [Cases.cable_routed; Cases.cable_short; Sample.cable None] in
  is_Some (layerGroups Sample.page_with_map !! "cables")
  /\ (forall c, c ∈ l -> has_route c -> located_route c = true)
  /\ has_route Cases.cable_routed
  /\ ~ has_route Cases.cable_short
  /\ ~ has_route (Sample.cable None)
  /\ eval (WorldMap.updateCables (PArray l)) Sample.page_with_map = Ok tt
  /\ layerGroups (exec (WorldMap.updateCables (PArray l))
                    Sample.page_with_map) !! "cables"
     = Some [drawn_line Cases.cable_routed]
  /\ layerGroups
       (exec (WorldMap.updateCables (PArray [Cases.cable_short]))
          Sample.page_with_map) !! "cables"
     = Some [].
Proof.
  intros l.
  assert (Hg : is_Some (layerGroups Sample.page_with_map !! "cables"))
    by present.
  assert (Hloc : forall c, c ∈ l -> has_route c -> located_route c = true).
  { intros c Hin _. unfold l in Hin.
    repeat (apply elem_of_cons in Hin as [->|Hin]; [reflexivity|]).
    inversion Hin. }
  assert (Hyes : has_route Cases.cable_routed).
  { eexists. split; [reflexivity | cbn; lia]. }
  assert (Hshort : ~ has_route Cases.cable_short).
  { intros (ps & [= <-] & Hlen). cbn in Hlen. lia. }
  assert (Hnone : ~ has_route (Sample.cable None)).
  { intros (ps & Hps & _). discriminate Hps. }
  split; [exact Hg|]. split; [exact Hloc|]. split; [exact Hyes|].
  split; [exact Hshort|]. split; [exact Hnone|].
  destruct (C9_cables_need_two_points Sample.page_with_map l Hg Hloc)
    as (Hok & Hrun & _ & Hskip & _).
  split; [exact Hok|]. split; [exact Hrun|].
  exact (proj2 (Hskip Cases.cable_short Hshort)).
Defined.

(** A cable whose [points] field holds two points, the second without
    its longitude: the record has a route, yet [L.polyline] throws, and
    no polyline is added for it. *)
Lemma C9_malformed_point_not_drawn :
  has_route Cases.cable_malformed
  /\ located_route Cases.cable_malformed = false
  /\ eval (WorldMap.updateCables (PArray [Cases.cable_malformed]))
       Sample.page_with_map
     = Throw WorldMap.invalid_latlng_error
  /\ layerGroups
       (exec (WorldMap.updateCables (PArray [Cases.cable_malformed]))
          Sample.page_with_map) !! "cables"
     = Some [].
Proof.
  split.
  - eexists. split; [reflexivity | cbn; lia].
  - vm_compute. repeat split.
Qed.

(** On the sample page with the disasters group on the map, an array of
    a disaster whose coordinates are [null] and a flood in Nepal:
    [updateDisasters] throws on the first record, whose marker stays in
    the group, and the flood gets no marker.  The conflict events with
    the same coordinates: the first is skipped and the second drawn. *)
Lemma C3_absent_coordinates_not_skipped_witness :
  let w := Cases.page_disasters_shown in
  let events := [Sample.conflict Js.Null Js.Null;
                 Sample.conflict (Sample.coord 28) (Sample.coord 84)] in
  is_Some (layerGroups w !! "disasters")
  /\ dis_lat Cases.disaster_unlocated = Js.Null
  /\ shown "disasters" w = true
  /\ WorldMap.zero_coordinates Cases.disaster_unlocated = false
  /\ eval (WorldMap.updateDisasters
             (PArray [Cases.disaster_unlocated; Cases.disaster_located])) w
     = Throw WorldMap.null_position_error
  /\ layerGroups
       (exec (WorldMap.updateDisasters
                (PArray [Cases.disaster_unlocated; Cases.disaster_located]))
          w) !! "disasters"
     = Some [WorldMap.disasterMarker Cases.disaster_unlocated]
  /\ eval (WorldMap.updateConflictEvents (PArray events)) w = Ok tt
  /\ layerGroups (exec (WorldMap.updateConflictEvents (PArray events)) w)
       !! "conflict-events"
     = Some [MarkerCluster
               [WorldMap.conflictMarker
                  (Sample.conflict (Sample.coord 28) (Sample.coord 84))]].
Proof.
  intros w events.
  assert (Hg : is_Some (layerGroups w !! "disasters")) by present.
  assert (Hc : is_Some (layerGroups w !! "conflict-events")) by present.
  assert (Hlat : dis_lat Cases.disaster_unlocated = Js.Null) by reflexivity.
  assert (Hs : shown "disasters" w = true) by (vm_compute; reflexivity).
  destruct (C3_absent_coordinates_not_skipped w)
    as (_ & _ & Hevents & _ & _ & Hnull & _).
  destruct (Hnull Cases.disaster_unlocated [Cases.disaster_located]
              Hg Hlat Hs) as (Hz & Hthrow & Hgroup).
  destruct (Hevents events Hc eq_refl) as (Hok & Hcluster).
  split; [exact Hg|]. split; [exact Hlat|]. split; [exact Hs|].
  split; [exact Hz|]. split; [exact Hthrow|]. split; [exact Hgroup|].
  split; [exact Hok | exact Hcluster].
Defined.

(** An entry stored at second 100 with a TTL of 300, read at second 250
    and at second 400. *)
Lemma C1_cache_entry_valid_iff_fresh_witness :
  let e := {| Cache.entry_value := "[]"; Cache.stored_at := 100;
              Cache.entry_ttl := 300 |} in
  ({["earthquakes" := e]} : gmap string (Cache.CacheEntry string))
    !! "earthquakes" = Some e
  /\ (250 - Cache.stored_at e < Cache.entry_ttl e)%Z
  /\ Cache.get 250 "earthquakes" {["earthquakes" := e]} = Some "[]"
  /\ (Cache.entry_ttl e <= 400 - Cache.stored_at e)%Z
  /\ Cache.get 400 "earthquakes" {["earthquakes" := e]} = None.
Proof.
  intros e.
  assert (Hkey : ({["earthquakes" := e]} : gmap string (Cache.CacheEntry string))
                   !! "earthquakes" = Some e) by apply lookup_singleton_eq.
  assert (Hfresh : (250 - Cache.stored_at e < Cache.entry_ttl e)%Z)
    by (vm_compute; reflexivity).
  assert (Hstale : (Cache.entry_ttl e <= 400 - Cache.stored_at e)%Z)
    by (vm_compute; discriminate).
  split; [exact Hkey|]. split; [exact Hfresh|].
  destruct (C1_cache_entry_valid_iff_fresh _ "earthquakes" e 250 Hkey)
    as (_ & Hhit & _).
  destruct (C1_cache_entry_valid_iff_fresh _ "earthquakes" e 400 Hkey)
    as (_ & _ & Hmiss).
  split; [exact (proj1 (Hhit Hfresh))|].
  split; [exact Hstale | exact (proj1 (Hmiss Hstale))].
Defined.

(** A feed of a magnitude 3.0 and a magnitude 5.2 event, both one hour
    old. *)
Lemma C2_earthquake_filter_witness :
  let feature (m : Q) :=
    {| Earthquake.f_mag := m; Earthquake.f_time := 82800000;
       Earthquake.f_place := "south of Fiji"; Earthquake.f_lat := -(23 # 1);
       Earthquake.f_lng := 179 # 1; Earthquake.f_depth := 550 # 1;
       Earthquake.f_tsunami := false; Earthquake.f_felt := None |} in
  Earthquake.fetch 86400000 [feature (3 # 1); feature (52 # 10)]
  = [Earthquake.to_event (feature (52 # 10))].
Proof.
  intros feature.
  apply (proj2 (proj2 (C2_earthquake_filter 86400000 []))).
  - vm_compute. reflexivity.
  - vm_compute. reflexivity.
  - vm_compute. split; discriminate.
Defined.

(** Sixteen feeds of two entries each, the fourth timing out: 30 items. *)
Lemma C6_rss_partial_failure_witness :
  Sample.feed_network (Rss.src_url Sample.feed_down) = Rss.Timeout
  /\ Rss.succeeds Sample.feed_network Sample.feed_down = false
  /\ Forall (fun s => Rss.succeeds Sample.feed_network s = true)
       (Sample.feeds_before ++ Sample.feeds_after)
  /\ length (Sample.feeds_before ++ Sample.feed_down :: Sample.feeds_after)
     = 16
  /\ length (Rss.fetch_all ["earthquake"] Sample.feed_network
               (Sample.feeds_before ++ Sample.feed_down :: Sample.feeds_after))
     = sum_list (map (Rss.item_count Sample.feed_network)
                   (Sample.feeds_before ++ Sample.feeds_after)).
Proof.
  assert (Hdown : Rss.succeeds Sample.feed_network Sample.feed_down = false)
    by reflexivity.
  assert (Hup : Forall (fun s => Rss.succeeds Sample.feed_network s = true)
                  (Sample.feeds_before ++ Sample.feeds_after))
    by (repeat constructor).
  assert (Hlen : length (Sample.feeds_before ++ Sample.feed_down
                           :: Sample.feeds_after) = 16) by reflexivity.
  split; [reflexivity|].
  split; [exact Hdown|]. split; [exact Hup|]. split; [exact Hlen|].
  destruct (C6_rss_partial_failure ["earthquake"] Sample.feed_network
              Sample.feeds_before Sample.feeds_after Sample.feed_down
              Hdown Hup Hlen) as (_ & _ & _ & Hsum & _).
  exact Hsum.
Defined.

(** The sample page has the elements [init] looks up. *)
Lemma sample_page_ready : page_ready Sample.page.
Proof.
  unfold page_ready, refresh_ready, has.
  repeat match goal with |- _ /\ _ => split end; present.
Qed.



(** The sample page with both the news and the GDELT request answered
    by an empty array: each panel shows its 'No ... available' text, and
    an element outside the news feed is as before.  With the news
    request failing and the GDELT body not JSON, each panel shows its
    'Failed to load' text. *)
Lemma C4_panels_degrade_witness :
  let empty := Cases.page_gdelt (Json (PArray [])) in
  let down := Sample.page_news NetFail in
  has "news-source-filter" empty
  /\ dom empty !! "news-list" = Some Sample.blank
  /\ dom empty !! "gdelt-list" = Some Sample.blank
  /\ news_panels empty
  /\ (exists w',
        Dashboard.loadNews empty = (Ok (Fulfilled tt), w')
        /\ markup_of "news-list" w' = Some (Html.loading "No news available")
        /\ markup_of "alerts-list" w'
           = Some (Html.loading "No active alerts")
        /\ dom w' !! "gdelt-list" = dom empty !! "gdelt-list"
        /\ layerGroups w' = layerGroups empty
        /\ console w' = console empty)
  /\ (exists w',
        Dashboard.loadGdelt empty = (Ok (Fulfilled tt), w')
        /\ dom w'
           = <["gdelt-list" :=
                 set_innerHTML_of (Html.loading "No GDELT data available")
                   Sample.blank]> (dom empty))
  /\ has "news-source-filter" down
  /\ dom down !! "news-list" = Some Sample.blank
  /\ dom down !! "gdelt-list" = Some Sample.blank
  /\ (exists w',
        Dashboard.loadNews down = (Ok (Fulfilled tt), w')
        /\ dom w'
           = <["news-list" :=
                 set_innerHTML_of (Html.loading "Failed to load news")
                   Sample.blank]> (dom down)
        /\ layerGroups w' = layerGroups down)
  /\ (exists w',
        Dashboard.loadGdelt down = (Ok (Fulfilled tt), w')
        /\ dom w'
           = <["gdelt-list" :=
                 set_innerHTML_of (Html.loading "Failed to load GDELT data")
                   Sample.blank]> (dom down)
        /\ layerGroups w' = layerGroups down).
Proof.
  intros empty down.
  assert (Hf0 : has "news-source-filter" empty) by present.
  assert (Hn0 : dom empty !! "news-list" = Some Sample.blank)
    by (vm_compute; reflexivity).
  assert (Hg0 : dom empty !! "gdelt-list" = Some Sample.blank)
    by (vm_compute; reflexivity).
  assert (Hp0 : news_panels empty).
  { unfold news_panels, has.
    repeat match goal with |- _ /\ _ => split end; present. }
  assert (Hf : has "news-source-filter" down) by present.
  assert (Hn : dom down !! "news-list" = Some Sample.blank)
    by (vm_compute; reflexivity).
  assert (Hg : dom down !! "gdelt-list" = Some Sample.blank)
    by (vm_compute; reflexivity).
  assert (Hout : "gdelt-list" ∉ ["news-list"; "alerts-list"; "ticker-content";
                                 "news-source-filter"; "stat-news"]).
  { intros Hin. apply list_elem_of_In in Hin. cbn in Hin.
    intuition discriminate. }
  destruct (C4_panels_degrade empty Sample.blank Sample.blank Hf0 Hn0 Hg0)
    as (_ & _ & Hnews0 & Hgdelt0 & _).
  destruct (C4_panels_degrade down Sample.blank Sample.blank Hf Hn Hg)
    as (_ & _ & _ & _ & Hnews & Hgdelt & _).
  split; [exact Hf0|]. split; [exact Hn0|]. split; [exact Hg0|].
  split; [exact Hp0|].
  split.
  { destruct (Hnews0 Hp0 eq_refl)
      as (w' & Hrun & Hm & Ha & _ & _ & _ & Hkeep & Hl & Hc).
    exists w'. split; [exact Hrun|]. split; [exact Hm|]. split; [exact Ha|].
    split; [exact (Hkeep _ Hout)|]. split; [exact Hl | exact Hc]. }
  split.
  { destruct (Hgdelt0 eq_refl) as (w' & Hrun & Hd & _).
    exists w'. split; [exact Hrun | exact Hd]. }
  split; [exact Hf|]. split; [exact Hn|]. split; [exact Hg|].
  split.
  - apply Hnews. left. reflexivity.
  - apply Hgdelt. right. reflexivity.
Defined.

(** On the sample page the news request is answered with two items, the
    second an alert; blanking every title selects the same items. *)
Lemma C7_alerts_from_server_flag_witness :
  let l := [Sample.item "Ceasefire announced" false;
            Sample.item "Missile strike reported" true] in
  let blank_title (x : NewsItem) :=
    {| news_source := news_source x; news_title := "";
       news_link := news_link x; news_published := news_published x;
       news_summary := Js.Null; is_alert := is_alert x |} in
  news_panels Sample.page
  /\ (exists w',
        Dashboard.loadNews Sample.page = (Ok (Fulfilled tt), w')
        /\ markup_of "alerts-list" w'
           = Some (alerts_markup (now Sample.page) (List.filter is_alert l)))
  /\ (forall x, is_alert (blank_title x) = is_alert x)
  /\ List.filter is_alert (map blank_title l)
     = map blank_title (List.filter is_alert l).
Proof.
  intros l blank_title.
  assert (Hp : news_panels Sample.page).
  { unfold news_panels, has.
    repeat match goal with |- _ /\ _ => split end; present. }
  assert (Hkeep : forall x, is_alert (blank_title x) = is_alert x)
    by reflexivity.
  split; [exact Hp|].
  destruct (C7_alerts_from_server_flag Sample.page l Hp eq_refl)
    as (w' & Hrun & Ha & _ & _ & Hsame).
  split; [exists w'; split; [exact Hrun | exact Ha]|].
  split; [exact Hkeep | exact (Hsame blank_title Hkeep)].
Defined.

(** Three items, the second an alert: the ticker shows the entry at
    position 1 twice, also when the three items are the same. *)
Lemma C8_news_and_ticker_limits_witness :
  let l := [Sample.item "a" false; Sample.item "b" true;
            Sample.item "c" false] in
  let same := [Sample.item "b" true; Sample.item "b" true;
               Sample.item "b" true] in
  dom Sample.page !! "news-list" = Some Sample.blank
  /\ l !! 1 = Some (Sample.item "b" true)
  /\ shown_times 1 l = 2
  /\ same !! 1 = Some (Sample.item "b" true)
  /\ shown_times 1 same = 2
  /\ markup_of "news-list"
       (exec (Dashboard.renderNews (PArray l)) Sample.page)
     = Some (map (Dashboard.newsItemHtml (now Sample.page)) l).
Proof.
  intros l same.
  assert (He : dom Sample.page !! "news-list" = Some Sample.blank)
    by (vm_compute; reflexivity).
  split; [exact He|]. split; [reflexivity|].
  destruct (C8_news_and_ticker_limits Sample.page Sample.blank l He)
    as (Hmarkup & _ & _ & _ & _ & _ & _ & _ & _ & _ & Hfirst & _).
  destruct (C8_news_and_ticker_limits Sample.page Sample.blank same He)
    as (_ & _ & _ & _ & _ & _ & _ & _ & _ & _ & Hsame & _).
  split; [apply (Hfirst 1 (Sample.item "b" true)); [reflexivity|lia|reflexivity]|].
  split; [reflexivity|].
  split; [apply (Hsame 1 (Sample.item "b" true)); [reflexivity|lia|reflexivity]|].
  exact Hmarkup.
Defined.

(** Eleven distinct alert items: the eleventh is an alert item among the
    first 15, and the ticker shows it once. *)
Lemma C8_eleventh_alert_shown_once :
  let l := map (fun t => Sample.item t true)
             ["a"; "b"; "c"; "d"; "e"; "f"; "g"; "h"; "i"; "j"; "k"] in
  let x := Sample.item "k" true in
  NoDup l
  /\ l !! 10 = Some x
  /\ is_alert x = true
  /\ occurrences x (Dashboard.tickerItems l) = 1
  /\ shown_times 10 l = 1.
Proof.
  intros l x. split.
  - apply (bool_decide_unpack (NoDup l)). vm_compute. exact I.
  - vm_compute. repeat split.
Qed.

(** ** The further properties on the sample states *)

Ltac listed_name := apply list_elem_of_In; vm_compute; tauto.

(** [init] on the sample page, whose map shows nothing yet, keeps a
    group that is not one of the nine and shows the three default
    groups. *)
Lemma X2_map_init_witness :
  ("overlay" ∉ WorldMap.layerNames)
  /\ onMap Sample.page = []
  /\ exists w',
       WorldMap.init Sample.page = (Ok tt, w')
       /\ layerGroups w' !! "overlay" = layerGroups Sample.page !! "overlay"
       /\ onMap w' = default_layers
       /\ dom w' = dom Sample.page.
Proof.
  assert (Hk : "overlay" ∉ WorldMap.layerNames).
  { intros Hin. apply list_elem_of_In in Hin. vm_compute in Hin.
    intuition discriminate. }
  assert (Hm : onMap Sample.page = []) by reflexivity.
  split; [exact Hk|]. split; [exact Hm|].
  destruct (X2_map_init Sample.page)
    as (w' & Hrun & _ & Hout & Hon & _ & Hd & _).
  exists w'. split; [exact Hrun|]. split; [apply Hout, Hk|].
  split; [exact (Hon Hm) | exact Hd].
Defined.

(** Checking the box of the empty cables layer requests the cables.
    Checking the box of the disasters layer, whose group is off the map
    and holds a marker without a position, throws and requests
    nothing. *)
Lemma X4_layer_checked_witness :
  "cables" ∈ WorldMap.layerNames
  /\ dom Cases.page_cables_checked !! "layer-cables" = Some Cases.checked_box
  /\ checked Cases.checked_box = true
  /\ layerGroups Cases.page_cables_checked !! "cables" = Some []
  /\ (exists w',
        WorldMap.onLayerToggle "layer-cables" "cables"
          Cases.page_cables_checked
        = (Ok tt, w')
        /\ requests w'
           = requests Cases.page_cables_checked ++ layer_requests "cables"
        /\ dom w' = dom Cases.page_cables_checked)
  /\ "disasters" ∈ WorldMap.layerNames
  /\ dom Cases.page_disasters_stale !! "layer-disasters"
     = Some Cases.checked_box
  /\ layerGroups Cases.page_disasters_stale !! "disasters"
     = Some [WorldMap.disasterMarker Cases.disaster_unlocated]
  /\ (exists w',
        WorldMap.onLayerToggle "layer-disasters" "disasters"
          Cases.page_disasters_stale
        = (Throw WorldMap.null_position_error, w')
        /\ "disasters" ∈ onMap w'
        /\ requests w' = requests Cases.page_disasters_stale).
Proof.
  assert (Hn : "cables" ∈ WorldMap.layerNames) by listed_name.
  assert (He : dom Cases.page_cables_checked !! "layer-cables"
               = Some Cases.checked_box) by (vm_compute; reflexivity).
  assert (Hc : checked Cases.checked_box = true) by reflexivity.
  assert (Hg : layerGroups Cases.page_cables_checked !! "cables" = Some [])
    by (vm_compute; reflexivity).
  assert (Hn' : "disasters" ∈ WorldMap.layerNames) by listed_name.
  assert (He' : dom Cases.page_disasters_stale !! "layer-disasters"
                = Some Cases.checked_box) by (vm_compute; reflexivity).
  assert (Hg' : layerGroups Cases.page_disasters_stale !! "disasters"
                = Some [WorldMap.disasterMarker Cases.disaster_unlocated])
    by (vm_compute; reflexivity).
  split; [exact Hn|]. split; [exact He|]. split; [exact Hc|].
  split; [exact Hg|].
  split.
  { destruct (X4_layer_checked "layer-cables" "cables"
                Cases.page_cables_checked Cases.checked_box [] Hn He Hc Hg)
      as (w' & Hrun & _ & Hr & _ & Hd & _).
    exists w'. split; [exact Hrun|]. split; [exact Hr | exact Hd]. }
  split; [exact Hn'|]. split; [exact He'|]. split; [exact Hg'|].
  destruct (X4_layer_checked "layer-disasters" "disasters"
              Cases.page_disasters_stale Cases.checked_box _ Hn' He' Hc Hg')
    as (w' & Hrun & Hon & Hr & _).
  exists w'. split; [exact Hrun|].
  split; [apply Hon; right; reflexivity|].
  rewrite Hr. apply app_nil_r.
Defined.

(** Unchecking the box of the cables layer once its cable is drawn: the
    group leaves the map and keeps its line. *)
Lemma X5_layer_unchecked_witness :
  "cables" ∈ WorldMap.layerNames
  /\ layerGroups Cases.page_cables_shown !! "cables"
     = Some [drawn_line Cases.cable_routed]
  /\ "cables" ∈ onMap Cases.page_cables_shown
  /\ dom Cases.page_cables_shown !! "layer-cables" = Some Sample.blank
  /\ checked Sample.blank = false
  /\ exists w',
       WorldMap.onLayerToggle "layer-cables" "cables" Cases.page_cables_shown
       = (Ok tt, w')
       /\ ("cables" ∉ onMap w')
       /\ layerGroups w' !! "cables" = Some [drawn_line Cases.cable_routed]
       /\ requests w' = requests Cases.page_cables_shown.
Proof.
  assert (Hn : "cables" ∈ WorldMap.layerNames) by listed_name.
  assert (Hl : layerGroups Cases.page_cables_shown !! "cables"
               = Some [drawn_line Cases.cable_routed])
    by (vm_compute; reflexivity).
  assert (Hon : "cables" ∈ onMap Cases.page_cables_shown) by listed_name.
  assert (Hg : is_Some (layerGroups Cases.page_cables_shown !! "cables"))
    by (rewrite Hl; eauto).
  assert (He : dom Cases.page_cables_shown !! "layer-cables"
               = Some Sample.blank) by (vm_compute; reflexivity).
  assert (Hc : checked Sample.blank = false) by reflexivity.
  split; [exact Hn|]. split; [exact Hl|]. split; [exact Hon|].
  split; [exact He|]. split; [exact Hc|].
  destruct (X5_layer_unchecked "layer-cables" "cables" Cases.page_cables_shown
              Sample.blank Hn Hg He Hc)
    as (w' & Hrun & Hoff & _ & Hkeep & Hr & _).
  exists w'. split; [exact Hrun|]. split; [exact Hoff|].
  split; [rewrite Hkeep; exact Hl | exact Hr].
Defined.

(** The request of the cables layer on the sample page leaves the group
    of the bases alone. *)
Lemma X6_layer_data_requests_witness :
  "cables" ∈ WorldMap.layerNames
  /\ "bases" <> "cables"
  /\ exists g,
       WorldMap.loadLayerData "cables" Sample.page_with_map
       = (Ok tt,
          with_layerGroups g
            (with_requests
               (requests Sample.page_with_map ++ layer_requests "cables")
               Sample.page_with_map))
       /\ g !! "bases" = layerGroups Sample.page_with_map !! "bases".
Proof.
  assert (Hn : "cables" ∈ WorldMap.layerNames) by listed_name.
  assert (Hk : "bases" <> "cables") by discriminate.
  split; [exact Hn|]. split; [exact Hk|].
  destruct (X6_layer_data_requests "cables" Sample.page_with_map Hn)
    as (g & Hrun & Hkeep & _).
  exists g. split; [exact Hrun | apply Hkeep, Hk].
Defined.

(** Checking the box of the empty cables layer shows the cable of the
    sample network. *)
Lemma X7_layer_data_drawn_witness :
  "cables" ∈ WorldMap.layerNames
  /\ is_Some (layerGroups Cases.page_cables_checked !! "cables")
  /\ dom Cases.page_cables_checked !! "layer-cables" = Some Cases.checked_box
  /\ checked Cases.checked_box = true
  /\ layerGroups Cases.page_cables_checked !! "cables" = Some []
  /\ layer_drawn "cables" true (net Cases.page_cables_checked)
     = Some [drawn_line Cases.cable_routed]
  /\ exists w',
       WorldMap.onLayerToggle "layer-cables" "cables" Cases.page_cables_checked
       = (Ok tt, w')
       /\ "cables" ∈ onMap w'
       /\ layerGroups w' !! "cables"
          = Some (default []
                    (layer_drawn "cables" true
                       (net Cases.page_cables_checked))).
Proof.
  assert (Hn : "cables" ∈ WorldMap.layerNames) by listed_name.
  assert (Hs : is_Some (layerGroups Cases.page_cables_checked !! "cables"))
    by present.
  assert (He : dom Cases.page_cables_checked !! "layer-cables"
               = Some Cases.checked_box) by (vm_compute; reflexivity).
  assert (Hc : checked Cases.checked_box = true) by reflexivity.
  assert (Hg : layerGroups Cases.page_cables_checked !! "cables" = Some [])
    by (vm_compute; reflexivity).
  split; [exact Hn|]. split; [exact Hs|]. split; [exact He|].
  split; [exact Hc|]. split; [exact Hg|].
  split; [vm_compute; reflexivity|].
  destruct (X7_layer_data_drawn "layer-cables" "cables"
              Cases.page_cables_checked Cases.checked_box Hn Hs)
    as (_ & Hshow & _).
  exact (Hshow He Hc Hg).
Defined.

(** A date two hours before the clock. *)
Lemma X8_formatTime_bands_witness :
  "1970-01-01T00:00:00Z" <> ""
  /\ Date_parse "1970-01-01T00:00:00Z" = Some 0%Z
  /\ (3600000 <= 7200000 - 0 < 86400000)%Z
  /\ Dashboard.formatTime 7200000 "1970-01-01T00:00:00Z"
     = Dashboard.int_to_string ((7200000 - 0) / 3600000) +:+ "h ago".
Proof.
  assert (Hne : "1970-01-01T00:00:00Z" <> "") by discriminate.
  assert (Hp : Date_parse "1970-01-01T00:00:00Z" = Some 0%Z) by reflexivity.
  assert (Hage : (3600000 <= 7200000 - 0 < 86400000)%Z) by lia.
  split; [exact Hne|]. split; [exact Hp|]. split; [exact Hage|].
  destruct (X8_formatTime_bands 7200000 0 "1970-01-01T00:00:00Z")
    as (_ & _ & Hbands).
  destruct (Hbands Hne Hp) as (_ & _ & Hhours & _).
  exact (proj1 (Hhours Hage)).
Defined.

(** The clock of the sample page, which reads the epoch. *)
Lemma X9_clock_text_witness :
  dom Sample.page !! "clock" = Some Sample.blank
  /\ Date_toISOString (now Sample.page)
     = "1970-01-01" +:+ String "T"%char "00:00:00.000Z"
  /\ String.length "1970-01-01" = 10
  /\ Forall (fun c => c <> "T"%char) (list_ascii_of_string "1970-01-01")
  /\ exists w',
       Dashboard.clock_update Sample.page = (Ok tt, w')
       /\ text_of "clock" w'
          = Some ("1970-01-01" +:+ " "
                  +:+ String.substring 0 8 "00:00:00.000Z" +:+ " UTC").
Proof.
  assert (He : dom Sample.page !! "clock" = Some Sample.blank)
    by (vm_compute; reflexivity).
  assert (Hiso : Date_toISOString (now Sample.page)
                 = "1970-01-01" +:+ String "T"%char "00:00:00.000Z")
    by reflexivity.
  assert (Hlen : String.length "1970-01-01" = 10) by reflexivity.
  assert (HnoT : Forall (fun c => c <> "T"%char)
                   (list_ascii_of_string "1970-01-01")).
  { cbn [list_ascii_of_string]. repeat (constructor; [discriminate|]).
    constructor. }
  split; [exact He|]. split; [exact Hiso|]. split; [exact Hlen|].
  split; [exact HnoT|].
  destruct (X9_clock_text Sample.page Sample.blank "1970-01-01"
              "00:00:00.000Z" He Hiso Hlen HnoT) as (w' & Hrun & Ht & _).
  exists w'. split; [exact Hrun | exact Ht].
Defined.

(** [setupClock] on the sample page, and on the page without a clock. *)
Lemma X10_setupClock_witness :
  has "clock" Sample.page
  /\ ~ has "clock" (Cases.page_without "clock")
  /\ (exists w',
        Dashboard.setupClock Sample.page = (Ok tt, w')
        /\ text_of "clock" w' = Some "1970-01-01 00:00:00 UTC"
        /\ timers w' = timers Sample.page ++ [(CbClockUpdate, 1000%Z)]
        /\ requests w' = requests Sample.page)
  /\ Dashboard.setupClock (Cases.page_without "clock")
     = (Throw (null_access "clock"), Cases.page_without "clock").
Proof.
  assert (Hc : has "clock" Sample.page) by present.
  assert (Hn : ~ has "clock" (Cases.page_without "clock")).
  { intros [x Hx]. vm_compute in Hx. discriminate Hx. }
  split; [exact Hc|]. split; [exact Hn|].
  split.
  - destruct (proj1 (X10_setupClock Sample.page) Hc)
      as (w' & Hrun & Ht & _ & Htm & _ & Hr).
    exists w'. split; [exact Hrun|]. split; [exact Ht|].
    split; [exact Htm | exact Hr].
  - exact (proj2 (X10_setupClock (Cases.page_without "clock")) Hn).
Defined.

(** The sample page without the alerts button: [init] throws after the
    clock timer is registered. *)
Lemma X11_init_incomplete_page_witness :
  ~ page_ready (Cases.page_without "btn-alerts")
  /\ exists e w',
       Dashboard.init (Cases.page_without "btn-alerts") = (Throw e, w')
       /\ requests w' = requests (Cases.page_without "btn-alerts")
       /\ timers w'
          = timers (Cases.page_without "btn-alerts")
            ++ (if bool_decide (has "clock" (Cases.page_without "btn-alerts"))
                then [(CbClockUpdate, 1000%Z)] else []).
Proof.
  assert (Hn : ~ page_ready (Cases.page_without "btn-alerts")).
  { intros (_ & _ & _ & [x Hx] & _). vm_compute in Hx. discriminate Hx. }
  split; [exact Hn|].
  exact (X11_init_incomplete_page (Cases.page_without "btn-alerts") Hn).
Defined.

(** A refresh of the sample page, where the hotspot request fails and
    the GDELT body is not JSON, ends with the status 'Live'. *)
Lemma X12_status_after_refresh_witness :
  refresh_ready Sample.page
  /\ has "news-list" Sample.page
  /\ has "gdelt-list" Sample.page
  /\ exists w',
       Dashboard.loadAllData Sample.page = (Ok tt, w')
       /\ text_of "status-text" w'
          = Some (if bool_decide (has ".dot" Sample.page) then "Live"
                  else "Error").
Proof.
  assert (Hr : refresh_ready Sample.page) by (split; present).
  assert (Hn : has "news-list" Sample.page) by present.
  assert (Hg : has "gdelt-list" Sample.page) by present.
  split; [exact Hr|]. split; [exact Hn|]. split; [exact Hg|].
  destruct (X12_status_after_refresh Sample.page Hr Hn Hg)
    as (w' & Hrun & Ht & _).
  exists w'. split; [exact Hrun | exact Ht].
Defined.

(** The news request answered with [null]. *)
Lemma X13_news_not_an_array_witness :
  has "news-source-filter" (Sample.page_news (Json PNull))
  /\ dom (Sample.page_news (Json PNull)) !! "news-list" = Some Sample.blank
  /\ (forall l : list NewsItem, PNull <> PArray l)
  /\ exists w',
       Dashboard.loadNews (Sample.page_news (Json PNull))
       = (Ok (Fulfilled tt), w')
       /\ markup_of "news-list" w'
          = Some (Html.loading "Failed to load news")
       /\ console w'
          = console (Sample.page_news (Json PNull)) ++ ["News fetch failed:"].
Proof.
  assert (Hf : has "news-source-filter" (Sample.page_news (Json PNull)))
    by present.
  assert (He : dom (Sample.page_news (Json PNull)) !! "news-list"
               = Some Sample.blank) by (vm_compute; reflexivity).
  assert (Hd : forall l : list NewsItem, PNull <> PArray l) by discriminate.
  split; [exact Hf|]. split; [exact He|]. split; [exact Hd|].
  destruct (X13_news_not_an_array (Sample.page_news (Json PNull))
              Sample.blank PNull Hf He eq_refl Hd)
    as (w' & Hrun & Hm & Hc & _).
  exists w'. split; [exact Hrun|]. split; [exact Hm | exact Hc].
Defined.

(** The sample page without the alerts panel: the two items arrive and
    the news panel ends with the failure text. *)
Lemma X14_news_overwritten_witness :
  has "news-source-filter" (Cases.page_without "alerts-list")
  /\ dom (Cases.page_without "alerts-list") !! "news-list" = Some Sample.blank
  /\ ~ news_panels (Cases.page_without "alerts-list")
  /\ exists w',
       Dashboard.loadNews (Cases.page_without "alerts-list")
       = (Ok (Fulfilled tt), w')
       /\ markup_of "news-list" w'
          = Some (Html.loading "Failed to load news").
Proof.
  assert (Hf : has "news-source-filter" (Cases.page_without "alerts-list"))
    by present.
  assert (He : dom (Cases.page_without "alerts-list") !! "news-list"
               = Some Sample.blank) by (vm_compute; reflexivity).
  assert (Hn : ~ news_panels (Cases.page_without "alerts-list")).
  { intros (_ & _ & [x Hx] & _). vm_compute in Hx. discriminate Hx. }
  split; [exact Hf|]. split; [exact He|]. split; [exact Hn|].
  exact (X14_news_overwritten (Cases.page_without "alerts-list") Sample.blank
           [Sample.item "Ceasefire announced" false;
            Sample.item "Missile strike reported" true] Hf He eq_refl Hn).
Defined.

(** The GDELT body of the sample page is not JSON. *)
Lemma X15_gdelt_panel_witness :
  dom Sample.page !! "gdelt-list" = Some Sample.blank
  /\ exists w',
       Dashboard.loadGdelt Sample.page = (Ok (Fulfilled tt), w')
       /\ markup_of "gdelt-list" w'
          = Some (gdelt_panel (net_gdelt (net Sample.page))).
Proof.
  assert (He : dom Sample.page !! "gdelt-list" = Some Sample.blank)
    by (vm_compute; reflexivity).
  split; [exact He|].
  destruct (X15_gdelt_panel Sample.page Sample.blank He)
    as (w' & Hrun & Hm & _).
  exists w'. split; [exact Hrun | exact Hm].
Defined.

(** The counters of the sample page: one conflict, and a disasters body
    without a length. *)
Lemma X16_stat_counters_witness :
  dom Sample.page !! "stat-conflicts" = Some Sample.blank
  /\ dom Sample.page !! "stat-disasters" = Some Sample.blank
  /\ exists w',
       Dashboard.loadStats Sample.page = (Ok (Fulfilled tt), w')
       /\ text_of "stat-conflicts" w'
          = Some (stat_text (textContent Sample.blank)
                    (net_conflicts (net Sample.page)))
       /\ text_of "stat-disasters" w'
          = Some (stat_text (textContent Sample.blank)
                    (net_disasters (net Sample.page))).
Proof.
  assert (Hc : dom Sample.page !! "stat-conflicts" = Some Sample.blank)
    by (vm_compute; reflexivity).
  assert (Hd : dom Sample.page !! "stat-disasters" = Some Sample.blank)
    by (vm_compute; reflexivity).
  split; [exact Hc|]. split; [exact Hd|].
  destruct (X16_stat_counters Sample.page Sample.blank Sample.blank Hc Hd)
    as (w' & Hrun & Htc & Htd & _).
  exists w'. split; [exact Hrun|]. split; [exact Htc | exact Htd].
Defined.

(** The earthquake of the sample network, loaded on the page with its
    map: one marker, and the counter shows 1. *)
Lemma X17_earthquakes_loaded_witness :
  layerGroups Sample.page_with_map !! "earthquakes" = Some []
  /\ dom Sample.page_with_map !! "stat-earthquakes" = Some Sample.blank
  /\ net_earthquakes (net Sample.page_with_map)
     = Json (PArray [Sample.quake (52 # 10)])
  /\ exists w',
       Dashboard.loadEarthquakes Sample.page_with_map
       = (Ok (Fulfilled tt), w')
       /\ requests w'
          = requests Sample.page_with_map ++ ["/api/earthquakes"]
       /\ layerGroups w' !! "earthquakes"
          = Some [WorldMap.earthquakeMarker (Sample.quake (52 # 10))]
       /\ text_of "stat-earthquakes" w' = Some "1".
Proof.
  assert (Hg : layerGroups Sample.page_with_map !! "earthquakes" = Some [])
    by (vm_compute; reflexivity).
  assert (He : dom Sample.page_with_map !! "stat-earthquakes"
               = Some Sample.blank) by (vm_compute; reflexivity).
  split; [exact Hg|]. split; [exact He|]. split; [reflexivity|].
  destruct (X17_earthquakes_loaded Sample.page_with_map Sample.blank [] Hg He)
    as (w' & Hrun & Hr & Hcase).
  change (net_earthquakes (net Sample.page_with_map))
    with (Json (PArray [Sample.quake (52 # 10)])) in Hcase.
  destruct Hcase as (_ & _ & Hwf).
  destruct Hwf as (Hgroup & Htext & _); [repeat constructor|].
  exists w'. split; [exact Hrun|]. split; [exact Hr|].
  split; [exact Hgroup | exact Htext].
Defined.

(** A click on the alerts button of the sample page. *)
Lemma X18_alerts_click_witness :
  dom Sample.page !! "btn-alerts" = Some Sample.blank
  /\ has "news-source-filter" Sample.page
  /\ exists w',
       Dashboard.run_callback CbAlertsClick Sample.page = (Ok tt, w')
       /\ alertsOnly w' = negb (alertsOnly Sample.page)
       /\ requests w'
          = requests Sample.page
            ++ [Dashboard.news_url (current_source Sample.page)
                  (negb (alertsOnly Sample.page))].
Proof.
  assert (He : dom Sample.page !! "btn-alerts" = Some Sample.blank)
    by (vm_compute; reflexivity).
  assert (Hf : has "news-source-filter" Sample.page) by present.
  split; [exact He|]. split; [exact Hf|].
  exact (proj1 (X18_alerts_click Sample.page Sample.blank He Hf)).
Defined.

(** The source filter of the sample page, given an item of Reuters and
    two of the BBC: one option for each source, the BBC first. *)
Lemma X19_source_filter_witness :
  let wire :=
    {| news_source := "Reuters"; news_title := "Talks resume";
       news_link := ""; news_published := ""; news_summary := Js.Null;
       is_alert := false |} in
  let l := [wire; Sample.item "a" false; Sample.item "b" true] in
  dom Sample.page !! "news-source-filter" = Some Sample.blank
  /\ exists w',
       Dashboard.updateSourceFilter l Sample.page = (Ok tt, w')
       /\ markup_of "news-source-filter" w'
          = Some [Html.Option_ "" false "All Sources";
                  Html.Option_ "BBC" false "BBC";
                  Html.Option_ "Reuters" false "Reuters"].
Proof.
  intros wire l.
  assert (He : dom Sample.page !! "news-source-filter" = Some Sample.blank)
    by (vm_compute; reflexivity).
  split; [exact He|].
  destruct (X19_source_filter l Sample.page) as (_ & _ & _ & _ & Hrun & _).
  destruct (Hrun Sample.blank He) as (w' & Hw & Hm & _).
  exists w'. split; [exact Hw | exact Hm].
Defined.

(** A refresh of the sample page leaves the clock alone. *)
Lemma X20_refresh_writes_only_witness :
  ("clock" ∉ refresh_elements)
  /\ dom (exec Dashboard.loadAllData Sample.page) !! "clock"
     = dom Sample.page !! "clock".
Proof.
  assert (Hk : "clock" ∉ refresh_elements).
  { intros Hin. apply list_elem_of_In in Hin. vm_compute in Hin.
    intuition discriminate. }
  split; [exact Hk|].
  destruct (X20_refresh_writes_only Sample.page) as (Hd & _).
  apply Hd, Hk.
Defined.

(** [init] on the sample page issues the seven requests. *)
Lemma X21_init_requests_and_listeners_witness :
  page_ready Sample.page
  /\ exists w',
       Dashboard.init Sample.page = (Ok tt, w')
       /\ requests w' = requests Sample.page ++ refresh_urls Sample.page.
Proof.
  pose proof sample_page_ready as Hpage.
  split; [exact Hpage|].
  destruct (X21_init_requests_and_listeners Sample.page Hpage)
    as (w' & Hrun & Hr & _).
  exists w'. split; [exact Hrun | exact Hr].
Defined.

End Evaluated.
